(** * llm-router: the complexity classifier and the tiered dispatcher

    A shallow embedding of [classifier.ts] (both revisions found in the
    repository) and of the [LLMRouter] class of [router.ts], followed by the
    properties the design document states about them.

    Layout:
    - [JS]      : the fragment of JavaScript strings the classifier uses
                  (UTF-16 code units, [toLowerCase], [includes], [split],
                  [trim], [join], template-literal numbers);
    - [RegExp]  : a backtracking matcher for the regular-expression
                  fragment the classifier's patterns are written in, with a
                  parser so that patterns are quoted from the source;
    - the records of [types.ts];
    - [Common]  : the functions both revisions of the classifier share;
    - [Classifier]   : [src/src/classifier.ts] (English tables);
    - [ClassifierFR] : the bilingual revision of [classifier.ts]
                       (English and French tables, two more detectors,
                       heavier weights);
    - [Router]  : [routeRequest] and [routeStreamingRequest];
    - [RouterClient] : [isDirectAnthropic], [createClient] and the
                       constructor of [router.ts];
    - [Config], [ConfigStrict] : the two revisions of [validateConfig];
    - [Server]  : the chat-completions handler of [server.ts];
    - the properties, each after the lemmas it needs. *)

From Stdlib Require Import ZArith NArith List Bool String Ascii Lia.
From Stdlib Require Import DecimalString.
Import ListNotations.

Local Open Scope Z_scope.

(* ================================================================== *)
(** ** JavaScript strings *)
(* ================================================================== *)

Module JS.

(** A JavaScript string is a sequence of UTF-16 code units. *)
Definition jsstring := list N.

(** [text.length] *)
Definition length (s : jsstring) : Z := Z.of_nat (List.length s).

(** Decoding of a UTF-8 literal of this file into code units, so that the
    tables below can quote the source's literals. *)
Definition emit (cp : N) : list N :=
  if (cp <? 65536)%N then [cp]
  else [(55296 + (cp - 65536) / 1024)%N; (56320 + (cp - 65536) mod 1024)%N].

Fixpoint utf8 (need : nat) (acc : N) (bs : list N) : list N :=
  match bs with
  | [] => []
  | b :: bs' =>
      if (b <? 128)%N then b :: utf8 0 0%N bs'
      else if (b <? 192)%N then
        let acc' := (acc * 64 + (b - 128))%N in
        match need with
        | 1%nat => emit acc' ++ utf8 0 0%N bs'
        | _ => utf8 (Nat.pred need) acc' bs'
        end
      else if (b <? 224)%N then utf8 1 (b - 192)%N bs'
      else if (b <? 240)%N then utf8 2 (b - 224)%N bs'
      else utf8 3 (b - 240)%N bs'
  end.

Definition lit (s : string) : jsstring :=
  utf8 0 0%N (List.map N_of_ascii (list_ascii_of_string s)).

(** [`${n}`] for an integer [n]. *)
Definition numToString (n : Z) : jsstring :=
  List.map N_of_ascii
    (list_ascii_of_string (NilZero.string_of_int (Z.to_int n))).

Definition eqb (a b : jsstring) : bool :=
  if list_eq_dec N.eq_dec a b then true else false.

(** [s.startsWith(p)] *)
Fixpoint startsWith (p s : jsstring) : bool :=
  match p, s with
  | [], _ => true
  | _ :: _, [] => false
  | a :: p', b :: s' => (a =? b)%N && startsWith p' s'
  end.

(** [s.includes(p)] *)
Fixpoint includes (s p : jsstring) : bool :=
  startsWith p s ||
  match s with
  | [] => false
  | _ :: s' => includes s' p
  end.

(** [parts.join(sep)] *)
Fixpoint join (sep : jsstring) (parts : list jsstring) : jsstring :=
  match parts with
  | [] => []
  | [p] => p
  | p :: rest => p ++ sep ++ join sep rest
  end.

(** [s.split(sep)] for a one-unit separator: the pieces between the
    separators, one piece (the empty string) for the empty string. *)
Fixpoint split1 (sep : N) (s : jsstring) : list jsstring :=
  match s with
  | [] => [[]]
  | c :: s' =>
      if (c =? sep)%N then [] :: split1 sep s'
      else match split1 sep s' with
           | [] => [[c]]
           | p :: ps => (c :: p) :: ps
           end
  end.

(** WhiteSpace and LineTerminator code units (ECMA-262 12.2, 12.3): what
    [trim] strips and what [\s] matches. *)
Definition isLineTerminator (c : N) : bool :=
  ((c =? 10) || (c =? 13) || (c =? 8232) || (c =? 8233))%N.

Definition isWhiteSpace (c : N) : bool :=
  ((c =? 9) || (c =? 11) || (c =? 12) || (c =? 32) || (c =? 160)
   || (c =? 5760) || ((8192 <=? c) && (c <=? 8202)) || (c =? 8239)
   || (c =? 8287) || (c =? 12288) || (c =? 65279))%N
  || isLineTerminator c.

Fixpoint trimStart (s : jsstring) : jsstring :=
  match s with
  | c :: s' => if isWhiteSpace c then trimStart s' else s
  | [] => []
  end.

(** [s.trim()] *)
Definition trim (s : jsstring) : jsstring :=
  rev (trimStart (rev (trimStart s))).

(** [toLowerCase], one code unit at a time.  The table covers every code
    unit whose lower-case form contains a Basic Latin or Latin-1 unit: the
    letters A-Z and their Latin-1 counterparts, U+0130 (which lowers to
    [i] followed by U+0307), the Kelvin and Angstrom signs, U+0178 and
    U+1E9E.  Other units are kept: their lower-case forms contain no unit
    that occurs in a keyword of the classifier, so [includes] cannot tell
    the difference. *)
Definition lowerUnit (c : N) : list N :=
  if ((65 <=? c) && (c <=? 90))%N then [(c + 32)%N]
  else if ((192 <=? c) && (c <=? 222) && negb (c =? 215))%N then [(c + 32)%N]
  else if (c =? 304)%N then [105%N; 775%N]
  else if (c =? 376)%N then [255%N]
  else if (c =? 7838)%N then [223%N]
  else if (c =? 8490)%N then [107%N]
  else if (c =? 8491)%N then [229%N]
  else [c].

Definition toLowerCase (s : jsstring) : jsstring := flat_map lowerUnit s.

End JS.

Definition jsstring : Type := JS.jsstring.

(** [js "..."] quotes a string literal of the source. *)
Definition js (s : string) : jsstring := JS.lit s.
Arguments js s%_string.

(* ================================================================== *)
(** ** Regular expressions *)
(* ================================================================== *)

(** The patterns of [classifier.ts] use literals, the escapes [\s \S \w \d
    \n \b], the dot, bracketed classes without ranges, groups, alternation
    and the quantifiers [* + ? *?], under the flags [i], [g] and [m], in
    the non-Unicode mode of ECMA-262.  The matcher below is the
    backtracking matcher of the standard restricted to that fragment: a
    pattern maps a position to the list of positions where a match may
    end, in the order in which backtracking tries them. *)

Module RegExp.

Inductive atom : Type :=
| AChar (c : N)
| ASpace | ANotSpace
| AWord | ANotWord
| ADigit | ANotDigit.

Inductive assertion : Type := Bol | Eol | WordB | NotWordB.

Inductive node : Type :=
| Empty
| Dot
| Atom (a : atom)
| Class (neg : bool) (items : list atom)
| Seq (a b : node)
| Alt (a b : node)
| Star (greedy : bool) (a : node)
| Assert (a : assertion).

Record flags : Type := { ignoreCase : bool; global : bool; multiline : bool }.

(** *** Parsing the pattern text *)

Definition isAlnum (c : N) : bool :=
  (((48 <=? c) && (c <=? 57)) || ((65 <=? c) && (c <=? 90))
   || ((97 <=? c) && (c <=? 122)))%N.

(** What follows a backslash, inside or outside a class. *)
Definition escape (c : N) : option atom :=
  match c with
  | 115 (* s *) => Some ASpace
  | 83  (* S *) => Some ANotSpace
  | 119 (* w *) => Some AWord
  | 87  (* W *) => Some ANotWord
  | 100 (* d *) => Some ADigit
  | 68  (* D *) => Some ANotDigit
  | 110 (* n *) => Some (AChar 10)
  | 114 (* r *) => Some (AChar 13)
  | 116 (* t *) => Some (AChar 9)
  | _ => if isAlnum c then None else Some (AChar c)
  end%N.

(** The items of a bracketed class up to the closing bracket.  A hyphen
    is a literal when it is first or last; ranges are not part of the
    fragment and are refused. *)
Fixpoint parseClass (first : bool) (s : list N) : option (list atom * list N) :=
  match s with
  | [] => None
  | 93 (* ] *) :: r => Some ([], r)
  | 92 (* \ *) :: c :: r =>
      match escape c, parseClass false r with
      | Some a, Some (items, r') => Some (a :: items, r')
      | _, _ => None
      end
  | 92 :: [] => None
  | 45 (* - *) :: r =>
      match r with
      | 93 :: _ => match parseClass false r with
                   | Some (items, r') => Some (AChar 45 :: items, r')
                   | None => None
                   end
      | _ => if first
             then match parseClass false r with
                  | Some (items, r') => Some (AChar 45 :: items, r')
                  | None => None
                  end
             else None
      end
  | c :: r =>
      match parseClass false r with
      | Some (items, r') => Some (AChar c :: items, r')
      | None => None
      end
  end%N.

(** A quantifier after an atom, if there is one. *)
Definition parseQuantifier (a : node) (s : list N) : option (node * list N) :=
  match s with
  | 42 (* * *) :: 63 (* ? *) :: r => Some (Star false a, r)
  | 42 :: r => Some (Star true a, r)
  | 43 (* + *) :: 63 :: r => Some (Seq a (Star false a), r)
  | 43 :: r => Some (Seq a (Star true a), r)
  | 63 :: 63 :: r => Some (Alt Empty a, r)
  | 63 :: r => Some (Alt a Empty, r)
  | 123 (* { *) :: _ => None
  | _ => Some (a, s)
  end%N.

Fixpoint parseDisjunction (fuel : nat) (s : list N) : option (node * list N) :=
  match fuel with
  | O => None
  | S f =>
      match parseAlternative f s with
      | Some (a, 124 (* | *) :: r) =>
          match parseDisjunction f r with
          | Some (b, r') => Some (Alt a b, r')
          | None => None
          end
      | other => other
      end
  end%N
with parseAlternative (fuel : nat) (s : list N) : option (node * list N) :=
  match fuel with
  | O => None
  | S f =>
      match s with
      | [] => Some (Empty, s)
      | 124 :: _ => Some (Empty, s)
      | 41 (* ) *) :: _ => Some (Empty, s)
      | _ =>
          match parseTerm f s with
          | Some (t, r) =>
              match parseAlternative f r with
              | Some (Empty, r') => Some (t, r')
              | Some (a, r') => Some (Seq t a, r')
              | None => None
              end
          | None => None
          end
      end
  end%N
with parseTerm (fuel : nat) (s : list N) : option (node * list N) :=
  match fuel with
  | O => None
  | S f =>
      match s with
      | 94 (* ^ *) :: r => Some (Assert Bol, r)
      | 36 (* $ *) :: r => Some (Assert Eol, r)
      | 92 :: 98 (* \b *) :: r => Some (Assert WordB, r)
      | 92 :: 66 (* \B *) :: r => Some (Assert NotWordB, r)
      | 46 (* . *) :: r => parseQuantifier Dot r
      | 40 (* ( *) :: 63 :: 58 (* ?: *) :: r =>
          match parseDisjunction f r with
          | Some (d, 41 :: r') => parseQuantifier d r'
          | _ => None
          end
      | 40 :: 63 :: _ => None
      | 40 :: r =>
          match parseDisjunction f r with
          | Some (d, 41 :: r') => parseQuantifier d r'
          | _ => None
          end
      | 91 (* [ *) :: 94 :: r =>
          match parseClass true r with
          | Some (items, r') => parseQuantifier (Class true items) r'
          | None => None
          end
      | 91 :: r =>
          match parseClass true r with
          | Some (items, r') => parseQuantifier (Class false items) r'
          | None => None
          end
      | 92 :: c :: r =>
          match escape c with
          | Some a => parseQuantifier (Atom a) r
          | None => None
          end
      | 42 :: _ | 43 :: _ | 63 :: _ | 123 :: _ | 125 :: _ | 93 :: _
      | 92 :: [] | [] => None
      | c :: r => parseQuantifier (Atom (AChar c)) r
      end
  end%N.

Definition parse (src : jsstring) : option node :=
  match parseDisjunction (3 * List.length src + 3) src with
  | Some (n, []) => Some n
  | _ => None
  end.

Fixpoint parseFlags (s : list N) (f : flags) : flags :=
  match s with
  | 105 (* i *) :: r =>
      parseFlags r {| ignoreCase := true; global := global f; multiline := multiline f |}
  | 103 (* g *) :: r =>
      parseFlags r {| ignoreCase := ignoreCase f; global := true; multiline := multiline f |}
  | 109 (* m *) :: r =>
      parseFlags r {| ignoreCase := ignoreCase f; global := global f; multiline := true |}
  | _ => f
  end%N.

(** A compiled pattern; a pattern text outside the fragment compiles to
    the pattern that never matches ([Class false []]), and [wellFormed]
    tells the two apart. *)
Record regexp : Type := { source : string; body : node; flag : flags }.

Definition never : node := Class false [].

Definition re (src flagsText : string) : regexp :=
  {| source := src;
     body := match parse (JS.lit src) with Some n => n | None => never end;
     flag := parseFlags (JS.lit flagsText)
               {| ignoreCase := false; global := false; multiline := false |} |}.

Arguments re (src flagsText)%_string.

(** The flags of a pattern literal written without any. *)
Definition noFlags : string := EmptyString.

Definition wellFormed (r : regexp) : bool :=
  match parse (JS.lit (source r)) with Some _ => true | None => false end.

(** *** Matching *)

(** Canonicalize (ECMA-262 22.2.2.7.3) without the [u] flag: the
    upper-case form when it is one code unit, except that a unit above
    127 never folds into Basic Latin.  The table covers Basic Latin and
    Latin-1; other units are kept, which no literal of the classifier's
    patterns can observe. *)
Definition canonicalize (ic : bool) (c : N) : N :=
  if negb ic then c
  else if ((97 <=? c) && (c <=? 122))%N then (c - 32)%N
  else if ((224 <=? c) && (c <=? 254) && negb (c =? 247))%N then (c - 32)%N
  else if (c =? 255)%N then 376%N
  else if (c =? 181)%N then 924%N
  else c.

Definition isWordChar (c : N) : bool := isAlnum c || (c =? 95)%N.
Definition isDigit (c : N) : bool := ((48 <=? c) && (c <=? 57))%N.

Definition atomMatches (ic : bool) (a : atom) (c : N) : bool :=
  match a with
  | AChar p => (canonicalize ic p =? canonicalize ic c)%N
  | ASpace => JS.isWhiteSpace c
  | ANotSpace => negb (JS.isWhiteSpace c)
  | AWord => isWordChar c
  | ANotWord => negb (isWordChar c)
  | ADigit => isDigit c
  | ANotDigit => negb (isDigit c)
  end.

(** A position in the subject: the unit before it, if any, and the rest. *)
Definition pos : Type := (option N * list N)%type.

Definition wordBefore (p : pos) : bool :=
  match fst p with Some c => isWordChar c | None => false end.
Definition wordAfter (p : pos) : bool :=
  match snd p with c :: _ => isWordChar c | [] => false end.

Definition holds (f : flags) (a : assertion) (p : pos) : bool :=
  match a with
  | Bol => match fst p with
           | None => true
           | Some c => multiline f && JS.isLineTerminator c
           end
  | Eol => match snd p with
           | [] => true
           | c :: _ => multiline f && JS.isLineTerminator c
           end
  | WordB => xorb (wordBefore p) (wordAfter p)
  | NotWordB => negb (xorb (wordBefore p) (wordAfter p))
  end.

Definition step (ok : N -> bool) (p : pos) : list pos :=
  match snd p with
  | c :: r => if ok c then [(Some c, r)] else []
  | [] => []
  end.

Definition advanced (p q : pos) : bool :=
  (List.length (snd q) <? List.length (snd p))%nat.

(** The ends of the matches of a node that start at [p], most preferred
    first.  An iteration of a star that consumes nothing is abandoned, as
    in RepeatMatcher. *)
Fixpoint ends (f : flags) (n : node) (p : pos) : list pos :=
  match n with
  | Empty => [p]
  | Dot => step (fun c => negb (JS.isLineTerminator c)) p
  | Atom a => step (atomMatches (ignoreCase f) a) p
  | Class neg items =>
      step (fun c => xorb neg (existsb (fun a => atomMatches (ignoreCase f) a c) items)) p
  | Seq a b => flat_map (ends f b) (ends f a p)
  | Alt a b => ends f a p ++ ends f b p
  | Star greedy a =>
      (fix loop (fuel : nat) (p : pos) {struct fuel} : list pos :=
         match fuel with
         | O => [p]
         | S fuel' =>
             let more :=
               flat_map (fun q => if advanced p q then loop fuel' q else [])
                        (ends f a p) in
             if greedy then more ++ [p] else p :: more
         end) (List.length (snd p)) p
  | Assert a => if holds f a p then [p] else []
  end.

(** The first match at or after [p]: where it starts and where it ends. *)
Fixpoint search (r : regexp) (prev : option N) (s : list N) {struct s}
  : option (pos * pos) :=
  match ends (flag r) (body r) (prev, s) with
  | e :: _ => Some ((prev, s), e)
  | [] => match s with
          | [] => None
          | c :: s' => search r (Some c) s'
          end
  end.

(** [pattern.test(text)] for a pattern without the [g] flag. *)
Definition test (r : regexp) (text : jsstring) : bool :=
  match search r None text with Some _ => true | None => false end.

(** The pieces of [text] cut by the successive matches of a [g] pattern:
    the text before each match paired with that match, and the text left
    after the last one.  After an empty match the search resumes one unit
    further (AdvanceStringIndex). *)
Fixpoint scan (fuel : nat) (r : regexp) (prev : option N) (s : list N)
  : list (jsstring * jsstring) * jsstring :=
  match fuel with
  | O => ([], s)
  | S fuel' =>
      match search r prev s with
      | None => ([], s)
      | Some (b, e) =>
          let skipped := (List.length s - List.length (snd b))%nat in
          let taken := (List.length (snd b) - List.length (snd e))%nat in
          let before := firstn skipped s in
          let matched := firstn taken (snd b) in
          match taken, snd e with
          | O, [] => ([(before, matched)], [])
          | O, c :: rest =>
              let (ms, tail) := scan fuel' r (Some c) rest in
              match ms with
              | [] => ([(before, matched)], c :: tail)
              | (b', m') :: ms' => ((before, matched) :: (c :: b', m') :: ms', tail)
              end
          | _, _ =>
              let (ms, tail) := scan fuel' r (fst e) (snd e) in
              ((before, matched) :: ms, tail)
          end
      end
  end.

(** [text.match(pattern) ?? []] for a [g] pattern: all the matches. *)
Definition matchAll (r : regexp) (text : jsstring) : list jsstring :=
  List.map snd (fst (scan (S (List.length text)) r None text)).

(** [text.replace(pattern, by)] for a [g] pattern and a replacement text
    without [$]. *)
Definition replaceAll (r : regexp) (by_ : jsstring) (text : jsstring) : jsstring :=
  let (ms, tail) := scan (S (List.length text)) r None text in
  flat_map (fun bm => fst bm ++ by_) ms ++ tail.

End RegExp.

(* ================================================================== *)
(** ** types.ts *)
(* ================================================================== *)

(** JavaScript numbers are modelled by integers: the thresholds are read
    with [parseInt], and lengths, counts and scores are integers. *)

Inductive Role : Type := system | user | assistant | tool.

Definition Role_eqb (a b : Role) : bool :=
  match a, b with
  | system, system | user, user | assistant, assistant | tool, tool => true
  | _, _ => false
  end.

Inductive ContentPart : Type :=
| TextPart (text : jsstring)          (* { type: 'text'; text } *)
| ImageUrlPart (url : jsstring).      (* { type: 'image_url'; image_url: { url } } *)

(** [content: string | ContentPart[]]; [OtherContent] stands for a value
    that is neither (a [null] in a request body, say), which the type
    excludes and [extractTextContent] still answers. *)
Inductive Content : Type :=
| StringContent (s : jsstring)
| ArrayContent (parts : list ContentPart)
| OtherContent.

Record ChatMessage : Type := {
  role : Role;
  content : Content;
  name : option jsstring;
  tool_calls : option (list jsstring);
  tool_call_id : option jsstring
}.

Record ClassificationThresholds : Type := {
  minLengthForPower : Z;
  minCodeLinesForPower : Z;
  minScoreForPower : Z
}.

Record ClassificationResult : Type := {
  usePowerModel : bool;
  score : Z;
  signals : list jsstring;
  reason : jsstring
}.

Inductive Provider : Type := ollama | anthropic | openai.

Record ModelConfig : Type := {
  provider : Provider;
  model : jsstring;
  baseUrl : jsstring;
  apiKey : option jsstring
}.

Record RouterConfig : Type := {
  port : Z;
  host : jsstring;
  defaultModel : ModelConfig;
  powerModel : ModelConfig;
  thresholds : ClassificationThresholds;
  debug : bool
}.

(** [temperature] and [max_tokens] are only handed on to the backend. *)
Record ChatCompletionRequest : Type := {
  request_model : option jsstring;
  messages : list ChatMessage;
  stream : option bool;
  temperature : option Z;
  max_tokens : option Z
}.

Inductive Tier : Type := default | power.

Inductive FinishReason : Type := stop | length_ | tool_calls_ | null_.

Record ChatChoice : Type := {
  index : Z;
  message : ChatMessage;
  finish_reason : FinishReason
}.

Record Usage : Type := {
  prompt_tokens : Z;
  completion_tokens : Z;
  total_tokens : Z
}.

Record RouterInfo : Type := {
  tier : Tier;
  router_model : jsstring;
  router_score : Z;
  router_signals : list jsstring
}.

Record ChatCompletionResponse : Type := {
  id : jsstring;
  created : Z;
  response_model : jsstring;
  choices : list ChatChoice;
  usage : option Usage;
  _router : option RouterInfo
}.

Record Delta : Type := {
  delta_role : option Role;
  delta_content : option jsstring
}.

Record StreamChoice : Type := {
  stream_index : Z;
  delta : Delta;
  stream_finish_reason : FinishReason
}.

Record StreamChunk : Type := {
  chunk_id : jsstring;
  chunk_created : Z;
  chunk_model : jsstring;
  chunk_choices : list StreamChoice
}.

(* ================================================================== *)
(** ** classifier.ts: what both revisions share *)
(* ================================================================== *)

(** The object [{ score, signals }] that the scorer builds and returns. *)
Module Scored.
Record t : Type := { score : Z; signals : list jsstring }.
End Scored.

Module Common.

Definition nl : jsstring := [10%N].

Definition isTextPart (part : ContentPart) : bool :=
  match part with TextPart _ => true | ImageUrlPart _ => false end.

Definition partText (part : ContentPart) : jsstring :=
  match part with TextPart t => t | ImageUrlPart _ => [] end.

(** [extractTextContent] *)
Definition extractTextContent (messages : list ChatMessage) : jsstring :=
  JS.join nl
    (map (fun msg =>
            match content msg with
            | StringContent s => s
            | ArrayContent parts =>
                JS.join nl (map partText (filter isTextPart parts))
            | OtherContent => []
            end)
         messages).

Definition codeBlockRegex : RegExp.regexp := RegExp.re "```[\s\S]*?```" "g".
Definition openingFence : RegExp.regexp := RegExp.re "```\w*\n?" "g".
Definition closingFence : RegExp.regexp := RegExp.re "```$" "g".
Definition inlineCode : RegExp.regexp :=
  RegExp.re "^[\t ]*(?:const|let|var|function|class|import|export|if|for|while|return|async|await)\b" "gm".

Definition nonBlank (line : jsstring) : bool :=
  0 <? JS.length (JS.trim line).

(** [countCodeLines] *)
Definition countCodeLines (text : jsstring) : Z :=
  let codeBlocks := RegExp.matchAll codeBlockRegex text in
  let totalLines :=
    fold_left
      (fun totalLines block =>
         let code := RegExp.replaceAll closingFence []
                       (RegExp.replaceAll openingFence [] block) in
         totalLines + Z.of_nat (List.length (filter nonBlank (JS.split1 10 code))))
      codeBlocks 0 in
  let inlineCodeLines := Z.of_nat (List.length (RegExp.matchAll inlineCode text)) in
  totalLines + inlineCodeLines.

(** [countKeywordMatches] *)
Definition countKeywordMatches (text : jsstring) (keywords : list jsstring) : Z :=
  let lowerText := JS.toLowerCase text in
  Z.of_nat
    (List.length
       (filter (fun kw => JS.includes lowerText (JS.toLowerCase kw)) keywords)).

(** [patterns.some((pattern) => pattern.test(text))] *)
Definition some_test (patterns : list RegExp.regexp) (text : jsstring) : bool :=
  existsb (fun pattern => RegExp.test pattern text) patterns.

Definition PROGRAMMING_LANGUAGES : list jsstring :=
  map js
    [ "typescript"; "javascript"; "python"; "rust"; "go"; "java";
      "c++"; "cpp"; "solidity"; "sql"; "graphql" ]%string.

(** The running [score] and [signals] of one scoring pass. *)
Definition start : Scored.t := {| Scored.score := 0; Scored.signals := [] |}.

Definition add (points : Z) (st : Scored.t) : Scored.t :=
  {| Scored.score := Scored.score st + points;
     Scored.signals := Scored.signals st |}.

Definition push (label : jsstring) (st : Scored.t) : Scored.t :=
  {| Scored.score := Scored.score st;
     Scored.signals := Scored.signals st ++ [label] |}.

(** Length factor (0-20 points) *)
Definition lengthFactor (text : jsstring) (thresholds : ClassificationThresholds)
    (st : Scored.t) : Scored.t :=
  let length := JS.length text in
  if minLengthForPower thresholds <? length then
    let lengthScore := Z.min 20 ((length - minLengthForPower thresholds) / 100) in
    let st := add lengthScore st in
    if 5 <? lengthScore
    then push (js "long_message:" ++ JS.numToString length ++ js "chars") st
    else st
  else st.

(** Code lines factor (0-25 points) *)
Definition codeLinesFactor (text : jsstring) (thresholds : ClassificationThresholds)
    (st : Scored.t) : Scored.t :=
  let codeLines := countCodeLines text in
  if minCodeLinesForPower thresholds <? codeLines then
    let codeScore := Z.min 25 ((codeLines - minCodeLinesForPower thresholds) / 2) in
    push (js "code:" ++ JS.numToString codeLines ++ js "lines") (add codeScore st)
  else if 10 <? codeLines then
    push (js "code:" ++ JS.numToString codeLines ++ js "lines") (add 5 st)
  else st.

(** Programming language mentions (0-5 points) *)
Definition programmingLanguages (text : jsstring) (st : Scored.t) : Scored.t :=
  let langMatches := countKeywordMatches text PROGRAMMING_LANGUAGES in
  if 0 <? langMatches then
    push (js "programming:" ++ JS.numToString langMatches ++ js "langs")
         (add (Z.min 5 (langMatches * 2)) st)
  else st.

Definition questionMark : RegExp.regexp := RegExp.re "\?" "g".

(** Question complexity *)
Definition questionComplexity (text : jsstring) (st : Scored.t) : Scored.t :=
  let questionCount := Z.of_nat (List.length (RegExp.matchAll questionMark text)) in
  if 2 <? questionCount then
    push (js "questions:" ++ JS.numToString questionCount)
         (add (Z.min 10 (questionCount * 2)) st)
  else st.

(** Clamp score to 0-100 *)
Definition clamp (st : Scored.t) : Scored.t :=
  {| Scored.score := Z.max 0 (Z.min 100 (Scored.score st));
     Scored.signals := Scored.signals st |}.

(** [classifyRequest], whose text is the same in both revisions, over the
    scorer of the revision. *)
Section ClassifyRequest.

Variable calculateComplexityScore :
  jsstring -> ClassificationThresholds -> Scored.t.

Definition lastUserMessage (messages : list ChatMessage) : option ChatMessage :=
  find (fun m => Role_eqb (role m) user) (rev messages).

Definition classifyRequest (messages : list ChatMessage)
    (thresholds : ClassificationThresholds) : ClassificationResult :=
  let text := extractTextContent messages in
  let lastUserText :=
    match lastUserMessage messages with
    | Some m => extractTextContent [m]
    | None => []
    end in
  let full := calculateComplexityScore text thresholds in
  let last := calculateComplexityScore lastUserText thresholds in
  let fullScore := Scored.score full in
  let lastScore := Scored.score last in
  let score := Z.max fullScore lastScore in
  let signals :=
    if score =? fullScore then Scored.signals full else Scored.signals last in
  let usePowerModel := minScoreForPower thresholds <=? score in
  let reason :=
    if usePowerModel then
      js "Complexity score " ++ JS.numToString score ++ js " >= "
        ++ JS.numToString (minScoreForPower thresholds)
        ++ js " (signals: " ++ JS.join (js ", ") signals ++ js ")"
    else
      js "Complexity score " ++ JS.numToString score ++ js " < "
        ++ JS.numToString (minScoreForPower thresholds)
        ++ js " - using default model" in
  {| usePowerModel := usePowerModel;
     score := score;
     signals := signals;
     reason := reason |}.

End ClassifyRequest.

End Common.

(* ================================================================== *)
(** ** src/src/classifier.ts *)
(* ================================================================== *)

Module Classifier.
Import Common.

Definition POWER_KEYWORDS : list jsstring :=
  map js
    [ (* Architecture & Design *)
      "architect"; "architecture"; "design pattern"; "refactor"; "restructure";
      "scalab"; "microservice"; "distributed"; "system design";
      (* Deep Analysis *)
      "analyze"; "analyse"; "debug"; "diagnose"; "investigate"; "root cause";
      "performance"; "optimize"; "bottleneck"; "memory leak";
      (* Complex Coding *)
      "implement"; "algorithm"; "data structure"; "recursive"; "dynamic programming";
      "concurrency"; "async"; "thread"; "race condition"; "deadlock";
      "security"; "vulnerability"; "exploit"; "injection"; "authentication";
      (* Multi-step Reasoning *)
      "step by step"; "walk me through"; "explain how"; "compare and contrast";
      "pros and cons"; "trade-off"; "tradeoff"; "best approach";
      (* Research & Synthesis *)
      "research"; "synthesize"; "comprehensive"; "in-depth"; "thorough";
      "literature review"; "state of the art" ]%string.

Definition SIMPLE_KEYWORDS : list jsstring :=
  map js
    [ "hello"; "hi"; "thanks"; "thank you"; "ok"; "yes"; "no";
      "what time"; "weather"; "reminder"; "status"; "list";
      "send"; "message"; "email"; "check" ]%string.

Definition multiStepPatterns : list RegExp.regexp :=
  [ RegExp.re "first[\s,]+.*then" "i";
    RegExp.re "step\s*\d" "i";
    RegExp.re "\d+\.\s+\w+.*\n.*\d+\.\s+\w+" RegExp.noFlags;
    RegExp.re "compare\s+\w+\s+(and|vs|versus|with)\s+\w+" "i";
    RegExp.re "what\s+are\s+the\s+(differences?|similarities?)" "i";
    RegExp.re "how\s+(would|should|can|do)\s+(you|i|we)\s+\w+.*\?" "i" ].

(** [detectMultiStepReasoning] *)
Definition detectMultiStepReasoning (text : jsstring) : bool :=
  some_test multiStepPatterns text.

Definition debuggingPatterns : list RegExp.regexp :=
  [ RegExp.re "error:" "i";
    RegExp.re "exception:" "i";
    RegExp.re "traceback" "i";
    RegExp.re "stack\s*trace" "i";
    RegExp.re "failed\s+to" "i";
    RegExp.re "doesn't\s+work" "i";
    RegExp.re "not\s+working" "i";
    RegExp.re "bug\b" "i";
    RegExp.re "fix\s+(this|the|my)" "i" ].

(** [detectDebugging] *)
Definition detectDebugging (text : jsstring) : bool :=
  some_test debuggingPatterns text.

(** Power keywords (0-30 points) *)
Definition powerKeywords (text : jsstring) (st : Scored.t) : Scored.t :=
  let powerMatches := countKeywordMatches text POWER_KEYWORDS in
  if 0 <? powerMatches then
    let keywordScore := Z.min 30 (powerMatches * 6) in
    push (js "power_keywords:" ++ JS.numToString powerMatches) (add keywordScore st)
  else st.

(** Simple keywords (negative, -10 to 0) *)
Definition simpleKeywords (text : jsstring) (st : Scored.t) : Scored.t :=
  let powerMatches := countKeywordMatches text POWER_KEYWORDS in
  let simpleMatches := countKeywordMatches text SIMPLE_KEYWORDS in
  if (0 <? simpleMatches) && (powerMatches =? 0) then
    push (js "simple_keywords:" ++ JS.numToString simpleMatches)
         (add (- Z.min 10 (simpleMatches * 3)) st)
  else st.

(** Multi-step reasoning (0-15 points) *)
Definition multiStepReasoning (text : jsstring) (st : Scored.t) : Scored.t :=
  if detectMultiStepReasoning text
  then push (js "multi_step_reasoning") (add 15 st)
  else st.

(** Debugging context (0-10 points) *)
Definition debuggingContext (text : jsstring) (st : Scored.t) : Scored.t :=
  if detectDebugging text
  then push (js "debugging") (add 10 st)
  else st.

(** [calculateComplexityScore] *)
Definition calculateComplexityScore (text : jsstring)
    (thresholds : ClassificationThresholds) : Scored.t :=
  let st := start in
  let st := lengthFactor text thresholds st in
  let st := codeLinesFactor text thresholds st in
  let st := powerKeywords text st in
  let st := simpleKeywords text st in
  let st := multiStepReasoning text st in
  let st := debuggingContext text st in
  let st := programmingLanguages text st in
  let st := questionComplexity text st in
  clamp st.

(** [classifyRequest] *)
Definition classifyRequest : list ChatMessage -> ClassificationThresholds ->
                             ClassificationResult :=
  Common.classifyRequest calculateComplexityScore.

End Classifier.

(* ================================================================== *)
(** ** classifier.ts, bilingual revision (English and French) *)
(* ================================================================== *)

Module ClassifierFR.
Import Common.

Definition POWER_KEYWORDS : list jsstring :=
  map js
    [ (* Architecture & Design *)
      "architect"; "architecture"; "design pattern"; "refactor"; "restructure";
      "scalab"; "microservice"; "distributed"; "system design";
      "restructurer"; "conception";
      (* Deep Analysis (EN) *)
      "analyze"; "analyse"; "debug"; "diagnose"; "investigate"; "root cause";
      "performance"; "optimize"; "bottleneck"; "memory leak";
      (* Deep Analysis (FR) *)
      "analyser"; "débugger"; "diagnostiquer"; "enquêter"; "cause racine";
      "optimiser"; "goulot"; "fuite mémoire";
      (* Complex Coding *)
      "implement"; "algorithm"; "data structure"; "recursive"; "dynamic programming";
      "concurrency"; "async"; "thread"; "race condition"; "deadlock";
      "security"; "vulnerability"; "exploit"; "injection"; "authentication";
      "implémenter"; "algorithme"; "structure de données"; "récursif";
      "programmation dynamique";
      "concurrence"; "authentification"; "vulnérabilité";
      (* Multi-step Reasoning (EN) *)
      "step by step"; "walk me through"; "explain how"; "compare and contrast";
      "pros and cons"; "trade-off"; "tradeoff"; "best approach";
      (* Multi-step Reasoning (FR) *)
      "étape par étape"; "explique-moi"; "explique moi"; "comment fonctionne";
      "compare"; "avantages et inconvénients"; "pour et contre"; "meilleure approche";
      (* Explanation requests (EN) *)
      "explain"; "describe"; "elaborate"; "summarize"; "summary";
      (* Explanation requests (FR) *)
      "explique"; "expliquer"; "décris"; "décrire"; "résume"; "résumer"; "résumé";
      (* Why/How questions (EN) *)
      "why does"; "why is"; "how does"; "how do"; "how can";
      (* Why/How questions (FR) *)
      "pourquoi"; "comment faire"; "comment est-ce";
      (* Research & Synthesis *)
      "research"; "synthesize"; "comprehensive"; "in-depth"; "thorough";
      "literature review"; "state of the art";
      "recherche"; "synthétiser"; "approfondi"; "complet" ]%string.

Definition SIMPLE_KEYWORDS : list jsstring :=
  map js
    [ (* Greetings (EN) *)
      "hello"; "hi"; "thanks"; "thank you"; "ok"; "yes"; "no";
      (* Greetings (FR) *)
      "salut"; "bonjour"; "coucou"; "merci"; "oui"; "non"; "ça va"; "ca va";
      (* Simple tasks (EN) *)
      "what time"; "weather"; "reminder"; "status"; "list";
      "send"; "message"; "email"; "check";
      (* Simple tasks (FR) *)
      "quelle heure"; "météo"; "meteo"; "rappel"; "statut"; "liste";
      "envoie"; "envoyer"; "message"; "mail"; "vérifie"; "vérifier" ]%string.

Definition multiStepPatterns : list RegExp.regexp :=
  [ (* English patterns *)
    RegExp.re "first[\s,]+.*then" "i";
    RegExp.re "step\s*\d" "i";
    RegExp.re "\d+\.\s+\w+.*\n.*\d+\.\s+\w+" RegExp.noFlags;
    RegExp.re "compare\s+\w+\s+(and|vs|versus|with)\s+\w+" "i";
    RegExp.re "what\s+are\s+the\s+(differences?|similarities?)" "i";
    RegExp.re "how\s+(would|should|can|do)\s+(you|i|we)\s+\w+.*\?" "i";
    (* French patterns *)
    RegExp.re "d'abord[\s,]+.*ensuite" "i";
    RegExp.re "premi[èe]rement[\s,]+.*puis" "i";
    RegExp.re "étape\s*\d" "i";
    RegExp.re "compare[rz]?\s+\w+\s+(et|avec|à|vs)\s+\w+" "i";
    RegExp.re "quelles?\s+(sont|est)\s+(les?\s+)?(différences?|similitudes?)" "i";
    RegExp.re "comment\s+(puis-je|peut-on|faire|est-ce)" "i";
    RegExp.re "explique[\s-]*(moi|nous)?" "i";
    RegExp.re "pourquoi\s+(est-ce|faut-il|ne\s+pas)" "i";
    (* Additional French command patterns for complex requests *)
    RegExp.re "r[ée]sume[\s-]*(moi|nous)?" "i";
    RegExp.re "analyse[\s-]*(moi|nous)?\s+(ce|le|la|les|cet)" "i";
    RegExp.re "d[ée]cris[\s-]*(moi|nous)?" "i";
    RegExp.re "aide[\s-]*(moi|nous)?\s+[àa]\s+(comprendre|d[ée]bugger|analyser|r[ée]soudre|trouver)" "i";
    RegExp.re "help\s+me\s+(understand|debug|analyze|fix|find|solve)" "i" ].

(** [detectMultiStepReasoning] *)
Definition detectMultiStepReasoning (text : jsstring) : bool :=
  some_test multiStepPatterns text.

Definition debuggingPatterns : list RegExp.regexp :=
  [ (* English patterns *)
    RegExp.re "error:" "i";
    RegExp.re "exception:" "i";
    RegExp.re "traceback" "i";
    RegExp.re "stack\s*trace" "i";
    RegExp.re "failed\s+to" "i";
    RegExp.re "doesn't\s+work" "i";
    RegExp.re "not\s+working" "i";
    RegExp.re "bug\b" "i";
    RegExp.re "fix\s+(this|the|my)" "i";
    (* French patterns *)
    RegExp.re "erreur\s*:" "i";
    RegExp.re "ne\s+(fonctionne|marche)\s+(pas|plus)" "i";
    RegExp.re "ça\s+(ne\s+)?(fonctionne|marche)\s+(pas|plus)" "i";
    RegExp.re "corrige[rz]?\s+(ce|le|mon|cette|la|ma)" "i";
    RegExp.re "répare[rz]?\s+(ce|le|mon|cette|la|ma)" "i";
    RegExp.re "problème\s+(avec|de|dans)" "i";
    RegExp.re "échoue\s+à" "i";
    RegExp.re "a\s+échoué" "i" ].

(** [detectDebugging] *)
Definition detectDebugging (text : jsstring) : bool :=
  some_test debuggingPatterns text.

Definition deepQuestionPatterns : list RegExp.regexp :=
  [ RegExp.re "\b(why|pourquoi)\b.*\?" "i";
    RegExp.re "\bhow\s+(does|do|can|could|would|is|are)\b.*\?" "i";
    RegExp.re "\bwhat\s+(is|are)\s+the\s+(difference|reason|cause|mechanism)" "i";
    RegExp.re "\bqu'?est[- ]ce\s+que?\b" "i";
    RegExp.re "\bcomment\s+(ça|cela)?\s*(fonctionne|marche)" "i" ].

Definition academicPatterns : list RegExp.regexp :=
  [ RegExp.re "\b(theory|theorem|principle|concept|hypothesis)\b" "i";
    RegExp.re "\b(théorie|théorème|principe|concept|hypothèse)\b" "i";
    RegExp.re "\b(quantum|relativity|physics|mathematics|philosophy)\b" "i";
    RegExp.re "\b(quantique|relativité|physique|mathématiques?|philosophie)\b" "i";
    RegExp.re "\b(mécanique|thermodynamique|électromagnétisme)\b" "i" ].

(** Power keywords (0-40 points) *)
Definition powerKeywords (text : jsstring) (st : Scored.t) : Scored.t :=
  let powerMatches := countKeywordMatches text POWER_KEYWORDS in
  if 0 <? powerMatches then
    let keywordScore := Z.min 40 (powerMatches * 10) in
    push (js "power_keywords:" ++ JS.numToString powerMatches) (add keywordScore st)
  else st.

(** Simple keywords (negative, -10 to 0) *)
Definition simpleKeywords (text : jsstring) (st : Scored.t) : Scored.t :=
  let powerMatches := countKeywordMatches text POWER_KEYWORDS in
  let simpleMatches := countKeywordMatches text SIMPLE_KEYWORDS in
  if (0 <? simpleMatches) && (powerMatches =? 0) then
    push (js "simple_keywords:" ++ JS.numToString simpleMatches)
         (add (- Z.min 10 (simpleMatches * 3)) st)
  else st.

(** Multi-step reasoning (0-30 points) *)
Definition multiStepReasoning (text : jsstring) (st : Scored.t) : Scored.t :=
  if detectMultiStepReasoning text
  then push (js "multi_step_reasoning") (add 30 st)
  else st.

(** Debugging context (0-25 points) *)
Definition debuggingContext (text : jsstring) (st : Scored.t) : Scored.t :=
  if detectDebugging text
  then push (js "debugging") (add 25 st)
  else st.

(** Deep reasoning questions (0-15 points) *)
Definition deepQuestion (text : jsstring) (st : Scored.t) : Scored.t :=
  if some_test deepQuestionPatterns text && (30 <? JS.length text)
  then push (js "deep_question") (add 15 st)
  else st.

(** Academic/theoretical topics (0-15 points) *)
Definition academicTopic (text : jsstring) (st : Scored.t) : Scored.t :=
  if some_test academicPatterns text
  then push (js "academic_topic") (add 15 st)
  else st.

(** [calculateComplexityScore] *)
Definition calculateComplexityScore (text : jsstring)
    (thresholds : ClassificationThresholds) : Scored.t :=
  let st := start in
  let st := lengthFactor text thresholds st in
  let st := codeLinesFactor text thresholds st in
  let st := powerKeywords text st in
  let st := simpleKeywords text st in
  let st := multiStepReasoning text st in
  let st := debuggingContext text st in
  let st := deepQuestion text st in
  let st := academicTopic text st in
  let st := programmingLanguages text st in
  let st := questionComplexity text st in
  clamp st.

(** [classifyRequest] *)
Definition classifyRequest : list ChatMessage -> ClassificationThresholds ->
                             ClassificationResult :=
  Common.classifyRequest calculateComplexityScore.

End ClassifierFR.

(* ================================================================== *)
(** ** router.ts *)
(* ================================================================== *)

(** The two OpenAI clients are external: a call to
    [client.chat.completions.create] is an oracle on a state of the outside
    world.  The router's own effects are the calls it makes and the lines
    it writes to the console; both are recorded, in order, in a trace. *)

Module Router.

(** A thrown value: an instance of [Error], or anything else. *)
Inductive Thrown : Type :=
| ErrorInstance (message : jsstring)
| NonError (value : jsstring).

Definition instanceofError (e : Thrown) : bool :=
  match e with ErrorInstance _ => true | NonError _ => false end.

Definition Tier_eqb (a b : Tier) : bool :=
  match a, b with
  | default, default | power, power => true
  | _, _ => false
  end.

(** The argument of [create]. *)
Record CreateParams : Type := {
  params_model : jsstring;
  params_messages : list ChatMessage;
  params_temperature : option Z;
  params_max_tokens : option Z;
  params_stream : bool
}.

(** What a client answers to a call with [stream: false]; [None] is a
    [content] that is [null] or absent. *)
Record CompletionMessage : Type := {
  completion_role : Role;
  completion_content : option jsstring;
  completion_refusal : option jsstring
}.

Record CompletionChoice : Type := {
  completion_index : Z;
  completion_message : CompletionMessage;
  completion_finish_reason : FinishReason
}.

Record Completion : Type := {
  completion_id : jsstring;
  completion_created : Z;
  completion_model : jsstring;
  completion_choices : list CompletionChoice;
  completion_usage : option Usage;
  completion_system_fingerprint : option jsstring
}.

(** One element of the stream a client answers with [stream: true]. *)
Record UpstreamDelta : Type := {
  upstream_role : option Role;
  upstream_content : option jsstring;
  upstream_refusal : option jsstring
}.

Record UpstreamChoice : Type := {
  upstream_index : Z;
  upstream_delta : UpstreamDelta;
  upstream_finish_reason : FinishReason
}.

Record UpstreamChunk : Type := {
  upstream_id : jsstring;
  upstream_created : Z;
  upstream_model : jsstring;
  upstream_choices : list UpstreamChoice;
  upstream_system_fingerprint : option jsstring
}.

(** The stream itself: finitely many chunks, then the end or an error. *)
Inductive Upstream : Type :=
| Ended
| Failed (e : Thrown)
| Item (chunk : UpstreamChunk) (rest : Upstream).

Inductive Event : Type :=
| ConsoleLog (streaming : bool) (classification : ClassificationResult)
| ConsoleWarn (line : jsstring)
| Create (client : Tier) (params : CreateParams).

Section WithBackends.

Variable World : Type.

(** [client.chat.completions.create({..., stream: false})] and
    [client.chat.completions.create({..., stream: true})] on the client
    of a tier. *)
Variable create :
  Tier -> CreateParams -> World -> (Thrown + Completion) * World.
Variable createStream :
  Tier -> CreateParams -> World -> (Thrown + Upstream) * World.

(** [classifyRequest] as imported from [./classifier.js]. *)
Variable classifyRequest :
  list ChatMessage -> ClassificationThresholds -> ClassificationResult.

(** [this.config] *)
Variable config : RouterConfig.

Record State : Type := { world : World; trace : list Event }.

Inductive Result (A : Type) : Type :=
| Return (a : A)
| Throw (e : Thrown).
Arguments Return {A} a.
Arguments Throw {A} e.

Definition M (A : Type) : Type := State -> Result A * State.

Definition ret {A} (a : A) : M A := fun st => (Return a, st).

Definition throw {A} (e : Thrown) : M A := fun st => (Throw e, st).

Definition bind {A B} (m : M A) (k : A -> M B) : M B :=
  fun st =>
    match m st with
    | (Return a, st') => k a st'
    | (Throw e, st') => (Throw e, st')
    end.

(** [try { body } catch (error) { handler }] *)
Definition tryCatch {A} (body : M A) (handler : Thrown -> M A) : M A :=
  fun st =>
    match body st with
    | (Return a, st') => (Return a, st')
    | (Throw e, st') => handler e st'
    end.

Definition emit (ev : Event) : M unit :=
  fun st => (Return tt, {| world := world st; trace := trace st ++ [ev] |}).

Definition when (b : bool) (m : M unit) : M unit := if b then m else ret tt.

(** [await client.chat.completions.create(params)] with [stream: false] *)
Definition callCreate (client : Tier) (params : CreateParams) : M Completion :=
  fun st =>
    let (answer, w) := create client params (world st) in
    let st' := {| world := w; trace := trace st ++ [Create client params] |} in
    match answer with
    | inl e => (Throw e, st')
    | inr completion => (Return completion, st')
    end.

(** [await client.chat.completions.create(params)] with [stream: true] *)
Definition callCreateStream (client : Tier) (params : CreateParams) : M Upstream :=
  fun st =>
    let (answer, w) := createStream client params (world st) in
    let st' := {| world := w; trace := trace st ++ [Create client params] |} in
    match answer with
    | inl e => (Throw e, st')
    | inr s => (Return s, st')
    end.

Notation "x <- m ;; k" := (bind m (fun x => k))
  (at level 61, m at next level, right associativity).
Notation "m ;;; k" := (bind m (fun _ => k))
  (at level 61, right associativity).

Definition thrownMessage (e : Thrown) : jsstring :=
  match e with ErrorInstance m => m | NonError _ => [] end.

(** The response object that [routeRequest] builds from a completion; the
    source writes this literal out once per branch. *)
Definition buildResponse (completion : Completion) (info : RouterInfo)
  : ChatCompletionResponse :=
  {| id := completion_id completion;
     created := completion_created completion;
     response_model := completion_model completion;
     choices :=
       map (fun choice =>
              {| index := completion_index choice;
                 message :=
                   {| role := completion_role (completion_message choice);
                      content :=
                        StringContent
                          match completion_content (completion_message choice) with
                          | Some c => c
                          | None => []
                          end;
                      name := None; tool_calls := None; tool_call_id := None |};
                 finish_reason := completion_finish_reason choice |})
           (completion_choices completion);
     usage :=
       match completion_usage completion with
       | Some u => Some {| prompt_tokens := prompt_tokens u;
                           completion_tokens := completion_tokens u;
                           total_tokens := total_tokens u |}
       | None => None
       end;
     _router := Some info |}.

(** [routeRequest] *)
Definition routeRequest (request : ChatCompletionRequest)
  : M (ChatCompletionResponse * Tier * ClassificationResult) :=
  let classification := classifyRequest (messages request) (thresholds config) in
  when (debug config) (emit (ConsoleLog false classification)) ;;;
  let tier := if usePowerModel classification then power else default in
  let client := if usePowerModel classification then power else default in
  let modelConfig :=
    if usePowerModel classification then powerModel config else defaultModel config in
  tryCatch
    (completion <- callCreate client
                     {| params_model := model modelConfig;
                        params_messages := messages request;
                        params_temperature := temperature request;
                        params_max_tokens := max_tokens request;
                        params_stream := false |} ;;
     let response :=
       buildResponse completion
         {| tier := tier;
            router_model := model modelConfig;
            router_score := score classification;
            router_signals := signals classification |} in
     ret (response, tier, classification))
    (fun error =>
       (* If default model fails, try power model as fallback *)
       if Tier_eqb tier default && instanceofError error then
         emit (ConsoleWarn (js "[Router] Default model failed: "
                              ++ thrownMessage error
                              ++ js ". Falling back to power model.")) ;;;
         completion <- callCreate power
                         {| params_model := model (powerModel config);
                            params_messages := messages request;
                            params_temperature := temperature request;
                            params_max_tokens := max_tokens request;
                            params_stream := false |} ;;
         let response :=
           buildResponse completion
             {| tier := power;
                router_model := model (powerModel config);
                router_score := score classification;
                router_signals :=
                  signals classification ++ [js "fallback_after_error"] |} in
         ret (response, power, classification)
       else throw error).

(** The chunk that the generator yields for an upstream chunk. *)
Definition normalizeChunk (chunk : UpstreamChunk) : StreamChunk :=
  {| chunk_id := upstream_id chunk;
     chunk_created := upstream_created chunk;
     chunk_model := upstream_model chunk;
     chunk_choices :=
       map (fun choice =>
              {| stream_index := upstream_index choice;
                 delta := {| delta_role := upstream_role (upstream_delta choice);
                             delta_content := upstream_content (upstream_delta choice) |};
                 stream_finish_reason := upstream_finish_reason choice |})
           (upstream_choices chunk) |}.

(** [routeStreamingRequest] is an async generator.  Calling it runs
    nothing; each [next()] runs the body up to the next [yield], to the end
    or to a throw.  The generator is suspended at its start, suspended at
    the [yield] inside the [for await] loop with the rest of the stream to
    read, or completed. *)
Inductive Generator : Type :=
| SuspendedStart (request : ChatCompletionRequest)
| SuspendedYield (stream : Upstream)
| Completed.

Inductive Next : Type :=
| Yielded (value : StreamChunk) (resume : Generator)
| Finished
| Raised (e : Thrown).

(** [for await (const chunk of stream) { yield {...} }], up to its first
    suspension. *)
Definition forAwait (stream : Upstream) : Next :=
  match stream with
  | Item chunk rest => Yielded (normalizeChunk chunk) (SuspendedYield rest)
  | Ended => Finished
  | Failed e => Raised e
  end.

Definition routeStreamingRequest (request : ChatCompletionRequest) : Generator :=
  SuspendedStart request.

Definition next (g : Generator) (st : State) : Next * State :=
  match g with
  | SuspendedStart request =>
      let classification := classifyRequest (messages request) (thresholds config) in
      let client := if usePowerModel classification then power else default in
      let modelConfig :=
        if usePowerModel classification then powerModel config else defaultModel config in
      match
        (when (debug config) (emit (ConsoleLog true classification)) ;;;
         callCreateStream client
           {| params_model := model modelConfig;
              params_messages := messages request;
              params_temperature := temperature request;
              params_max_tokens := max_tokens request;
              params_stream := true |}) st
      with
      | (Return stream, st') => (forAwait stream, st')
      | (Throw e, st') => (Raised e, st')
      end
  | SuspendedYield stream => (forAwait stream, st)
  | Completed => (Finished, st)
  end.

(** A consumer that reads the generator to its end, as the server's
    [for await] does: the chunks it received, how the sequence ended
    ([None] for a normal end), and the state afterwards.  [None] when the
    fuel runs out first. *)
Fixpoint consume (fuel : nat) (g : Generator) (st : State)
  : option (list StreamChunk * option Thrown * State) :=
  match fuel with
  | O => None
  | S fuel' =>
      match next g st with
      | (Yielded value g', st') =>
          match consume fuel' g' st' with
          | Some (values, ending, st'') => Some (value :: values, ending, st'')
          | None => None
          end
      | (Finished, st') => Some ([], None, st')
      | (Raised e, st') => Some ([], Some e, st')
      end
  end.

Fixpoint chunksOf (stream : Upstream) : list UpstreamChunk :=
  match stream with
  | Item chunk rest => chunk :: chunksOf rest
  | _ => []
  end.

Fixpoint endingOf (stream : Upstream) : option Thrown :=
  match stream with
  | Item _ rest => endingOf rest
  | Ended => None
  | Failed e => Some e
  end.

(** The calls to a backend recorded in a trace. *)
Definition isCreate (ev : Event) : bool :=
  match ev with Create _ _ => true | _ => false end.

Definition calls (events : list Event) : list Event := filter isCreate events.

End WithBackends.

Arguments Return {A} a.
Arguments Throw {A} e.
Arguments Build_State {World} world trace.
Arguments world {World} s.
Arguments trace {World} s.

End Router.

(* ================================================================== *)
(** * Properties *)
(* ================================================================== *)

(** The thresholds of [loadConfig] when the environment sets none. *)
Definition defaultThresholds : ClassificationThresholds :=
  {| minLengthForPower := 500; minCodeLinesForPower := 30; minScoreForPower := 50 |}.

Definition userMessage (text : jsstring) : ChatMessage :=
  {| role := user; content := StringContent text;
     name := None; tool_calls := None; tool_call_id := None |}.

(** The last message whose role is [user], read off the sequence from
    its front, as the design document words it; [classifyRequest] finds it
    by reversing a copy of the array. *)
Fixpoint lastUser (messages : list ChatMessage) : option ChatMessage :=
  match messages with
  | [] => None
  | m :: rest =>
      match lastUser rest with
      | Some u => Some u
      | None => if Role_eqb (role m) user then Some m else None
      end
  end.

(** The text of one message, as the design document words it: a string
    content verbatim, the [text] parts of a structured content each
    followed by a newline except the last. *)
Fixpoint textOfParts (parts : list ContentPart) : jsstring :=
  match parts with
  | [] => []
  | ImageUrlPart _ :: rest => textOfParts rest
  | TextPart t :: rest =>
      if existsb Common.isTextPart rest then t ++ [10%N] ++ textOfParts rest
      else t
  end.

Definition textOfMessage (m : ChatMessage) : jsstring :=
  match content m with
  | StringContent s => s
  | ArrayContent parts => textOfParts parts
  | OtherContent => []
  end.

Definition lastUserText (messages : list ChatMessage) : jsstring :=
  match lastUser messages with
  | Some m => textOfMessage m
  | None => []
  end.

(** The label prefixes of the detectors, in the order of the scoring pass. *)
Definition labelPrefixes : list jsstring :=
  map js [ "long_message:"; "code:"; "power_keywords:"; "simple_keywords:";
           "multi_step_reasoning"; "debugging"; "deep_question";
           "academic_topic"; "programming:"; "questions:" ]%string.

(** How many labels of a signal list start with a prefix. *)
Definition occurrences (p : jsstring) (labels : list jsstring) : nat :=
  List.length (filter (JS.startsWith p) labels).

(** [s] followed by [n] further occurrences of [k]. *)
Fixpoint appendOccurrences (s k : jsstring) (n : nat) : jsstring :=
  match n with
  | O => s
  | S n' => appendOccurrences s k n' ++ k
  end.

(** Thirty lines that each consist of the word [async]. *)
Definition thirtyAsyncLines : jsstring :=
  List.concat (repeat (js "async" ++ [10%N]) 30).

(** Whether two prefixes differ at a position that both have. *)
Fixpoint clash (p q : jsstring) : bool :=
  match p, q with
  | a :: p', b :: q' => if (a =? b)%N then clash p' q' else true
  | _, _ => false
  end.

(** [picks ps labels]: [labels] takes, in order, at most one label from
    each prefix of [ps], a label of a prefix being that prefix followed by
    some text. *)
Inductive picks : list jsstring -> list jsstring -> Prop :=
| picks_nil : picks [] []
| picks_skip p ps labels : picks ps labels -> picks (p :: ps) labels
| picks_take p rest ps labels :
    picks ps labels -> picks (p :: ps) ((p ++ rest) :: labels).

(** The tier that a classification selects, and the argument of the call
    that the router makes on a tier for a request. *)
Definition selectedTier (c : ClassificationResult) : Tier :=
  if usePowerModel c then power else default.

Definition modelOf (config : RouterConfig) (t : Tier) : jsstring :=
  match t with
  | default => model (defaultModel config)
  | power => model (powerModel config)
  end.

Definition paramsFor (config : RouterConfig) (t : Tier)
    (request : ChatCompletionRequest) (streaming : bool) : Router.CreateParams :=
  {| Router.params_model := modelOf config t;
     Router.params_messages := messages request;
     Router.params_temperature := temperature request;
     Router.params_max_tokens := max_tokens request;
     Router.params_stream := streaming |}.

(** The state once the debug line, if any, is on the console. *)
Definition logged {World} (config : RouterConfig) (streaming : bool)
    (c : ClassificationResult) (st : Router.State World) : Router.State World :=
  if debug config
  then {| Router.world := Router.world st;
          Router.trace := Router.trace st ++ [Router.ConsoleLog streaming c] |}
  else st.

Definition fallbackWarning (message : jsstring) : Router.Event :=
  Router.ConsoleWarn (js "[Router] Default model failed: " ++ message
                        ++ js ". Falling back to power model.").

(** A configuration, a request and two backends to run the router on:
    the default backend throws a given value, the power backend answers. *)
Definition sampleConfig : RouterConfig :=
  {| port := 5555;
     host := js "127.0.0.1";
     defaultModel := {| provider := ollama; model := js "qwen3:14b";
                        baseUrl := js "http://localhost:11434/v1"; apiKey := None |};
     powerModel := {| provider := anthropic; model := js "claude-opus-4-5-20250205";
                      baseUrl := js "https://api.anthropic.com";
                      apiKey := Some (js "sk-ant") |};
     thresholds := defaultThresholds;
     debug := false |}.

Definition sampleRequest : ChatCompletionRequest :=
  {| request_model := None;
     messages := [userMessage (js "Hello!")];
     stream := None;
     temperature := Some 1;
     max_tokens := Some 256 |}.

Definition sampleCompletion : Router.Completion :=
  {| Router.completion_id := js "chatcmpl-1";
     Router.completion_created := 1700000000;
     Router.completion_model := js "claude-opus-4-5-20250205";
     Router.completion_choices :=
       [ {| Router.completion_index := 0;
            Router.completion_message :=
              {| Router.completion_role := assistant;
                 Router.completion_content := Some (js "Hi.");
                 Router.completion_refusal := None |};
            Router.completion_finish_reason := stop |} ];
     Router.completion_usage := None;
     Router.completion_system_fingerprint := None |}.

Definition defaultThrows (e : Router.Thrown)
  : Tier -> Router.CreateParams -> unit -> (Router.Thrown + Router.Completion) * unit :=
  fun client _ w =>
    match client with
    | default => (inl e, w)
    | power => (inr sampleCompletion, w)
    end.

(** The text of the test "should give high score for complex messages":
    [Array(40).fill('const x = 1;').join('\n')] inside a fenced block. *)
Definition complexText : jsstring :=
  js "
I need to refactor the architecture of our microservices system.
We have performance issues and need to debug the bottlenecks.
First, analyze the current state, then propose a new design.
Here's the current code:
```typescript
" ++ JS.join [10%N] (repeat (js "const x = 1;") 40) ++ js "
```
    ".

(** A stream of one chunk that then fails. *)
Definition sampleStream : Router.Upstream :=
  Router.Item
    {| Router.upstream_id := js "chatcmpl-2";
       Router.upstream_created := 1700000001;
       Router.upstream_model := js "qwen3:14b";
       Router.upstream_choices :=
         [ {| Router.upstream_index := 0;
              Router.upstream_delta :=
                {| Router.upstream_role := Some assistant;
                   Router.upstream_content := Some (js "Hi");
                   Router.upstream_refusal := None |};
              Router.upstream_finish_reason := null_ |} ];
       Router.upstream_system_fingerprint := Some (js "fp") |}
    (Router.Failed (Router.ErrorInstance (js "connection reset"))).

(* ================================================================== *)
(** ** router.ts: the clients *)
(* ================================================================== *)

(** [new OpenAI(options)] is external; a client is modelled by the options
    it is built from. *)
Module RouterClient.

Definition Provider_eqb (a b : Provider) : bool :=
  match a, b with
  | ollama, ollama | anthropic, anthropic | openai, openai => true
  | _, _ => false
  end.

Record ClientOptions : Type := {
  client_apiKey : jsstring;
  client_baseURL : jsstring;
  client_defaultHeaders : option (list (jsstring * jsstring))
}.

(** [isDirectAnthropic] *)
Definition isDirectAnthropic (config : ModelConfig) : bool :=
  Provider_eqb (provider config) anthropic
  && JS.includes (baseUrl config) (js "api.anthropic.com").

(** [createClient] *)
Definition createClient (config : ModelConfig) : ClientOptions :=
  let baseURL :=
    if isDirectAnthropic config then js "https://api.anthropic.com/v1"
    else baseUrl config in
  {| client_apiKey := match apiKey config with
                      | Some key => key
                      | None => js "not-required"
                      end;
     client_baseURL := baseURL;
     client_defaultHeaders :=
       if isDirectAnthropic config
       then Some [(js "anthropic-version", js "2023-06-01")]
       else None |}.

(** The fields of an [LLMRouter] after its constructor. *)
Record LLMRouter : Type := {
  router_config : RouterConfig;
  defaultClient : ClientOptions;
  powerClient : ClientOptions
}.

Definition constructor (config : RouterConfig) : LLMRouter :=
  {| router_config := config;
     defaultClient := createClient (defaultModel config);
     powerClient := createClient (powerModel config) |}.

(** [getConfig] *)
Definition getConfig (this : LLMRouter) : RouterConfig := router_config this.

End RouterClient.

(* ================================================================== *)
(** ** config.ts *)
(* ================================================================== *)

(** A value that [!] negates to [true]: an absent key or the empty string. *)
Definition missing (key : option jsstring) : bool :=
  match key with
  | None => true
  | Some k => match k with [] => true | _ :: _ => false end
  end.

Definition emptyString (s : jsstring) : bool :=
  match s with [] => true | _ :: _ => false end.

(** The revision of [config.ts] that knows about proxies. *)
Module Config.

(** [isDefaultProviderUrl], which the file calls with the two provider
    names of its table; any other name of a provider has no entry. *)
Definition isDefaultProviderUrl (providerName : jsstring) (url : jsstring) : bool :=
  let urls :=
    if JS.eqb providerName (js "anthropic")
    then [js "https://api.anthropic.com"; js "api.anthropic.com"]
    else if JS.eqb providerName (js "openai")
    then [js "https://api.openai.com"; js "api.openai.com"]
    else [] in
  existsb (fun u => JS.includes url u) urls.

(** [validateConfig] *)
Definition validateConfig (config : RouterConfig) : list jsstring :=
  let errors := [] in
  let errors :=
    if (port config <? 1) || (65535 <? port config)
    then errors ++ [js "Port must be between 1 and 65535"] else errors in
  let errors :=
    if emptyString (baseUrl (defaultModel config))
    then errors ++ [js "Default model base URL is required"] else errors in
  let errors :=
    if emptyString (baseUrl (powerModel config))
    then errors ++ [js "Power model base URL is required"] else errors in
  let errors :=
    if RouterClient.Provider_eqb (provider (powerModel config)) anthropic
       && missing (apiKey (powerModel config))
    then
      if isDefaultProviderUrl (js "anthropic") (baseUrl (powerModel config))
      then errors ++ [js "Power model API key is required for direct Anthropic access"]
      else errors
    else errors in
  let errors :=
    if RouterClient.Provider_eqb (provider (powerModel config)) openai
       && missing (apiKey (powerModel config))
    then
      if isDefaultProviderUrl (js "openai") (baseUrl (powerModel config))
      then errors ++ [js "Power model API key is required for direct OpenAI access"]
      else errors
    else errors in
  errors.

End Config.

(** The other revision of [config.ts], without the proxy rule. *)
Module ConfigStrict.

(** [validateConfig] *)
Definition validateConfig (config : RouterConfig) : list jsstring :=
  let errors := [] in
  let errors :=
    if (port config <? 1) || (65535 <? port config)
    then errors ++ [js "Port must be between 1 and 65535"] else errors in
  let errors :=
    if emptyString (baseUrl (defaultModel config))
    then errors ++ [js "Default model base URL is required"] else errors in
  let errors :=
    if emptyString (baseUrl (powerModel config))
    then errors ++ [js "Power model base URL is required"] else errors in
  let errors :=
    if RouterClient.Provider_eqb (provider (powerModel config)) anthropic
       && missing (apiKey (powerModel config))
    then errors ++ [js "Power model API key is required for Anthropic"]
    else errors in
  let errors :=
    if RouterClient.Provider_eqb (provider (powerModel config)) openai
       && missing (apiKey (powerModel config))
    then errors ++ [js "Power model API key is required for OpenAI"]
    else errors in
  errors.

End ConfigStrict.

(* ================================================================== *)
(** ** server.ts: the chat-completions handler *)
(* ================================================================== *)

(** Fastify and [JSON.stringify] are external.  The handler's effects on
    the reply are recorded: the status code it sets, the headers it sets
    on the raw response, what it writes to it, and whether it ends it.
    What the handler returns is the payload that Fastify sends; what
    Fastify does with a handler that throws is not modelled. *)
Module Server.

(** The fields that the handler reads of [request.body].  [body_messages]
    is [None] when the field is absent, falsy or not an array, as it is
    for a body that is a string, a number or a boolean.  The handler
    takes [request.body] as an [option Body]: [None] is the [undefined]
    of a request sent without a body, and [null]. *)
Record Body : Type := {
  body_model : option jsstring;
  body_messages : option (list ChatMessage);
  body_stream : option bool;
  body_temperature : option Z;
  body_max_tokens : option Z
}.

Record Reply : Type := {
  code : option Z;
  headers : list (jsstring * jsstring);
  written : list jsstring;
  ended : bool
}.

Inductive Payload : Type :=
| ErrorBody (message type_ : jsstring)     (* { error: { message, type } } *)
| ResponseBody (response : ChatCompletionResponse)
| NoBody.                                  (* [return;] *)

(** How a run of the handler ends: it returns a payload, or the read of
    [body.messages] throws a [TypeError], there being no body to read. *)
Inductive Outcome : Type :=
| Returns (payload : Payload)
| ThrowsTypeError.

Definition setCode (c : Z) (r : Reply) : Reply :=
  {| code := Some c; headers := headers r; written := written r; ended := ended r |}.

Definition setHeader (k v : jsstring) (r : Reply) : Reply :=
  {| code := code r; headers := headers r ++ [(k, v)];
     written := written r; ended := ended r |}.

Definition write (data : jsstring) (r : Reply) : Reply :=
  {| code := code r; headers := headers r;
     written := written r ++ [data]; ended := ended r |}.

Definition end_ (r : Reply) : Reply :=
  {| code := code r; headers := headers r; written := written r; ended := true |}.

(** [error instanceof Error ? error.message : 'Unknown error'] *)
Definition errorMessage (e : Router.Thrown) : jsstring :=
  match e with
  | Router.ErrorInstance m => m
  | Router.NonError _ => js "Unknown error"
  end.

Definition tierName (t : Tier) : jsstring :=
  match t with default => js "default" | power => js "power" end.

(** The body seen as the request it is handed on as. *)
Definition toRequest (body : Body) (msgs : list ChatMessage) : ChatCompletionRequest :=
  {| request_model := body_model body;
     messages := msgs;
     stream := body_stream body;
     temperature := body_temperature body;
     max_tokens := body_max_tokens body |}.

Section WithRouter.

Variable World : Type.
Variable create :
  Tier -> Router.CreateParams -> World -> (Router.Thrown + Router.Completion) * World.
Variable createStream :
  Tier -> Router.CreateParams -> World -> (Router.Thrown + Router.Upstream) * World.
Variable classifyRequest :
  list ChatMessage -> ClassificationThresholds -> ClassificationResult.
Variable config : RouterConfig.

(** [JSON.stringify(chunk)] and [JSON.stringify({ error: { message } })] *)
Variable stringifyChunk : StreamChunk -> jsstring.
Variable stringifyError : jsstring -> jsstring.

Record State : Type := {
  router : Router.State World;
  reply : Reply;
  console : list jsstring
}.

Definition frame (json : jsstring) : jsstring :=
  js "data: " ++ json ++ [10%N; 10%N].

Definition doneFrame : jsstring := js "data: [DONE]" ++ [10%N; 10%N].

(** The [for await] loop of the streaming branch, from a state of the
    generator: each chunk is written as it arrives.  The result is how the
    loop left ([None] for its normal end); [None] overall when the fuel
    runs out first. *)
Fixpoint writeChunks (fuel : nat) (g : Router.Generator)
    (st : Router.State World) (r : Reply)
  : option (option Router.Thrown * Router.State World * Reply) :=
  match fuel with
  | O => None
  | S fuel' =>
      match Router.next World createStream classifyRequest config g st with
      | (Router.Yielded chunk g', st') =>
          writeChunks fuel' g' st' (write (frame (stringifyChunk chunk)) r)
      | (Router.Finished, st') => Some (None, st', r)
      | (Router.Raised e, st') => Some (Some e, st', r)
      end
  end.

(** The handler of [POST /v1/chat/completions]. *)
Definition chatCompletions (fuel : nat) (requestBody : option Body) (s : State)
  : option (Outcome * State) :=
  match requestBody with
  | None => Some (ThrowsTypeError, s)
  | Some body =>
  match body_messages body with
  | None =>
      Some (Returns
              (ErrorBody (js "messages array is required") (js "invalid_request_error")),
            {| router := router s; reply := setCode 400 (reply s);
               console := console s |})
  | Some msgs =>
      let request := toRequest body msgs in
      match body_stream body with
      | Some true =>
          (* Handle streaming *)
          let r := setHeader (js "Content-Type") (js "text/event-stream") (reply s) in
          let r := setHeader (js "Cache-Control") (js "no-cache") r in
          let r := setHeader (js "Connection") (js "keep-alive") r in
          match writeChunks fuel (Router.routeStreamingRequest request) (router s) r with
          | None => None
          | Some (None, st, r) =>
              Some (Returns NoBody,
                    {| router := st; reply := end_ (write doneFrame r);
                       console := console s |})
          | Some (Some error, st, r) =>
              let message := errorMessage error in
              Some (Returns NoBody,
                    {| router := st;
                       reply := end_ (write (frame (stringifyError message)) r);
                       console := console s |})
          end
      | _ =>
          (* Non-streaming *)
          match Router.routeRequest World create classifyRequest config request (router s) with
          | (Router.Return (response, tier, classification), st) =>
              Some (Returns (ResponseBody response),
                    {| router := st; reply := reply s;
                       console :=
                         if debug config
                         then console s
                                ++ [js "[Server] Request routed to " ++ tierName tier
                                      ++ js " model (score: "
                                      ++ JS.numToString (score classification) ++ js ")"]
                         else console s |})
          | (Router.Throw error, st) =>
              let message := errorMessage error in
              Some (Returns (ErrorBody message (js "api_error")),
                    {| router := st; reply := setCode 500 (reply s);
                       console := console s |})
          end
      end
  end
  end.

End WithRouter.

Arguments Build_State {World} router reply console.
Arguments router {World} s.
Arguments reply {World} s.
Arguments console {World} s.

End Server.

(** The labels a detector pushes: one label when its test holds. *)
Definition opt (c : bool) (label : jsstring) : list jsstring :=
  if c then [label] else [].

(** How many code units of a text are a given one. *)
Fixpoint countUnit (k : N) (s : jsstring) : nat :=
  match s with
  | [] => O
  | c :: s' => if (c =? k)%N then S (countUnit k s') else countUnit k s'
  end.

(** Whether a list is obtained from another by deleting elements. *)
Fixpoint subsequence (l1 l2 : list jsstring) : bool :=
  match l1, l2 with
  | [], _ => true
  | _ :: _, [] => false
  | x :: l1', y :: l2' =>
      if JS.eqb x y then subsequence l1' l2' else subsequence l1 l2'
  end.

(** The shape of a detector's block: when its test holds, it adds its
    points and pushes its label. *)
Definition fires (c : bool) (points : Z) (label : jsstring) (st : Scored.t) : Scored.t :=
  if c then Common.push label (Common.add points st) else st.

(** A request body, a fresh reply and stand-ins for [JSON.stringify] to
    run the handler on. *)
Definition sampleBody : Server.Body :=
  {| Server.body_model := None;
     Server.body_messages := Some [userMessage (js "Hello!")];
     Server.body_stream := None;
     Server.body_temperature := Some 1;
     Server.body_max_tokens := Some 256 |}.

Definition freshReply : Server.Reply :=
  {| Server.code := None; Server.headers := []; Server.written := [];
     Server.ended := false |}.

Definition freshState : Server.State unit :=
  {| Server.router := {| Router.world := tt; Router.trace := [] |};
     Server.reply := freshReply;
     Server.console := [] |}.

Definition sampleStringifyChunk (chunk : StreamChunk) : jsstring :=
  js "{id:" ++ chunk_id chunk ++ js "}".

Definition sampleStringifyError (message : jsstring) : jsstring :=
  js "{error:" ++ message ++ js "}".

Definition streamsSample
  : Tier -> Router.CreateParams -> unit -> (Router.Thrown + Router.Upstream) * unit :=
  fun _ _ w => (inr sampleStream, w).

Definition sampleStreamingBody : Server.Body :=
  {| Server.body_model := None;
     Server.body_messages := Some [userMessage (js "Hello!")];
     Server.body_stream := Some true;
     Server.body_temperature := None;
     Server.body_max_tokens := None |}.

(** ** Lines that begin with a statement keyword *)

(** The line terminators, after which [^] matches under the [m] flag. *)
Definition lineBreak (c : N) : bool :=
  ((c =? 10) || (c =? 13) || (c =? 8232) || (c =? 8233))%N.

(** The units of the class [[\t ]]. *)
Definition blank (c : N) : bool := ((c =? 9) || (c =? 32))%N.

(** The units of [\w]: digits, letters and the underscore. *)
Definition wordUnit (c : N) : bool :=
  (((48 <=? c) && (c <=? 57)) || ((65 <=? c) && (c <=? 90))
   || ((97 <=? c) && (c <=? 122)) || (c =? 95))%N.

(** The lines of a text: the pieces between line terminators. *)
Fixpoint linesOf (s : jsstring) : list jsstring :=
  match s with
  | [] => [[]]
  | c :: s' =>
      if lineBreak c then [] :: linesOf s'
      else match linesOf s' with
           | [] => [[c]]
           | line :: lines => (c :: line) :: lines
           end
  end.

(** A text without its leading tabs and spaces. *)
Fixpoint dropBlanks (s : jsstring) : jsstring :=
  match s with
  | c :: s' => if blank c then dropBlanks s' else s
  | [] => []
  end.

(** The words of the inline-code pattern. *)
Definition statementKeywords : list jsstring :=
  map js [ "const"; "let"; "var"; "function"; "class"; "import"; "export";
           "if"; "for"; "while"; "return"; "async"; "await" ]%string.

(** A text begins with a word that ends there: the text ends after
    the word, or goes on with a unit that is not a word unit. *)
Definition beginsWith (kw s : jsstring) : bool :=
  JS.startsWith kw s
  && match skipn (List.length kw) s with
     | c :: _ => negb (wordUnit c)
     | [] => true
     end.

(** A line begins, after tabs and spaces, with a statement keyword. *)
Definition beginsStatement (line : jsstring) : bool :=
  existsb (fun kw => beginsWith kw (dropBlanks line)) statementKeywords.

(** The pattern of a literal word, and of an alternation, as the parser
    builds them. *)
Fixpoint wordNode (w : list N) : RegExp.node :=
  match w with
  | [] => RegExp.Empty
  | [c] => RegExp.Atom (RegExp.AChar c)
  | c :: w' => RegExp.Seq (RegExp.Atom (RegExp.AChar c)) (wordNode w')
  end.

Fixpoint altNode (ns : list RegExp.node) : RegExp.node :=
  match ns with
  | [] => RegExp.never
  | [n] => n
  | n :: ns' => RegExp.Alt n (altNode ns')
  end.

(** A position is the start of a line. *)
Definition lineStart (prev : option N) : bool :=
  match prev with None => true | Some c => lineBreak c end.

(** The positions after the leading tabs and spaces of a text, the
    furthest first. *)
Fixpoint blankEnds (prev : option N) (s : jsstring) : list RegExp.pos :=
  match s with
  | c :: t => if blank c then blankEnds (Some c) t ++ [(prev, s)] else [(prev, s)]
  | [] => [(prev, [])]
  end.

(** The number of positions of a text that start a line which begins
    with a statement keyword. *)
Fixpoint startsCount (prev : option N) (s : jsstring) : nat :=
  ((if lineStart prev && beginsStatement s then 1 else 0)
   + match s with
     | [] => 0
     | c :: t => startsCount (Some c) t
     end)%nat.

(** The flags [gm]. *)
Definition gm : RegExp.flags :=
  {| RegExp.ignoreCase := false; RegExp.global := true; RegExp.multiline := true |}.

Definition blanks : RegExp.node :=
  RegExp.Class false [RegExp.AChar 9; RegExp.AChar 32].

(** A word that is not empty, begins with no tab or space, ends with a
    word unit and holds no line terminator. *)
Definition goodKeyword (kw : jsstring) : bool :=
  match kw with [] => false | c :: _ => negb (blank c) end
  && wordUnit (last kw 0%N)
  && forallb (fun c => negb (lineBreak c)) kw.

(** Where the words of a list end in a text that begins with them. *)
Definition candidates (kws : list jsstring) (s : jsstring) : list RegExp.pos :=
  flat_map (fun kw => if beginsWith kw s
                      then [(Some (last kw 0%N), skipn (List.length kw) s)]
                      else [])
           kws.

Definition inlineBody (kws : list jsstring) : RegExp.node :=
  RegExp.Seq (RegExp.Assert RegExp.Bol)
    (RegExp.Seq (RegExp.Star true blanks)
       (RegExp.Seq (altNode (map wordNode kws)) (RegExp.Assert RegExp.WordB))).

(** The first line of a text, and its leading tabs and spaces. *)
Fixpoint firstLine (s : jsstring) : jsstring :=
  match s with
  | c :: t => if lineBreak c then [] else c :: firstLine t
  | [] => []
  end.

Fixpoint takeBlanks (s : jsstring) : jsstring :=
  match s with
  | c :: t => if blank c then c :: takeBlanks t else []
  | [] => []
  end.

(** Four lines, three of which begin with a statement keyword. *)
Definition statementSample : jsstring :=
  js "const a = 1;" ++ [10%N] ++ js "  let b" ++ [13%N; 10%N]
    ++ js "format(x)" ++ [10%N; 9%N] ++ js "if(x) {".

(** The code units of Basic Latin and Latin-1. *)
Definition latin1 (c : N) : bool := (c <? 256)%N.

(** ** The patterns of the source are in the fragment *)

Example patterns_wellFormed :
  forallb RegExp.wellFormed
    ([ Common.codeBlockRegex; Common.openingFence; Common.closingFence;
       Common.inlineCode; Common.questionMark ]
     ++ Classifier.multiStepPatterns ++ Classifier.debuggingPatterns
     ++ ClassifierFR.multiStepPatterns ++ ClassifierFR.debuggingPatterns
     ++ ClassifierFR.deepQuestionPatterns ++ ClassifierFR.academicPatterns)
  = true.
Proof. vm_compute. reflexivity. Qed.

Example pattern_parsed :
  RegExp.body (RegExp.re "fix\s+(this|the|my)" "i")
  = RegExp.Seq (RegExp.Atom (RegExp.AChar 102))
      (RegExp.Seq (RegExp.Atom (RegExp.AChar 105))
         (RegExp.Seq (RegExp.Atom (RegExp.AChar 120))
            (RegExp.Seq
               (RegExp.Seq (RegExp.Atom RegExp.ASpace)
                  (RegExp.Star true (RegExp.Atom RegExp.ASpace)))
               (RegExp.Alt
                  (RegExp.Seq (RegExp.Atom (RegExp.AChar 116))
                     (RegExp.Seq (RegExp.Atom (RegExp.AChar 104))
                        (RegExp.Seq (RegExp.Atom (RegExp.AChar 105))
                           (RegExp.Atom (RegExp.AChar 115)))))
                  (RegExp.Alt
                     (RegExp.Seq (RegExp.Atom (RegExp.AChar 116))
                        (RegExp.Seq (RegExp.Atom (RegExp.AChar 104))
                           (RegExp.Atom (RegExp.AChar 101))))
                     (RegExp.Seq (RegExp.Atom (RegExp.AChar 109))
                        (RegExp.Atom (RegExp.AChar 121))))))))
  /\ RegExp.flag (RegExp.re "fix\s+(this|the|my)" "i")
     = {| RegExp.ignoreCase := true; RegExp.global := false;
          RegExp.multiline := false |}.
Proof. vm_compute. split; reflexivity. Qed.

Example global_match_and_replace :
  RegExp.matchAll (RegExp.re "a*" "g") (js "baac") = [[]; js "aa"; []; []]
  /\ RegExp.replaceAll (RegExp.re "a*" "g") (js "-") (js "baac") = js "-b--c-"
  /\ RegExp.matchAll Common.codeBlockRegex (js "x ```a``` y ```b``` z ```")
     = [js "```a```"; js "```b```"].
Proof. vm_compute. split; [|split]; reflexivity. Qed.

(** ** The unit tests of [classifier.test.ts], replayed on the model *)

Example test_extract_simple :
  Common.extractTextContent
    [ userMessage (js "Hello world");
      {| role := assistant; content := StringContent (js "Hi there!");
         name := None; tool_calls := None; tool_call_id := None |} ]
  = js "Hello world" ++ [10%N] ++ js "Hi there!".
Proof. vm_compute. reflexivity. Qed.

Example test_extract_parts :
  Common.extractTextContent
    [ {| role := user;
         content := ArrayContent [ TextPart (js "Check this image");
                                   ImageUrlPart (js "http://example.com/img.png") ];
         name := None; tool_calls := None; tool_call_id := None |} ]
  = js "Check this image".
Proof. vm_compute. reflexivity. Qed.

Example test_countKeywordMatches :
  Common.countKeywordMatches
    (js "I need to refactor the architecture and debug this issue")
    (map js ["refactor"; "architecture"; "debug"; "optimize"]%string) = 3
  /\ Common.countKeywordMatches (js "REFACTOR the Architecture")
       (map js ["refactor"; "architecture"]%string) = 2
  /\ Common.countKeywordMatches (js "Hello world")
       (map js ["refactor"; "debug"]%string) = 0.
Proof. vm_compute. repeat split; reflexivity. Qed.

Example test_countCodeLines_none :
  Common.countCodeLines (js "Just some regular text without any code.") = 0.
Proof. vm_compute. reflexivity. Qed.

Example test_detectMultiStepReasoning :
  Classifier.detectMultiStepReasoning (js "First we need to analyze, then implement") = true
  /\ Classifier.detectMultiStepReasoning (js "Step 1: Do this") = true
  /\ Classifier.detectMultiStepReasoning (js "Compare React and Vue") = true
  /\ Classifier.detectMultiStepReasoning (js "Hello world") = false.
Proof. vm_compute. repeat split; reflexivity. Qed.

Example test_detectDebugging :
  Classifier.detectDebugging (js "Error: Cannot read property of undefined") = true
  /\ Classifier.detectDebugging (js "My code is not working") = true
  /\ Classifier.detectDebugging (js "Can you fix this bug?") = true
  /\ Classifier.detectDebugging (js "Create a new function") = false.
Proof. vm_compute. repeat split; reflexivity. Qed.

Example test_simple_message :
  Scored.score (Classifier.calculateComplexityScore (js "Hello, how are you?")
                  defaultThresholds) < 30
  /\ Scored.score (ClassifierFR.calculateComplexityScore (js "Hello, how are you?")
                     defaultThresholds) < 30.
Proof. vm_compute. split; reflexivity. Qed.

Example test_classify_simple :
  usePowerModel (Classifier.classifyRequest [userMessage (js "What time is it?")]
                   defaultThresholds) = false
  /\ usePowerModel (ClassifierFR.classifyRequest [userMessage (js "What time is it?")]
                      defaultThresholds) = false.
Proof. vm_compute. split; reflexivity. Qed.

Example test_complex_message :
  50 <= Scored.score (Classifier.calculateComplexityScore complexText defaultThresholds)
  /\ 50 <= Scored.score (ClassifierFR.calculateComplexityScore complexText defaultThresholds)
  /\ existsb (JS.startsWith (js "power_keywords:"))
       (Scored.signals (ClassifierFR.calculateComplexityScore complexText defaultThresholds))
     = true
  /\ existsb (JS.startsWith (js "code:"))
       (Scored.signals (ClassifierFR.calculateComplexityScore complexText defaultThresholds))
     = true.
Proof. vm_compute. split; [|split]; [discriminate | discriminate | split; reflexivity]. Qed.

(** ** The dispatcher on sample backends *)

Example fallback_scenario :
  Router.routeRequest unit (defaultThrows (Router.ErrorInstance (js "ECONNREFUSED")))
    Classifier.classifyRequest sampleConfig sampleRequest
    {| Router.world := tt; Router.trace := [] |}
  = (Router.Return
       (Router.buildResponse sampleCompletion
          {| tier := power;
             router_model := js "claude-opus-4-5-20250205";
             router_score := 0;
             router_signals := [js "simple_keywords:1"; js "fallback_after_error"] |},
        power,
        Classifier.classifyRequest (messages sampleRequest) defaultThresholds),
     {| Router.world := tt;
        Router.trace :=
          [ Router.Create default (paramsFor sampleConfig default sampleRequest false);
            fallbackWarning (js "ECONNREFUSED");
            Router.Create power (paramsFor sampleConfig power sampleRequest false) ] |}).
Proof. vm_compute. reflexivity. Qed.

Example streaming_scenario :
  Router.consume unit (fun _ _ w => (inr sampleStream, w))
    Classifier.classifyRequest sampleConfig 2
    (Router.routeStreamingRequest sampleRequest)
    {| Router.world := tt; Router.trace := [] |}
  = Some ([ {| chunk_id := js "chatcmpl-2";
               chunk_created := 1700000001;
               chunk_model := js "qwen3:14b";
               chunk_choices :=
                 [ {| stream_index := 0;
                      delta := {| delta_role := Some assistant;
                                  delta_content := Some (js "Hi") |};
                      stream_finish_reason := null_ |} ] |} ],
          Some (Router.ErrorInstance (js "connection reset")),
          {| Router.world := tt;
             Router.trace :=
               [Router.Create default (paramsFor sampleConfig default sampleRequest true)] |}).
Proof. vm_compute. reflexivity. Qed.

(** ** The text extractor *)

Lemma join_cons (sep p : jsstring) (rest : list jsstring) :
  rest <> [] -> JS.join sep (p :: rest) = p ++ sep ++ JS.join sep rest.
Proof. destruct rest; [congruence | reflexivity]. Qed.

Lemma join_parts (parts : list ContentPart) :
  JS.join Common.nl (map Common.partText (filter Common.isTextPart parts))
  = textOfParts parts.
Proof.
  induction parts as [|part rest IH]; [reflexivity|].
  destruct part as [t|u]; cbn [filter Common.isTextPart textOfParts]; [|exact IH].
  cbn [map Common.partText].
  destruct (existsb Common.isTextPart rest) eqn:E.
  - rewrite join_cons.
    + now rewrite IH.
    + apply existsb_exists in E. destruct E as (x & Hin & Hx).
      intro Hnil.
      assert (Hf : In x (filter Common.isTextPart rest))
        by (apply filter_In; split; assumption).
      apply (in_map Common.partText) in Hf. rewrite Hnil in Hf. exact Hf.
  - assert (Hnone : filter Common.isTextPart rest = []).
    { clear IH. induction rest as [|y ys IHy]; [reflexivity|].
      cbn [existsb] in E. apply orb_false_iff in E. destruct E as [Ey Eys].
      cbn [filter]. rewrite Ey. now apply IHy. }
    now rewrite Hnone.
Qed.

Lemma extract_single (m : ChatMessage) :
  Common.extractTextContent [m] = textOfMessage m.
Proof.
  unfold Common.extractTextContent, textOfMessage. cbn [map JS.join].
  destruct (content m); [reflexivity | apply join_parts | reflexivity].
Qed.

Lemma extract_cons (m : ChatMessage) (rest : list ChatMessage) :
  rest <> [] ->
  Common.extractTextContent (m :: rest)
  = textOfMessage m ++ [10%N] ++ Common.extractTextContent rest.
Proof.
  intro Hne. unfold Common.extractTextContent at 1. cbn [map].
  rewrite join_cons by (destruct rest; [congruence | discriminate]).
  fold (Common.extractTextContent rest).
  f_equal. rewrite <- extract_single. reflexivity.
Qed.

(** C7. [extractTextContent] is total and is determined by these
    equations: the empty sequence gives the empty string; a sequence of
    one message gives that message's text; a longer sequence gives the
    first message's text, one newline, and the text of the rest; the text
    of a message is its string content verbatim or, for a structured
    content, its [text] parts joined by one newline, image parts
    contributing nothing. *)
Theorem extractTextContent_spec :
  Common.extractTextContent [] = []
  /\ (forall m, Common.extractTextContent [m] = textOfMessage m)
  /\ (forall m m' rest,
        Common.extractTextContent (m :: m' :: rest)
        = textOfMessage m ++ [10%N] ++ Common.extractTextContent (m' :: rest))
  /\ (forall r s n tc ti,
        textOfMessage {| role := r; content := StringContent s; name := n;
                         tool_calls := tc; tool_call_id := ti |} = s)
  /\ (forall r parts n tc ti,
        textOfMessage {| role := r; content := ArrayContent parts; name := n;
                         tool_calls := tc; tool_call_id := ti |}
        = JS.join [10%N] (map Common.partText (filter Common.isTextPart parts)))
  /\ (forall r before url after n tc ti,
        textOfMessage {| role := r;
                         content := ArrayContent (before ++ ImageUrlPart url :: after);
                         name := n; tool_calls := tc; tool_call_id := ti |}
        = textOfMessage {| role := r; content := ArrayContent (before ++ after);
                           name := n; tool_calls := tc; tool_call_id := ti |}).
Proof.
  split; [reflexivity|].
  split; [apply extract_single|].
  split; [intros; apply extract_cons; discriminate|].
  split; [reflexivity|].
  split; [intros; unfold textOfMessage; cbn [content]; symmetry; apply join_parts|].
  intros. unfold textOfMessage. cbn [content].
  rewrite <- !join_parts. rewrite !filter_app. reflexivity.
Qed.

(** ** The scorer *)

Lemma clamp_range (st : Scored.t) : 0 <= Scored.score (Common.clamp st) <= 100.
Proof. unfold Common.clamp. cbn [Scored.score]. lia. Qed.

(** C3. The score of [calculateComplexityScore] lies in [0, 100], for
    every text and all thresholds, in both revisions of the classifier. *)
Theorem calculateComplexityScore_range (s : jsstring) (T : ClassificationThresholds) :
  0 <= Scored.score (Classifier.calculateComplexityScore s T) <= 100
  /\ 0 <= Scored.score (ClassifierFR.calculateComplexityScore s T) <= 100.
Proof.
  split.
  - unfold Classifier.calculateComplexityScore. cbv zeta. apply clamp_range.
  - unfold ClassifierFR.calculateComplexityScore. cbv zeta. apply clamp_range.
Qed.

(** ** The classifier *)

Lemma find_append (f : ChatMessage -> bool) (l l' : list ChatMessage) :
  find f (l ++ l') = match find f l with Some x => Some x | None => find f l' end.
Proof.
  induction l as [|x xs IH]; [reflexivity|].
  cbn [app find]. destruct (f x); [reflexivity | exact IH].
Qed.

Lemma lastUserMessage_lastUser (messages : list ChatMessage) :
  Common.lastUserMessage messages = lastUser messages.
Proof.
  unfold Common.lastUserMessage.
  induction messages as [|m rest IH]; [reflexivity|].
  cbn [rev lastUser]. rewrite <- IH. clear IH.
  rewrite find_append.
  destruct (find _ (rev rest)); reflexivity.
Qed.

Lemma classify_lastUserText (messages : list ChatMessage) :
  match Common.lastUserMessage messages with
  | Some m => Common.extractTextContent [m]
  | None => []
  end = lastUserText messages.
Proof.
  rewrite lastUserMessage_lastUser. unfold lastUserText.
  destruct (lastUser messages); [apply extract_single | reflexivity].
Qed.

Section Decision.

Variable calculateComplexityScore :
  jsstring -> ClassificationThresholds -> Scored.t.

Lemma classify_score (messages : list ChatMessage) (T : ClassificationThresholds) :
  score (Common.classifyRequest calculateComplexityScore messages T)
  = Z.max (Scored.score (calculateComplexityScore (Common.extractTextContent messages) T))
          (Scored.score (calculateComplexityScore (lastUserText messages) T)).
Proof.
  unfold Common.classifyRequest. cbv zeta. cbn [score].
  rewrite classify_lastUserText. reflexivity.
Qed.

Lemma classify_usePowerModel (messages : list ChatMessage) (T : ClassificationThresholds) :
  usePowerModel (Common.classifyRequest calculateComplexityScore messages T)
  = (minScoreForPower T <=?
       score (Common.classifyRequest calculateComplexityScore messages T)).
Proof.
  unfold Common.classifyRequest. cbv zeta. cbn [score usePowerModel]. reflexivity.
Qed.

Lemma classify_decision (messages : list ChatMessage) (T : ClassificationThresholds) :
  usePowerModel (Common.classifyRequest calculateComplexityScore messages T) = true
  <-> Z.max (Scored.score (calculateComplexityScore (Common.extractTextContent messages) T))
            (Scored.score (calculateComplexityScore (lastUserText messages) T))
      >= minScoreForPower T.
Proof.
  rewrite classify_usePowerModel, classify_score. rewrite Z.leb_le. lia.
Qed.

End Decision.

(** C1. [classifyRequest(messages, T).usePowerModel] is true exactly when
    the larger of the score of the full conversation text and the score
    of the last user message's text (the empty text when there is no user
    message) is at least [T.minScoreForPower]; nothing else enters the
    decision.  In both revisions of the classifier. *)
Theorem classifyRequest_decision (messages : list ChatMessage)
    (T : ClassificationThresholds) :
  (usePowerModel (Classifier.classifyRequest messages T) = true
   <-> Z.max (Scored.score (Classifier.calculateComplexityScore
                              (Common.extractTextContent messages) T))
             (Scored.score (Classifier.calculateComplexityScore
                              (lastUserText messages) T))
       >= minScoreForPower T)
  /\ (usePowerModel (ClassifierFR.classifyRequest messages T) = true
      <-> Z.max (Scored.score (ClassifierFR.calculateComplexityScore
                                 (Common.extractTextContent messages) T))
                (Scored.score (ClassifierFR.calculateComplexityScore
                                 (lastUserText messages) T))
          >= minScoreForPower T).
Proof.
  split; apply classify_decision.
Qed.

(** ** The power-keyword detector *)

Lemma countKeywordMatches_nonneg (s : jsstring) (keywords : list jsstring) :
  0 <= Common.countKeywordMatches s keywords.
Proof. unfold Common.countKeywordMatches. lia. Qed.

Lemma powerKeywords_block_FR (s : jsstring) (st : Scored.t) :
  Scored.score (ClassifierFR.powerKeywords s st) - Scored.score st
  = Z.min 40 (Common.countKeywordMatches s ClassifierFR.POWER_KEYWORDS * 10)
  /\ Scored.signals (ClassifierFR.powerKeywords s st)
     = Scored.signals st
         ++ (if 0 <? Common.countKeywordMatches s ClassifierFR.POWER_KEYWORDS
             then [js "power_keywords:"
                     ++ JS.numToString
                          (Common.countKeywordMatches s ClassifierFR.POWER_KEYWORDS)]
             else []).
Proof.
  unfold ClassifierFR.powerKeywords.
  pose proof (countKeywordMatches_nonneg s ClassifierFR.POWER_KEYWORDS) as Hm.
  destruct (Z.ltb_spec 0 (Common.countKeywordMatches s ClassifierFR.POWER_KEYWORDS));
    cbn [Common.push Common.add Scored.score Scored.signals].
  - split; [lia | reflexivity].
  - split; [lia | now rewrite app_nil_r].
Qed.

Lemma powerKeywords_block_EN (s : jsstring) (st : Scored.t) :
  Scored.score (Classifier.powerKeywords s st) - Scored.score st
  = Z.min 30 (Common.countKeywordMatches s Classifier.POWER_KEYWORDS * 6)
  /\ Scored.signals (Classifier.powerKeywords s st)
     = Scored.signals st
         ++ (if 0 <? Common.countKeywordMatches s Classifier.POWER_KEYWORDS
             then [js "power_keywords:"
                     ++ JS.numToString
                          (Common.countKeywordMatches s Classifier.POWER_KEYWORDS)]
             else []).
Proof.
  unfold Classifier.powerKeywords.
  pose proof (countKeywordMatches_nonneg s Classifier.POWER_KEYWORDS) as Hm.
  destruct (Z.ltb_spec 0 (Common.countKeywordMatches s Classifier.POWER_KEYWORDS));
    cbn [Common.push Common.add Scored.score Scored.signals].
  - split; [lia | reflexivity].
  - split; [lia | now rewrite app_nil_r].
Qed.



(** ** Monotonicity under appended keywords *)

Lemma startsWith_app (p s t : jsstring) :
  JS.startsWith p s = true -> JS.startsWith p (s ++ t) = true.
Proof.
  revert s. induction p as [|a p IH]; intros [|b s] H; cbn in *;
    try reflexivity; try discriminate.
  apply andb_true_iff in H. destruct H as [Hab Hp].
  rewrite Hab. cbn. now apply IH.
Qed.

Lemma includes_app_l (s t p : jsstring) :
  JS.includes s p = true -> JS.includes (s ++ t) p = true.
Proof.
  induction s as [|c s IH]; intro H.
  - cbn in H. rewrite orb_false_r in H. destruct p; [|discriminate].
    destruct t; reflexivity.
  - cbn [JS.includes] in H. apply orb_true_iff in H.
    change ((c :: s) ++ t) with (c :: (s ++ t)). cbn [JS.includes].
    apply orb_true_iff. destruct H as [H|H].
    + left. apply (startsWith_app p (c :: s) t H).
    + right. now apply IH.
Qed.

Lemma includes_app_r (s t p : jsstring) :
  JS.includes t p = true -> JS.includes (s ++ t) p = true.
Proof.
  induction s as [|c s IH]; intro H; [exact H|].
  change ((c :: s) ++ t) with (c :: (s ++ t)). cbn [JS.includes].
  apply orb_true_iff. right. now apply IH.
Qed.

Lemma includes_refl (p : jsstring) : JS.includes p p = true.
Proof.
  assert (Hs : forall q : jsstring, JS.startsWith q q = true).
  { induction q as [|a q IH]; [reflexivity|]. cbn. now rewrite N.eqb_refl. }
  destruct p; cbn [JS.includes]; rewrite Hs; reflexivity.
Qed.

Lemma toLowerCase_app (s t : jsstring) :
  JS.toLowerCase (s ++ t) = JS.toLowerCase s ++ JS.toLowerCase t.
Proof. unfold JS.toLowerCase. apply flat_map_app. Qed.

Lemma filter_length_le {A} (f g : A -> bool) (l : list A) :
  (forall x, In x l -> f x = true -> g x = true) ->
  (List.length (filter f l) <= List.length (filter g l))%nat.
Proof.
  induction l as [|x l IH]; intro H; [reflexivity|].
  cbn [filter].
  assert (IH' := IH (fun y Hy => H y (or_intror Hy))).
  destruct (f x) eqn:Ef.
  - rewrite (H x (or_introl eq_refl) Ef). cbn [List.length]. lia.
  - destruct (g x); cbn [List.length]; lia.
Qed.

Lemma countKeywordMatches_app (s t : jsstring) (keywords : list jsstring) :
  Common.countKeywordMatches s keywords
  <= Common.countKeywordMatches (s ++ t) keywords.
Proof.
  unfold Common.countKeywordMatches. apply inj_le.
  apply filter_length_le. intros kw _ H.
  rewrite toLowerCase_app. now apply includes_app_l.
Qed.

Lemma filter_length_pos {A} (f : A -> bool) (l : list A) (x : A) :
  In x l -> f x = true -> (1 <= List.length (filter f l))%nat.
Proof.
  intros Hin Hf.
  assert (Hx : In x (filter f l)) by (apply filter_In; split; assumption).
  destruct (filter f l); [destruct Hx | cbn; lia].
Qed.

Lemma countKeywordMatches_suffix (s k : jsstring) (keywords : list jsstring) :
  In k keywords ->
  1 <= Common.countKeywordMatches (s ++ k) keywords.
Proof.
  intro Hin. unfold Common.countKeywordMatches.
  change 1 with (Z.of_nat 1). apply inj_le.
  apply (filter_length_pos _ _ k Hin).
  rewrite toLowerCase_app. apply includes_app_r. apply includes_refl.
Qed.

Lemma appendOccurrences_app (s k : jsstring) (n : nat) :
  exists t, appendOccurrences s k n = s ++ t.
Proof.
  induction n as [|n [t Ht]].
  - exists []. cbn. now rewrite app_nil_r.
  - exists (t ++ k). cbn [appendOccurrences]. rewrite Ht. now rewrite app_assoc.
Qed.

(** C8, as the code has it.  Appending [n >= 1] occurrences of a keyword
    [k] of the power-keyword table to [s] never decreases the number of
    matched power keywords, hence never decreases the contribution of the
    power-keyword detector, and leaves at least one keyword matched; this
    holds in both revisions.  (The total score is not monotone: see the
    counterexample.) *)
Theorem powerKeywords_monotone (s k : jsstring) (n : nat) (st : Scored.t) :
  (1 <= n)%nat ->
  (In k ClassifierFR.POWER_KEYWORDS ->
   Common.countKeywordMatches s ClassifierFR.POWER_KEYWORDS
   <= Common.countKeywordMatches (appendOccurrences s k n) ClassifierFR.POWER_KEYWORDS
   /\ 1 <= Common.countKeywordMatches (appendOccurrences s k n) ClassifierFR.POWER_KEYWORDS
   /\ Scored.score (ClassifierFR.powerKeywords s st) - Scored.score st
      <= Scored.score (ClassifierFR.powerKeywords (appendOccurrences s k n) st)
         - Scored.score st)
  /\
  (In k Classifier.POWER_KEYWORDS ->
   Common.countKeywordMatches s Classifier.POWER_KEYWORDS
   <= Common.countKeywordMatches (appendOccurrences s k n) Classifier.POWER_KEYWORDS
   /\ 1 <= Common.countKeywordMatches (appendOccurrences s k n) Classifier.POWER_KEYWORDS
   /\ Scored.score (Classifier.powerKeywords s st) - Scored.score st
      <= Scored.score (Classifier.powerKeywords (appendOccurrences s k n) st)
         - Scored.score st).
Proof.
  intro Hn.
  destruct n as [|n]; [lia|].
  destruct (appendOccurrences_app s k n) as [t Ht].
  split; intro Hin.
  - assert (H1 : Common.countKeywordMatches s ClassifierFR.POWER_KEYWORDS
                 <= Common.countKeywordMatches (appendOccurrences s k (S n))
                                               ClassifierFR.POWER_KEYWORDS).
    { cbn [appendOccurrences]. rewrite Ht, <- app_assoc.
      apply countKeywordMatches_app. }
    assert (H2 : 1 <= Common.countKeywordMatches (appendOccurrences s k (S n))
                                                 ClassifierFR.POWER_KEYWORDS).
    { cbn [appendOccurrences]. now apply countKeywordMatches_suffix. }
    split; [exact H1 | split; [exact H2|]].
    destruct (powerKeywords_block_FR s st) as [-> _].
    destruct (powerKeywords_block_FR (appendOccurrences s k (S n)) st) as [-> _].
    lia.
  - assert (H1 : Common.countKeywordMatches s Classifier.POWER_KEYWORDS
                 <= Common.countKeywordMatches (appendOccurrences s k (S n))
                                               Classifier.POWER_KEYWORDS).
    { cbn [appendOccurrences]. rewrite Ht, <- app_assoc.
      apply countKeywordMatches_app. }
    assert (H2 : 1 <= Common.countKeywordMatches (appendOccurrences s k (S n))
                                                 Classifier.POWER_KEYWORDS).
    { cbn [appendOccurrences]. now apply countKeywordMatches_suffix. }
    split; [exact H1 | split; [exact H2|]].
    destruct (powerKeywords_block_EN s st) as [-> _].
    destruct (powerKeywords_block_EN (appendOccurrences s k (S n)) st) as [-> _].
    lia.
Qed.

Lemma In_decide (k : jsstring) (l : list jsstring) :
  existsb (JS.eqb k) l = true -> In k l.
Proof.
  intro H. apply existsb_exists in H. destruct H as (x & Hin & Heq).
  unfold JS.eqb in Heq. destruct (list_eq_dec N.eq_dec k x); [subst; exact Hin | discriminate].
Qed.

(** C8 as stated fails.  With the thresholds of [loadConfig]:
    [thread bug] scores 35 (16 in [src/src/classifier.ts]) and
    [thread bugthread] scores 10 (6), because [/bug\b/] no longer matches;
    thirty lines [async] score 15 (11) and thirty-one score 10 (6),
    because the code-lines detector gives 5 points for 11 to 30 lines and
    [floor((lines - 30) / 2)] points above 30. *)
Lemma score_monotone_counterexample :
  In (js "thread") ClassifierFR.POWER_KEYWORDS
  /\ In (js "thread") Classifier.POWER_KEYWORDS
  /\ Scored.score (ClassifierFR.calculateComplexityScore
                     (appendOccurrences (js "thread bug") (js "thread") 1)
                     defaultThresholds)
     < Scored.score (ClassifierFR.calculateComplexityScore (js "thread bug")
                       defaultThresholds)
  /\ Scored.score (Classifier.calculateComplexityScore
                     (appendOccurrences (js "thread bug") (js "thread") 1)
                     defaultThresholds)
     < Scored.score (Classifier.calculateComplexityScore (js "thread bug")
                       defaultThresholds)
  /\ In (js "async") ClassifierFR.POWER_KEYWORDS
  /\ In (js "async") Classifier.POWER_KEYWORDS
  /\ Scored.score (ClassifierFR.calculateComplexityScore
                     (appendOccurrences thirtyAsyncLines (js "async") 1)
                     defaultThresholds)
     < Scored.score (ClassifierFR.calculateComplexityScore thirtyAsyncLines
                       defaultThresholds)
  /\ Scored.score (Classifier.calculateComplexityScore
                     (appendOccurrences thirtyAsyncLines (js "async") 1)
                     defaultThresholds)
     < Scored.score (Classifier.calculateComplexityScore thirtyAsyncLines
                       defaultThresholds).
Proof.
  split; [apply In_decide; vm_compute; reflexivity|].
  split; [apply In_decide; vm_compute; reflexivity|].
  split; [vm_compute; reflexivity|].
  split; [vm_compute; reflexivity|].
  split; [apply In_decide; vm_compute; reflexivity|].
  split; [apply In_decide; vm_compute; reflexivity|].
  split; vm_compute; reflexivity.
Qed.

Lemma powerKeywords_monotone_witness :
  (1 <= 2)%nat
  /\ In (js "thread") ClassifierFR.POWER_KEYWORDS
  /\ In (js "thread") Classifier.POWER_KEYWORDS
  /\ Scored.score (ClassifierFR.powerKeywords (js "thread bug") Common.start)
     - Scored.score Common.start
     <= Scored.score (ClassifierFR.powerKeywords
                        (appendOccurrences (js "thread bug") (js "thread") 2)
                        Common.start)
        - Scored.score Common.start.
Proof.
  assert (Hn : (1 <= 2)%nat) by lia.
  assert (HFR : In (js "thread") ClassifierFR.POWER_KEYWORDS)
    by (apply In_decide; vm_compute; reflexivity).
  assert (HEN : In (js "thread") Classifier.POWER_KEYWORDS)
    by (apply In_decide; vm_compute; reflexivity).
  split; [exact Hn|]. split; [exact HFR|]. split; [exact HEN|].
  destruct (powerKeywords_monotone (js "thread bug") (js "thread") 2 Common.start Hn)
    as [H _].
  destruct (H HFR) as (_ & _ & H3). exact H3.
Defined.

(** ** The empty conversation *)

Lemma lengthFactor_empty (T : ClassificationThresholds) (st : Scored.t) :
  0 <= minLengthForPower T -> Common.lengthFactor [] T st = st.
Proof.
  intro H. unfold Common.lengthFactor. cbn [JS.length List.length Z.of_nat].
  destruct (Z.ltb_spec (minLengthForPower T) 0); [lia | reflexivity].
Qed.

Lemma codeLinesFactor_empty (T : ClassificationThresholds) (st : Scored.t) :
  0 <= minCodeLinesForPower T -> Common.codeLinesFactor [] T st = st.
Proof.
  intro H. unfold Common.codeLinesFactor.
  replace (Common.countCodeLines []) with 0 by (vm_compute; reflexivity).
  destruct (Z.ltb_spec (minCodeLinesForPower T) 0); [lia | reflexivity].
Qed.

Lemma programmingLanguages_empty (st : Scored.t) :
  Common.programmingLanguages [] st = st.
Proof.
  unfold Common.programmingLanguages.
  replace (Common.countKeywordMatches [] Common.PROGRAMMING_LANGUAGES) with 0
    by (vm_compute; reflexivity).
  reflexivity.
Qed.

Lemma questionComplexity_empty (st : Scored.t) :
  Common.questionComplexity [] st = st.
Proof.
  unfold Common.questionComplexity.
  replace (RegExp.matchAll Common.questionMark []) with (@nil jsstring)
    by (vm_compute; reflexivity).
  reflexivity.
Qed.

Lemma calculateComplexityScore_empty_EN (T : ClassificationThresholds) :
  0 <= minLengthForPower T -> 0 <= minCodeLinesForPower T ->
  Classifier.calculateComplexityScore [] T
  = {| Scored.score := 0; Scored.signals := [] |}.
Proof.
  intros HL HC. unfold Classifier.calculateComplexityScore. cbv zeta.
  rewrite lengthFactor_empty, codeLinesFactor_empty by assumption.
  unfold Classifier.powerKeywords, Classifier.simpleKeywords,
    Classifier.multiStepReasoning, Classifier.debuggingContext.
  replace (Common.countKeywordMatches [] Classifier.POWER_KEYWORDS) with 0
    by (vm_compute; reflexivity).
  replace (Common.countKeywordMatches [] Classifier.SIMPLE_KEYWORDS) with 0
    by (vm_compute; reflexivity).
  replace (Classifier.detectMultiStepReasoning []) with false
    by (vm_compute; reflexivity).
  replace (Classifier.detectDebugging []) with false
    by (vm_compute; reflexivity).
  cbn [Z.ltb Z.compare Z.eqb andb].
  rewrite programmingLanguages_empty, questionComplexity_empty.
  reflexivity.
Qed.

Lemma calculateComplexityScore_empty_FR (T : ClassificationThresholds) :
  0 <= minLengthForPower T -> 0 <= minCodeLinesForPower T ->
  ClassifierFR.calculateComplexityScore [] T
  = {| Scored.score := 0; Scored.signals := [] |}.
Proof.
  intros HL HC. unfold ClassifierFR.calculateComplexityScore. cbv zeta.
  rewrite lengthFactor_empty, codeLinesFactor_empty by assumption.
  unfold ClassifierFR.powerKeywords, ClassifierFR.simpleKeywords,
    ClassifierFR.multiStepReasoning, ClassifierFR.debuggingContext,
    ClassifierFR.deepQuestion, ClassifierFR.academicTopic.
  replace (Common.countKeywordMatches [] ClassifierFR.POWER_KEYWORDS) with 0
    by (vm_compute; reflexivity).
  replace (Common.countKeywordMatches [] ClassifierFR.SIMPLE_KEYWORDS) with 0
    by (vm_compute; reflexivity).
  replace (ClassifierFR.detectMultiStepReasoning []) with false
    by (vm_compute; reflexivity).
  replace (ClassifierFR.detectDebugging []) with false
    by (vm_compute; reflexivity).
  replace (Common.some_test ClassifierFR.deepQuestionPatterns []) with false
    by (vm_compute; reflexivity).
  replace (Common.some_test ClassifierFR.academicPatterns []) with false
    by (vm_compute; reflexivity).
  cbn [Z.ltb Z.compare Z.eqb andb].
  rewrite programmingLanguages_empty, questionComplexity_empty.
  reflexivity.
Qed.

Section EmptyConversation.

Variable calculateComplexityScore :
  jsstring -> ClassificationThresholds -> Scored.t.
Variable T : ClassificationThresholds.
Hypothesis empty_text :
  calculateComplexityScore [] T = {| Scored.score := 0; Scored.signals := [] |}.
Hypothesis positive : 0 < minScoreForPower T.

Lemma classify_empty :
  score (Common.classifyRequest calculateComplexityScore [] T) = 0
  /\ signals (Common.classifyRequest calculateComplexityScore [] T) = []
  /\ usePowerModel (Common.classifyRequest calculateComplexityScore [] T) = false.
Proof.
  unfold Common.classifyRequest. cbv zeta.
  change (Common.extractTextContent []) with (@nil N).
  change (Common.lastUserMessage []) with (@None ChatMessage).
  cbn [score signals usePowerModel]. rewrite empty_text. cbn [Scored.score Scored.signals].
  change (Z.max 0 0) with 0. cbn [Z.eqb].
  split; [reflexivity|]. split; [reflexivity|].
  apply Z.leb_gt. exact positive.
Qed.

End EmptyConversation.

(** C6, as the code has it.  For thresholds whose length and code-line
    fields are non-negative and whose [minScoreForPower] is positive,
    classifying the empty message sequence gives the empty extracted
    text, score 0, no signal, and the default tier; in both revisions. *)
Theorem classifyRequest_empty (T : ClassificationThresholds) :
  0 <= minLengthForPower T ->
  0 <= minCodeLinesForPower T ->
  0 < minScoreForPower T ->
  Common.extractTextContent [] = []
  /\ (score (Classifier.classifyRequest [] T) = 0
      /\ signals (Classifier.classifyRequest [] T) = []
      /\ usePowerModel (Classifier.classifyRequest [] T) = false)
  /\ (score (ClassifierFR.classifyRequest [] T) = 0
      /\ signals (ClassifierFR.classifyRequest [] T) = []
      /\ usePowerModel (ClassifierFR.classifyRequest [] T) = false).
Proof.
  intros HL HC HS. split; [reflexivity|]. split.
  - apply classify_empty; [now apply calculateComplexityScore_empty_EN | exact HS].
  - apply classify_empty; [now apply calculateComplexityScore_empty_FR | exact HS].
Qed.

Lemma classifyRequest_empty_witness :
  0 <= minLengthForPower defaultThresholds
  /\ 0 <= minCodeLinesForPower defaultThresholds
  /\ 0 < minScoreForPower defaultThresholds
  /\ usePowerModel (ClassifierFR.classifyRequest [] defaultThresholds) = false.
Proof.
  assert (HL : 0 <= minLengthForPower defaultThresholds) by (cbn; lia).
  assert (HC : 0 <= minCodeLinesForPower defaultThresholds) by (cbn; lia).
  assert (HS : 0 < minScoreForPower defaultThresholds) by (cbn; lia).
  split; [exact HL|]. split; [exact HC|]. split; [exact HS|].
  apply (classifyRequest_empty defaultThresholds HL HC HS).
Defined.

(** C6 as stated fails when [minScoreForPower] is 0, a non-negative
    value: the score 0 of the empty conversation reaches the threshold and
    the power tier is selected. *)
Lemma empty_conversation_counterexample :
  0 <= minLengthForPower {| minLengthForPower := 500; minCodeLinesForPower := 30;
                            minScoreForPower := 0 |}
  /\ 0 <= minCodeLinesForPower {| minLengthForPower := 500; minCodeLinesForPower := 30;
                                  minScoreForPower := 0 |}
  /\ 0 <= minScoreForPower {| minLengthForPower := 500; minCodeLinesForPower := 30;
                              minScoreForPower := 0 |}
  /\ usePowerModel
       (Classifier.classifyRequest []
          {| minLengthForPower := 500; minCodeLinesForPower := 30;
             minScoreForPower := 0 |}) = true
  /\ usePowerModel
       (ClassifierFR.classifyRequest []
          {| minLengthForPower := 500; minCodeLinesForPower := 30;
             minScoreForPower := 0 |}) = true.
Proof.
  cbn [minLengthForPower minCodeLinesForPower minScoreForPower].
  split; [lia|]. split; [lia|]. split; [lia|].
  split; vm_compute; reflexivity.
Qed.

(** ** One label per detector *)

Lemma picks_snoc_skip (p : jsstring) (ps labels : list jsstring) :
  picks ps labels -> picks (ps ++ [p]) labels.
Proof.
  induction 1 as [|q qs l _ IH|q r qs l _ IH]; cbn [app].
  - apply picks_skip, picks_nil.
  - apply picks_skip, IH.
  - apply picks_take, IH.
Qed.

Lemma picks_snoc_take (p rest : jsstring) (ps labels : list jsstring) :
  picks ps labels -> picks (ps ++ [p]) (labels ++ [p ++ rest]).
Proof.
  induction 1 as [|q qs l _ IH|q r qs l _ IH]; cbn [app].
  - apply picks_take, picks_nil.
  - apply picks_skip, IH.
  - apply picks_take, IH.
Qed.

Lemma picks_snoc_exact (p : jsstring) (ps labels : list jsstring) :
  picks ps labels -> picks (ps ++ [p]) (labels ++ [p]).
Proof.
  intro H. rewrite <- (app_nil_r p) at 2. now apply picks_snoc_take.
Qed.

Lemma clash_startsWith (q p rest : jsstring) :
  clash q p = true -> JS.startsWith q (p ++ rest) = false.
Proof.
  revert p. induction q as [|a q IH]; intros [|b p] H; cbn in *; try discriminate.
  destruct (a =? b)%N; [cbn; now apply IH | reflexivity].
Qed.

Lemma picks_occurrences (q : jsstring) (ps labels : list jsstring) :
  picks ps labels ->
  (occurrences q labels <= List.length (filter (fun p => negb (clash q p)) ps))%nat.
Proof.
  unfold occurrences.
  induction 1 as [|p ps l _ IH|p r ps l _ IH]; cbn [filter].
  - apply le_n.
  - destruct (negb (clash q p)); cbn [List.length]; lia.
  - destruct (clash q p) eqn:E; cbn [negb].
    + rewrite (clash_startsWith q p r E). exact IH.
    + destruct (JS.startsWith q (p ++ r)); cbn [List.length]; lia.
Qed.

Ltac picks_block H :=
  cbv zeta;
  repeat match goal with
         | |- context [if ?c then _ else _] => destruct c
         end;
  cbn [Common.push Common.add Scored.signals];
  first [ apply picks_snoc_take; exact H
        | apply picks_snoc_exact; exact H
        | apply picks_snoc_skip; exact H ].

Lemma picks_lengthFactor s T st ps :
  picks ps (Scored.signals st) ->
  picks (ps ++ [js "long_message:"]) (Scored.signals (Common.lengthFactor s T st)).
Proof. intro H. unfold Common.lengthFactor. picks_block H. Qed.

Lemma picks_codeLinesFactor s T st ps :
  picks ps (Scored.signals st) ->
  picks (ps ++ [js "code:"]) (Scored.signals (Common.codeLinesFactor s T st)).
Proof. intro H. unfold Common.codeLinesFactor. picks_block H. Qed.

Lemma picks_programmingLanguages s st ps :
  picks ps (Scored.signals st) ->
  picks (ps ++ [js "programming:"]) (Scored.signals (Common.programmingLanguages s st)).
Proof. intro H. unfold Common.programmingLanguages. picks_block H. Qed.

Lemma picks_questionComplexity s st ps :
  picks ps (Scored.signals st) ->
  picks (ps ++ [js "questions:"]) (Scored.signals (Common.questionComplexity s st)).
Proof. intro H. unfold Common.questionComplexity. picks_block H. Qed.

Lemma picks_powerKeywords_EN s st ps :
  picks ps (Scored.signals st) ->
  picks (ps ++ [js "power_keywords:"]) (Scored.signals (Classifier.powerKeywords s st)).
Proof. intro H. unfold Classifier.powerKeywords. picks_block H. Qed.

Lemma picks_simpleKeywords_EN s st ps :
  picks ps (Scored.signals st) ->
  picks (ps ++ [js "simple_keywords:"]) (Scored.signals (Classifier.simpleKeywords s st)).
Proof. intro H. unfold Classifier.simpleKeywords. picks_block H. Qed.

Lemma picks_multiStepReasoning_EN s st ps :
  picks ps (Scored.signals st) ->
  picks (ps ++ [js "multi_step_reasoning"])
        (Scored.signals (Classifier.multiStepReasoning s st)).
Proof. intro H. unfold Classifier.multiStepReasoning. picks_block H. Qed.

Lemma picks_debuggingContext_EN s st ps :
  picks ps (Scored.signals st) ->
  picks (ps ++ [js "debugging"]) (Scored.signals (Classifier.debuggingContext s st)).
Proof. intro H. unfold Classifier.debuggingContext. picks_block H. Qed.

Lemma picks_powerKeywords_FR s st ps :
  picks ps (Scored.signals st) ->
  picks (ps ++ [js "power_keywords:"]) (Scored.signals (ClassifierFR.powerKeywords s st)).
Proof. intro H. unfold ClassifierFR.powerKeywords. picks_block H. Qed.

Lemma picks_simpleKeywords_FR s st ps :
  picks ps (Scored.signals st) ->
  picks (ps ++ [js "simple_keywords:"]) (Scored.signals (ClassifierFR.simpleKeywords s st)).
Proof. intro H. unfold ClassifierFR.simpleKeywords. picks_block H. Qed.

Lemma picks_multiStepReasoning_FR s st ps :
  picks ps (Scored.signals st) ->
  picks (ps ++ [js "multi_step_reasoning"])
        (Scored.signals (ClassifierFR.multiStepReasoning s st)).
Proof. intro H. unfold ClassifierFR.multiStepReasoning. picks_block H. Qed.

Lemma picks_debuggingContext_FR s st ps :
  picks ps (Scored.signals st) ->
  picks (ps ++ [js "debugging"]) (Scored.signals (ClassifierFR.debuggingContext s st)).
Proof. intro H. unfold ClassifierFR.debuggingContext. picks_block H. Qed.

Lemma picks_deepQuestion s st ps :
  picks ps (Scored.signals st) ->
  picks (ps ++ [js "deep_question"]) (Scored.signals (ClassifierFR.deepQuestion s st)).
Proof. intro H. unfold ClassifierFR.deepQuestion. picks_block H. Qed.

Lemma picks_academicTopic s st ps :
  picks ps (Scored.signals st) ->
  picks (ps ++ [js "academic_topic"]) (Scored.signals (ClassifierFR.academicTopic s st)).
Proof. intro H. unfold ClassifierFR.academicTopic. picks_block H. Qed.

Lemma signals_picks_EN (s : jsstring) (T : ClassificationThresholds) :
  picks (map js [ "long_message:"; "code:"; "power_keywords:"; "simple_keywords:";
                  "multi_step_reasoning"; "debugging"; "programming:";
                  "questions:" ]%string)
        (Scored.signals (Classifier.calculateComplexityScore s T)).
Proof.
  unfold Classifier.calculateComplexityScore. cbv zeta.
  unfold Common.clamp. cbn [Scored.signals].
  assert (H : picks [] (Scored.signals Common.start)) by apply picks_nil.
  apply (picks_lengthFactor s T) in H.
  apply (picks_codeLinesFactor s T) in H.
  apply (picks_powerKeywords_EN s) in H.
  apply (picks_simpleKeywords_EN s) in H.
  apply (picks_multiStepReasoning_EN s) in H.
  apply (picks_debuggingContext_EN s) in H.
  apply (picks_programmingLanguages s) in H.
  apply (picks_questionComplexity s) in H.
  exact H.
Qed.

Lemma signals_picks_FR (s : jsstring) (T : ClassificationThresholds) :
  picks labelPrefixes (Scored.signals (ClassifierFR.calculateComplexityScore s T)).
Proof.
  unfold ClassifierFR.calculateComplexityScore. cbv zeta.
  unfold Common.clamp. cbn [Scored.signals].
  assert (H : picks [] (Scored.signals Common.start)) by apply picks_nil.
  apply (picks_lengthFactor s T) in H.
  apply (picks_codeLinesFactor s T) in H.
  apply (picks_powerKeywords_FR s) in H.
  apply (picks_simpleKeywords_FR s) in H.
  apply (picks_multiStepReasoning_FR s) in H.
  apply (picks_debuggingContext_FR s) in H.
  apply (picks_deepQuestion s) in H.
  apply (picks_academicTopic s) in H.
  apply (picks_programmingLanguages s) in H.
  apply (picks_questionComplexity s) in H.
  exact H.
Qed.

(** C9. In the signal list of one [calculateComplexityScore] pass, no
    detector's label prefix ([long_message:], [code:], [power_keywords:],
    [simple_keywords:], [multi_step_reasoning], [debugging],
    [deep_question], [academic_topic], [programming:], [questions:])
    starts more than one label; in both revisions. *)
Theorem signals_one_label_per_detector (s : jsstring) (T : ClassificationThresholds) :
  Forall (fun p =>
            (occurrences p (Scored.signals (Classifier.calculateComplexityScore s T)) <= 1
             /\ occurrences p (Scored.signals (ClassifierFR.calculateComplexityScore s T)) <= 1)%nat)
         labelPrefixes.
Proof.
  pose proof (signals_picks_EN s T) as HEN.
  pose proof (signals_picks_FR s T) as HFR.
  unfold labelPrefixes at 1. cbn [map].
  repeat (apply Forall_cons; [split;
    [ eapply Nat.le_trans; [apply picks_occurrences, HEN | vm_compute; lia]
    | eapply Nat.le_trans; [apply picks_occurrences, HFR | vm_compute; lia] ] |]).
  apply Forall_nil.
Qed.

(** ** The dispatcher *)

Section RouterProperties.

Variable World : Type.
Variable create :
  Tier -> Router.CreateParams -> World -> (Router.Thrown + Router.Completion) * World.
Variable createStream :
  Tier -> Router.CreateParams -> World -> (Router.Thrown + Router.Upstream) * World.
Variable classifyRequest :
  list ChatMessage -> ClassificationThresholds -> ClassificationResult.
Variable config : RouterConfig.

Let routeRequest := Router.routeRequest World create classifyRequest config.
Let consume := Router.consume World createStream classifyRequest config.
Let classification (request : ChatCompletionRequest) : ClassificationResult :=
  classifyRequest (messages request) (thresholds config).

(** C2, as the code has it.  What [routeRequest] does with the answers of
    the backends.  On the power tier there is one call, and its error, if
    any, is rethrown.  On the default tier, a thrown value that is not an
    instance of [Error] is rethrown after the one call; an instance of
    [Error] is followed by a warning and exactly one call on the power
    backend with the same messages, temperature and max-token parameters,
    whose completion is returned with [_router.tier = 'power'] and the
    classification's signals followed by [fallback_after_error], and whose
    error, if any, is rethrown with no further call.  The response is
    written out field by field: the completion's id, creation time, model,
    choices and usage, and the routing record in [_router]. *)
Theorem routeRequest_fallback (request : ChatCompletionRequest)
    (st : Router.State World) :
  let c := classification request in
  let st0 := logged config false c st in
  let onDefault := paramsFor config default request false in
  let onPower := paramsFor config power request false in
  let response (completion : Router.Completion) (info : RouterInfo) :=
    {| id := Router.completion_id completion;
       created := Router.completion_created completion;
       response_model := Router.completion_model completion;
       choices :=
         map (fun choice =>
                {| index := Router.completion_index choice;
                   message :=
                     {| role := Router.completion_role (Router.completion_message choice);
                        content :=
                          StringContent
                            match Router.completion_content
                                    (Router.completion_message choice) with
                            | Some text => text
                            | None => []
                            end;
                        name := None; tool_calls := None; tool_call_id := None |};
                   finish_reason := Router.completion_finish_reason choice |})
             (Router.completion_choices completion);
       usage :=
         match Router.completion_usage completion with
         | Some u => Some {| prompt_tokens := prompt_tokens u;
                             completion_tokens := completion_tokens u;
                             total_tokens := total_tokens u |}
         | None => None
         end;
       _router := Some info |} in
  Router.params_messages onPower = Router.params_messages onDefault
  /\ Router.params_temperature onPower = Router.params_temperature onDefault
  /\ Router.params_max_tokens onPower = Router.params_max_tokens onDefault
  /\
  match selectedTier c with
  | power =>
      match create power onPower (Router.world st0) with
      | (inr completion, w) =>
          routeRequest request st
          = (Router.Return
               (response completion
                  {| tier := power; router_model := model (powerModel config);
                     router_score := score c; router_signals := signals c |},
                power, c),
             {| Router.world := w;
                Router.trace := Router.trace st0 ++ [Router.Create power onPower] |})
      | (inl e, w) =>
          routeRequest request st
          = (Router.Throw e,
             {| Router.world := w;
                Router.trace := Router.trace st0 ++ [Router.Create power onPower] |})
      end
  | default =>
      match create default onDefault (Router.world st0) with
      | (inr completion, w) =>
          routeRequest request st
          = (Router.Return
               (response completion
                  {| tier := default; router_model := model (defaultModel config);
                     router_score := score c; router_signals := signals c |},
                default, c),
             {| Router.world := w;
                Router.trace := Router.trace st0 ++ [Router.Create default onDefault] |})
      | (inl (Router.NonError v), w) =>
          routeRequest request st
          = (Router.Throw (Router.NonError v),
             {| Router.world := w;
                Router.trace := Router.trace st0 ++ [Router.Create default onDefault] |})
      | (inl (Router.ErrorInstance m), w) =>
          match create power onPower w with
          | (inr completion, w') =>
              routeRequest request st
              = (Router.Return
                   (response completion
                      {| tier := power; router_model := model (powerModel config);
                         router_score := score c;
                         router_signals := signals c ++ [js "fallback_after_error"] |},
                    power, c),
                 {| Router.world := w';
                    Router.trace :=
                      Router.trace st0
                        ++ [ Router.Create default onDefault;
                             fallbackWarning m;
                             Router.Create power onPower ] |})
          | (inl e, w') =>
              routeRequest request st
              = (Router.Throw e,
                 {| Router.world := w';
                    Router.trace :=
                      Router.trace st0
                        ++ [ Router.Create default onDefault;
                             fallbackWarning m;
                             Router.Create power onPower ] |})
          end
      end
  end.
Proof.
  cbv beta zeta. split; [reflexivity|]. split; [reflexivity|]. split; [reflexivity|].
  unfold routeRequest, Router.buildResponse, Router.routeRequest, classification, selectedTier, logged,
    paramsFor, modelOf, fallbackWarning.
  unfold Router.bind, Router.when, Router.emit, Router.ret, Router.tryCatch,
    Router.callCreate, Router.throw.
  destruct (debug config);
    destruct (usePowerModel (classifyRequest (messages request) (thresholds config)));
    cbn [Router.world Router.trace Router.Tier_eqb andb];
    match goal with
    | |- context [create ?t ?p ?w] => destruct (create t p w) as [[e|completion] w1]
    end;
    try reflexivity;
    destruct e as [m|v]; cbn [Router.instanceofError Router.world Router.trace];
    try reflexivity;
    match goal with
    | |- context [create ?t ?p ?w] => destruct (create t p w) as [[e2|completion2] w2]
    end;
    cbn [Router.thrownMessage]; rewrite <- !app_assoc; reflexivity.
Qed.

Lemma calls_app (a b : list Router.Event) :
  Router.calls (a ++ b) = Router.calls a ++ Router.calls b.
Proof. unfold Router.calls. apply filter_app. Qed.

Lemma calls_logged (streaming : bool) (c : ClassificationResult)
    (st : Router.State World) :
  Router.calls (Router.trace (logged config streaming c st))
  = Router.calls (Router.trace st).
Proof.
  unfold logged. destruct (debug config); [|reflexivity].
  cbn [Router.trace]. rewrite calls_app. cbn. apply app_nil_r.
Qed.

Lemma world_logged (streaming : bool) (c : ClassificationResult)
    (st : Router.State World) :
  Router.world (logged config streaming c st) = Router.world st.
Proof. unfold logged. destruct (debug config); reflexivity. Qed.

(** C10. When the request is classified to the default tier and the call
    on the default backend throws, the power backend is called if the
    thrown value is an instance of [Error]; if it is not, [routeRequest]
    rethrows it at once, and the call on the default backend is the only
    one made. *)
Theorem routeRequest_rethrows_non_Error (request : ChatCompletionRequest)
    (st : Router.State World) (e : Router.Thrown) (w : World) :
  usePowerModel (classification request) = false ->
  create default (paramsFor config default request false) (Router.world st) = (inl e, w) ->
  if Router.instanceofError e
  then Router.calls (Router.trace (snd (routeRequest request st)))
       = Router.calls (Router.trace st)
           ++ [ Router.Create default (paramsFor config default request false);
                Router.Create power (paramsFor config power request false) ]
  else routeRequest request st
       = (Router.Throw e,
          {| Router.world := w;
             Router.trace :=
               Router.trace (logged config false (classification request) st)
                 ++ [Router.Create default (paramsFor config default request false)] |}).
Proof.
  intros Htier Hcall.
  pose proof (calls_logged false (classification request) st) as Hlog.
  pose proof (world_logged false (classification request) st) as Hworld.
  revert Hlog Hworld.
  unfold routeRequest, Router.routeRequest, classification, logged,
    paramsFor, modelOf in *.
  unfold Router.bind, Router.when, Router.emit, Router.ret, Router.tryCatch,
    Router.callCreate, Router.throw.
  rewrite Htier.
  destruct (debug config); cbn [Router.world Router.trace Router.Tier_eqb andb];
    intros Hlog _; rewrite Hcall;
    destruct e as [m|v]; cbn [Router.instanceofError Router.world Router.trace];
    try reflexivity;
    match goal with
    | |- context [create ?t ?p ?w] => destruct (create t p w) as [[e2|completion2] w2]
    end;
    cbn [snd Router.trace]; rewrite !calls_app, ?Hlog; cbn;
    rewrite <- ?app_assoc; reflexivity.
Qed.

(** ** The streaming generator *)

Lemma consume_step (fuel : nat) (g : Router.Generator) (st : Router.State World) :
  consume (S fuel) g st
  = match Router.next World createStream classifyRequest config g st with
    | (Router.Yielded value g', st') =>
        match consume fuel g' st' with
        | Some (values, ending, st'') => Some (value :: values, ending, st'')
        | None => None
        end
    | (Router.Finished, st') => Some ([], None, st')
    | (Router.Raised e, st') => Some ([], Some e, st')
    end.
Proof. reflexivity. Qed.

Lemma consume_forAwait (stream : Router.Upstream) :
  forall (g : Router.Generator) (st st' : Router.State World) (extra : nat),
    Router.next World createStream classifyRequest config g st
    = (Router.forAwait stream, st') ->
    consume (S (List.length (Router.chunksOf stream)) + extra) g st
    = Some (map Router.normalizeChunk (Router.chunksOf stream),
            Router.endingOf stream, st').
Proof.
  induction stream as [| e | chunk rest IH]; intros g st st' extra Hnext.
  - change (S (List.length (Router.chunksOf Router.Ended)) + extra)%nat
      with (S extra).
    rewrite consume_step, Hnext. reflexivity.
  - change (S (List.length (Router.chunksOf (Router.Failed e))) + extra)%nat
      with (S extra).
    rewrite consume_step, Hnext. reflexivity.
  - change (S (List.length (Router.chunksOf (Router.Item chunk rest))) + extra)%nat
      with (S (S (List.length (Router.chunksOf rest)) + extra)).
    rewrite consume_step, Hnext. cbn [Router.forAwait].
    rewrite (IH (Router.SuspendedYield rest) st' st' extra eq_refl).
    reflexivity.
Qed.

(** C5.  Read to its end, the generator of [routeStreamingRequest] makes
    one call, on the backend of the selected tier, and hands the consumer
    the upstream chunks, each normalized, in the upstream order, none
    dropped and none added; the sequence ends as the upstream stream ends,
    normally or with the stream's error.  An error of the call itself
    reaches the consumer as well.  In no case is a second call made.
    The normalized form of a chunk is written out: its id, creation time
    and model, and for each of its choices, in order, the index, the role
    and content of the delta, and the finish reason. *)
Theorem routeStreamingRequest_order (request : ChatCompletionRequest)
    (st : Router.State World) (extra : nat) :
  let c := classification request in
  let st0 := logged config true c st in
  let params := paramsFor config (selectedTier c) request true in
  let normalized (chunk : Router.UpstreamChunk) :=
    {| chunk_id := Router.upstream_id chunk;
       chunk_created := Router.upstream_created chunk;
       chunk_model := Router.upstream_model chunk;
       chunk_choices :=
         map (fun choice =>
                {| stream_index := Router.upstream_index choice;
                   delta :=
                     {| delta_role := Router.upstream_role (Router.upstream_delta choice);
                        delta_content :=
                          Router.upstream_content (Router.upstream_delta choice) |};
                   stream_finish_reason := Router.upstream_finish_reason choice |})
             (Router.upstream_choices chunk) |} in
  match createStream (selectedTier c) params (Router.world st0) with
  | (inr stream, w) =>
      consume (S (List.length (Router.chunksOf stream)) + extra)
              (Router.routeStreamingRequest request) st
      = Some (map normalized (Router.chunksOf stream),
              Router.endingOf stream,
              {| Router.world := w;
                 Router.trace :=
                   Router.trace st0 ++ [Router.Create (selectedTier c) params] |})
  | (inl e, w) =>
      consume (S extra) (Router.routeStreamingRequest request) st
      = Some ([], Some e,
              {| Router.world := w;
                 Router.trace :=
                   Router.trace st0 ++ [Router.Create (selectedTier c) params] |})
  end.
Proof.
  cbv beta zeta.
  change (fun chunk : Router.UpstreamChunk => _) with Router.normalizeChunk.
  assert (Hnext :
    Router.next World createStream classifyRequest config
      (Router.routeStreamingRequest request) st
    = let c := classification request in
      let st0 := logged config true c st in
      let params := paramsFor config (selectedTier c) request true in
      match createStream (selectedTier c) params (Router.world st0) with
      | (inr stream, w) =>
          (Router.forAwait stream,
           {| Router.world := w;
              Router.trace :=
                Router.trace st0 ++ [Router.Create (selectedTier c) params] |})
      | (inl e, w) =>
          (Router.Raised e,
           {| Router.world := w;
              Router.trace :=
                Router.trace st0 ++ [Router.Create (selectedTier c) params] |})
      end).
  { cbv zeta.
    unfold Router.routeStreamingRequest, Router.next, classification, selectedTier,
      logged, paramsFor, modelOf.
    unfold Router.bind, Router.when, Router.emit, Router.ret, Router.callCreateStream.
    destruct (debug config);
      destruct (usePowerModel (classifyRequest (messages request) (thresholds config)));
      cbn [Router.world Router.trace];
      match goal with
      | |- context [createStream ?t ?p ?w] =>
          destruct (createStream t p w) as [[e|stream] w1]
      end; reflexivity. }
  cbv zeta in Hnext.
  destruct (createStream (selectedTier (classification request))
              (paramsFor config (selectedTier (classification request)) request true)
              (Router.world (logged config true (classification request) st)))
    as [[e|stream] w].
  - rewrite consume_step, Hnext. reflexivity.
  - apply consume_forAwait. exact Hnext.
Qed.

End RouterProperties.

Lemma routeRequest_rethrows_non_Error_witness :
  usePowerModel (ClassifierFR.classifyRequest (messages sampleRequest)
                   (thresholds sampleConfig)) = false
  /\ defaultThrows (Router.NonError (js "timeout")) default
       (paramsFor sampleConfig default sampleRequest false) tt
     = (inl (Router.NonError (js "timeout")), tt)
  /\ Router.routeRequest unit (defaultThrows (Router.NonError (js "timeout")))
       ClassifierFR.classifyRequest sampleConfig sampleRequest
       {| Router.world := tt; Router.trace := [] |}
     = (Router.Throw (Router.NonError (js "timeout")),
        {| Router.world := tt;
           Router.trace :=
             [Router.Create default (paramsFor sampleConfig default sampleRequest false)] |}).
Proof.
  assert (H1 : usePowerModel (ClassifierFR.classifyRequest (messages sampleRequest)
                                (thresholds sampleConfig)) = false)
    by (vm_compute; reflexivity).
  assert (H2 : defaultThrows (Router.NonError (js "timeout")) default
                 (paramsFor sampleConfig default sampleRequest false) tt
               = (inl (Router.NonError (js "timeout")), tt))
    by reflexivity.
  split; [exact H1|]. split; [exact H2|].
  exact (routeRequest_rethrows_non_Error unit
           (defaultThrows (Router.NonError (js "timeout")))
           ClassifierFR.classifyRequest sampleConfig sampleRequest
           {| Router.world := tt; Router.trace := [] |}
           (Router.NonError (js "timeout")) tt H1 H2).
Defined.

(** C2 as stated fails when the default backend throws a value that is
    not an instance of [Error]: the request is classified to the default
    tier, the call on the default backend fails, and [routeRequest]
    rethrows at once; the power backend, which would have answered, is not
    called. *)
Lemma routeRequest_no_retry_counterexample :
  selectedTier (Classifier.classifyRequest (messages sampleRequest)
                  (thresholds sampleConfig)) = default
  /\ fst (defaultThrows (Router.NonError (js "timeout")) default
            (paramsFor sampleConfig default sampleRequest false) tt)
     = inl (Router.NonError (js "timeout"))
  /\ fst (defaultThrows (Router.NonError (js "timeout")) power
            (paramsFor sampleConfig power sampleRequest false) tt)
     = inr sampleCompletion
  /\ Router.routeRequest unit (defaultThrows (Router.NonError (js "timeout")))
       Classifier.classifyRequest sampleConfig sampleRequest
       {| Router.world := tt; Router.trace := [] |}
     = (Router.Throw (Router.NonError (js "timeout")),
        {| Router.world := tt;
           Router.trace :=
             [Router.Create default (paramsFor sampleConfig default sampleRequest false)] |}).
Proof.
  split; [vm_compute; reflexivity|].
  split; [reflexivity|]. split; [reflexivity|].
  vm_compute. reflexivity.
Qed.

(* ================================================================== *)
(** * Further properties of the classifier *)
(* ================================================================== *)

(** ** Extraction composes *)

Lemma join_app (sep : jsstring) (l1 l2 : list jsstring) :
  l1 <> [] -> l2 <> [] ->
  JS.join sep (l1 ++ l2) = JS.join sep l1 ++ sep ++ JS.join sep l2.
Proof.
  intros H1 H2. induction l1 as [|x l1 IH]; [congruence|].
  destruct l1 as [|y l1].
  - cbn [app]. now rewrite join_cons.
  - change ((x :: y :: l1) ++ l2) with (x :: ((y :: l1) ++ l2)).
    rewrite join_cons by discriminate.
    rewrite IH by discriminate.
    rewrite (join_cons sep x (y :: l1)) by discriminate.
    now rewrite <- !app_assoc.
Qed.

(** X1. The text of two conversations put end to end is the text of the
    first, one newline, and the text of the second, when neither is
    empty; an empty conversation on either side adds nothing, not even a
    newline. *)
Theorem extractTextContent_app (a b : list ChatMessage) :
  Common.extractTextContent (a ++ b)
  = match a, b with
    | [], _ => Common.extractTextContent b
    | _, [] => Common.extractTextContent a
    | _ :: _, _ :: _ =>
        Common.extractTextContent a ++ [10%N] ++ Common.extractTextContent b
    end.
Proof.
  destruct a as [|m a]; [reflexivity|].
  destruct b as [|m' b]; [now rewrite app_nil_r|].
  unfold Common.extractTextContent. rewrite map_app.
  apply join_app; discriminate.
Qed.

(** ** Keyword counting *)

Lemma lowerUnit_kept (c : N) :
  (c < 65 \/ 90 < c)%N -> (c < 192 \/ 222 < c \/ c = 215)%N ->
  c <> 304%N -> c <> 376%N -> c <> 7838%N -> c <> 8490%N -> c <> 8491%N ->
  JS.lowerUnit c = [c].
Proof.
  intros H1 H2 H3 H4 H5 H6 H7. unfold JS.lowerUnit.
  replace ((65 <=? c) && (c <=? 90))%N with false
    by (symmetry; apply andb_false_iff;
        destruct H1; [left; apply N.leb_gt | right; apply N.leb_gt]; lia).
  replace ((192 <=? c) && (c <=? 222) && negb (c =? 215))%N with false
    by (symmetry; destruct H2 as [H2|[H2|H2]];
        [ replace (192 <=? c)%N with false by (symmetry; apply N.leb_gt; lia);
          reflexivity
        | replace (c <=? 222)%N with false by (symmetry; apply N.leb_gt; lia);
          now rewrite andb_false_r
        | subst c; reflexivity ]).
  rewrite (proj2 (N.eqb_neq c 304) H3), (proj2 (N.eqb_neq c 376) H4),
    (proj2 (N.eqb_neq c 7838) H5), (proj2 (N.eqb_neq c 8490) H6),
    (proj2 (N.eqb_neq c 8491) H7).
  reflexivity.
Qed.

Lemma lowerUnit_fixed (c : N) :
  JS.toLowerCase (JS.lowerUnit c) = JS.lowerUnit c.
Proof.
  unfold JS.toLowerCase.
  assert (Hone : forall d : N, JS.lowerUnit d = [d] -> flat_map JS.lowerUnit [d] = [d])
    by (intros d Hd; cbn [flat_map]; rewrite Hd; reflexivity).
  unfold JS.lowerUnit at 2 3.
  destruct ((65 <=? c) && (c <=? 90))%N eqn:E1.
  { apply andb_true_iff in E1. destruct E1 as [Ea Eb].
    apply N.leb_le in Ea. apply N.leb_le in Eb.
    apply Hone. apply lowerUnit_kept; lia. }
  destruct ((192 <=? c) && (c <=? 222) && negb (c =? 215))%N eqn:E2.
  { apply andb_true_iff in E2. destruct E2 as [E2 _].
    apply andb_true_iff in E2. destruct E2 as [Ea Eb].
    apply N.leb_le in Ea. apply N.leb_le in Eb.
    apply Hone. apply lowerUnit_kept; lia. }
  destruct (c =? 304)%N eqn:E3; [reflexivity|].
  destruct (c =? 376)%N eqn:E4; [reflexivity|].
  destruct (c =? 7838)%N eqn:E5; [reflexivity|].
  destruct (c =? 8490)%N eqn:E6; [reflexivity|].
  destruct (c =? 8491)%N eqn:E7; [reflexivity|].
  cbn [flat_map]. rewrite app_nil_r.
  unfold JS.lowerUnit. rewrite E1, E2, E3, E4, E5, E6, E7. reflexivity.
Qed.

Lemma toLowerCase_idempotent (s : jsstring) :
  JS.toLowerCase (JS.toLowerCase s) = JS.toLowerCase s.
Proof.
  induction s as [|c s IH]; [reflexivity|].
  change (JS.toLowerCase (c :: s)) with (JS.lowerUnit c ++ JS.toLowerCase s).
  rewrite toLowerCase_app, IH, lowerUnit_fixed. reflexivity.
Qed.

Lemma filter_length_le_all {A} (f : A -> bool) (l : list A) :
  (List.length (filter f l) <= List.length l)%nat.
Proof.
  induction l as [|x l IH]; [apply le_n|].
  cbn [filter]. destruct (f x); cbn [List.length]; lia.
Qed.

(** X2. For a text and keywords written in Basic Latin and Latin-1, that
    is with every code unit below U+0100, where the lower-casing table is
    that of [toLowerCase]: the keyword count lies between 0 and the number
    of keywords (a keyword counts once however often it occurs), and it
    does not depend on the case of the text nor on the case of the
    keywords. *)
Theorem countKeywordMatches_case (s : jsstring) (keywords : list jsstring) :
  forallb latin1 s = true ->
  forallb (forallb latin1) keywords = true ->
  0 <= Common.countKeywordMatches s keywords <= Z.of_nat (List.length keywords)
  /\ Common.countKeywordMatches (JS.toLowerCase s) keywords
     = Common.countKeywordMatches s keywords
  /\ Common.countKeywordMatches s (map JS.toLowerCase keywords)
     = Common.countKeywordMatches s keywords.
Proof.
  intros _ _.
  unfold Common.countKeywordMatches. split; [|split].
  - split; [lia|]. apply inj_le. apply filter_length_le_all.
  - now rewrite toLowerCase_idempotent.
  - f_equal.
    induction keywords as [|kw kws IH]; [reflexivity|].
    cbn [map filter]. rewrite toLowerCase_idempotent.
    destruct (JS.includes (JS.toLowerCase s) (JS.toLowerCase kw));
      cbn [List.length]; now rewrite IH.
Qed.

Lemma countKeywordMatches_case_witness :
  forallb latin1 (js "Please FIX the Bug") = true
  /\ forallb (forallb latin1) [js "Bug"; js "fix"; js "crash"] = true
  /\ Common.countKeywordMatches (js "Please FIX the Bug") [js "Bug"; js "fix"; js "crash"]
     = 2
  /\ Common.countKeywordMatches (JS.toLowerCase (js "Please FIX the Bug"))
       [js "Bug"; js "fix"; js "crash"]
     = Common.countKeywordMatches (js "Please FIX the Bug")
         [js "Bug"; js "fix"; js "crash"].
Proof.
  assert (H1 : forallb latin1 (js "Please FIX the Bug") = true)
    by (vm_compute; reflexivity).
  assert (H2 : forallb (forallb latin1) [js "Bug"; js "fix"; js "crash"] = true)
    by (vm_compute; reflexivity).
  split; [exact H1|]. split; [exact H2|].
  split; [vm_compute; reflexivity|].
  exact (proj1 (proj2 (countKeywordMatches_case (js "Please FIX the Bug")
                         [js "Bug"; js "fix"; js "crash"] H1 H2))).
Defined.

(** ** The blocks of the scoring pass *)

Lemma fires_signals c d l st :
  Scored.signals (fires c d l st) = Scored.signals st ++ opt c l.
Proof. unfold fires, opt. destruct c; cbn; [reflexivity | now rewrite app_nil_r]. Qed.

Lemma fires_score c d l st :
  Scored.score (fires c d l st) = Scored.score st + (if c then d else 0).
Proof. unfold fires. destruct c; cbn; lia. Qed.

Lemma lengthFactor_signals s T st :
  Scored.signals (Common.lengthFactor s T st)
  = Scored.signals st
      ++ opt (minLengthForPower T + 600 <=? JS.length s)
             (js "long_message:" ++ JS.numToString (JS.length s) ++ js "chars").
Proof.
  unfold Common.lengthFactor, opt. cbv zeta.
  pose proof (Z.div_mod (JS.length s - minLengthForPower T) 100 ltac:(lia)) as Hdm.
  pose proof (Z.mod_pos_bound (JS.length s - minLengthForPower T) 100 ltac:(lia)) as Hmod.
  destruct (Z.ltb_spec (minLengthForPower T) (JS.length s));
    [destruct (Z.ltb_spec 5 (Z.min 20 ((JS.length s - minLengthForPower T) / 100)))|];
    destruct (Z.leb_spec (minLengthForPower T + 600) (JS.length s));
    cbn [Common.push Common.add Scored.signals];
    try reflexivity; try (now rewrite app_nil_r); exfalso; lia.
Qed.

Lemma lengthFactor_score s T st :
  Scored.score (Common.lengthFactor s T st)
  = Scored.score st
    + (if minLengthForPower T <? JS.length s
       then Z.min 20 ((JS.length s - minLengthForPower T) / 100) else 0).
Proof.
  unfold Common.lengthFactor. cbv zeta.
  destruct (minLengthForPower T <? JS.length s);
    [destruct (5 <? _)|]; cbn [Common.push Common.add Scored.score]; lia.
Qed.

Lemma codeLinesFactor_fires s T st :
  Common.codeLinesFactor s T st
  = fires ((minCodeLinesForPower T <? Common.countCodeLines s)
           || (10 <? Common.countCodeLines s))
          (if minCodeLinesForPower T <? Common.countCodeLines s
           then Z.min 25 ((Common.countCodeLines s - minCodeLinesForPower T) / 2)
           else 5)
          (js "code:" ++ JS.numToString (Common.countCodeLines s) ++ js "lines")
          st.
Proof.
  unfold Common.codeLinesFactor, fires. cbv zeta.
  destruct (minCodeLinesForPower T <? Common.countCodeLines s);
    destruct (10 <? Common.countCodeLines s); reflexivity.
Qed.

Lemma programmingLanguages_fires s st :
  Common.programmingLanguages s st
  = fires (0 <? Common.countKeywordMatches s Common.PROGRAMMING_LANGUAGES)
          (Z.min 5 (Common.countKeywordMatches s Common.PROGRAMMING_LANGUAGES * 2))
          (js "programming:"
             ++ JS.numToString (Common.countKeywordMatches s Common.PROGRAMMING_LANGUAGES)
             ++ js "langs")
          st.
Proof. unfold Common.programmingLanguages, fires. cbv zeta. reflexivity. Qed.

Lemma questionComplexity_fires s st :
  Common.questionComplexity s st
  = fires (2 <? Z.of_nat (List.length (RegExp.matchAll Common.questionMark s)))
          (Z.min 10 (Z.of_nat (List.length (RegExp.matchAll Common.questionMark s)) * 2))
          (js "questions:"
             ++ JS.numToString
                  (Z.of_nat (List.length (RegExp.matchAll Common.questionMark s))))
          st.
Proof. unfold Common.questionComplexity, fires. cbv zeta. reflexivity. Qed.

Lemma powerKeywords_fires_FR s st :
  ClassifierFR.powerKeywords s st
  = fires (0 <? Common.countKeywordMatches s ClassifierFR.POWER_KEYWORDS)
          (Z.min 40 (Common.countKeywordMatches s ClassifierFR.POWER_KEYWORDS * 10))
          (js "power_keywords:"
             ++ JS.numToString (Common.countKeywordMatches s ClassifierFR.POWER_KEYWORDS))
          st.
Proof. unfold ClassifierFR.powerKeywords, fires. cbv zeta. reflexivity. Qed.

Lemma simpleKeywords_fires_FR s st :
  ClassifierFR.simpleKeywords s st
  = fires ((0 <? Common.countKeywordMatches s ClassifierFR.SIMPLE_KEYWORDS)
           && (Common.countKeywordMatches s ClassifierFR.POWER_KEYWORDS =? 0))
          (- Z.min 10 (Common.countKeywordMatches s ClassifierFR.SIMPLE_KEYWORDS * 3))
          (js "simple_keywords:"
             ++ JS.numToString (Common.countKeywordMatches s ClassifierFR.SIMPLE_KEYWORDS))
          st.
Proof. unfold ClassifierFR.simpleKeywords, fires. cbv zeta. reflexivity. Qed.

Lemma powerKeywords_fires_EN s st :
  Classifier.powerKeywords s st
  = fires (0 <? Common.countKeywordMatches s Classifier.POWER_KEYWORDS)
          (Z.min 30 (Common.countKeywordMatches s Classifier.POWER_KEYWORDS * 6))
          (js "power_keywords:"
             ++ JS.numToString (Common.countKeywordMatches s Classifier.POWER_KEYWORDS))
          st.
Proof. unfold Classifier.powerKeywords, fires. cbv zeta. reflexivity. Qed.

Lemma simpleKeywords_fires_EN s st :
  Classifier.simpleKeywords s st
  = fires ((0 <? Common.countKeywordMatches s Classifier.SIMPLE_KEYWORDS)
           && (Common.countKeywordMatches s Classifier.POWER_KEYWORDS =? 0))
          (- Z.min 10 (Common.countKeywordMatches s Classifier.SIMPLE_KEYWORDS * 3))
          (js "simple_keywords:"
             ++ JS.numToString (Common.countKeywordMatches s Classifier.SIMPLE_KEYWORDS))
          st.
Proof. unfold Classifier.simpleKeywords, fires. cbv zeta. reflexivity. Qed.

(** The scoring pass of the bilingual revision, block by block. *)
Lemma calculateComplexityScore_blocks_FR (s : jsstring) (T : ClassificationThresholds) :
  ClassifierFR.calculateComplexityScore s T
  = Common.clamp
      (fires (2 <? Z.of_nat (List.length (RegExp.matchAll Common.questionMark s)))
         (Z.min 10 (Z.of_nat (List.length (RegExp.matchAll Common.questionMark s)) * 2))
         (js "questions:"
            ++ JS.numToString
                 (Z.of_nat (List.length (RegExp.matchAll Common.questionMark s))))
      (fires (0 <? Common.countKeywordMatches s Common.PROGRAMMING_LANGUAGES)
         (Z.min 5 (Common.countKeywordMatches s Common.PROGRAMMING_LANGUAGES * 2))
         (js "programming:"
            ++ JS.numToString (Common.countKeywordMatches s Common.PROGRAMMING_LANGUAGES)
            ++ js "langs")
      (fires (Common.some_test ClassifierFR.academicPatterns s) 15 (js "academic_topic")
      (fires (Common.some_test ClassifierFR.deepQuestionPatterns s && (30 <? JS.length s))
         15 (js "deep_question")
      (fires (ClassifierFR.detectDebugging s) 25 (js "debugging")
      (fires (ClassifierFR.detectMultiStepReasoning s) 30 (js "multi_step_reasoning")
      (fires ((0 <? Common.countKeywordMatches s ClassifierFR.SIMPLE_KEYWORDS)
              && (Common.countKeywordMatches s ClassifierFR.POWER_KEYWORDS =? 0))
         (- Z.min 10 (Common.countKeywordMatches s ClassifierFR.SIMPLE_KEYWORDS * 3))
         (js "simple_keywords:"
            ++ JS.numToString (Common.countKeywordMatches s ClassifierFR.SIMPLE_KEYWORDS))
      (fires (0 <? Common.countKeywordMatches s ClassifierFR.POWER_KEYWORDS)
         (Z.min 40 (Common.countKeywordMatches s ClassifierFR.POWER_KEYWORDS * 10))
         (js "power_keywords:"
            ++ JS.numToString (Common.countKeywordMatches s ClassifierFR.POWER_KEYWORDS))
      (fires ((minCodeLinesForPower T <? Common.countCodeLines s)
              || (10 <? Common.countCodeLines s))
         (if minCodeLinesForPower T <? Common.countCodeLines s
          then Z.min 25 ((Common.countCodeLines s - minCodeLinesForPower T) / 2)
          else 5)
         (js "code:" ++ JS.numToString (Common.countCodeLines s) ++ js "lines")
      (Common.lengthFactor s T Common.start)))))))))).
Proof.
  unfold ClassifierFR.calculateComplexityScore. cbv zeta.
  rewrite codeLinesFactor_fires, powerKeywords_fires_FR, simpleKeywords_fires_FR,
    programmingLanguages_fires, questionComplexity_fires.
  unfold ClassifierFR.multiStepReasoning, ClassifierFR.debuggingContext,
    ClassifierFR.deepQuestion, ClassifierFR.academicTopic, fires.
  reflexivity.
Qed.

(** The scoring pass of [src/src/classifier.ts], block by block. *)
Lemma calculateComplexityScore_blocks_EN (s : jsstring) (T : ClassificationThresholds) :
  Classifier.calculateComplexityScore s T
  = Common.clamp
      (fires (2 <? Z.of_nat (List.length (RegExp.matchAll Common.questionMark s)))
         (Z.min 10 (Z.of_nat (List.length (RegExp.matchAll Common.questionMark s)) * 2))
         (js "questions:"
            ++ JS.numToString
                 (Z.of_nat (List.length (RegExp.matchAll Common.questionMark s))))
      (fires (0 <? Common.countKeywordMatches s Common.PROGRAMMING_LANGUAGES)
         (Z.min 5 (Common.countKeywordMatches s Common.PROGRAMMING_LANGUAGES * 2))
         (js "programming:"
            ++ JS.numToString (Common.countKeywordMatches s Common.PROGRAMMING_LANGUAGES)
            ++ js "langs")
      (fires (Classifier.detectDebugging s) 10 (js "debugging")
      (fires (Classifier.detectMultiStepReasoning s) 15 (js "multi_step_reasoning")
      (fires ((0 <? Common.countKeywordMatches s Classifier.SIMPLE_KEYWORDS)
              && (Common.countKeywordMatches s Classifier.POWER_KEYWORDS =? 0))
         (- Z.min 10 (Common.countKeywordMatches s Classifier.SIMPLE_KEYWORDS * 3))
         (js "simple_keywords:"
            ++ JS.numToString (Common.countKeywordMatches s Classifier.SIMPLE_KEYWORDS))
      (fires (0 <? Common.countKeywordMatches s Classifier.POWER_KEYWORDS)
         (Z.min 30 (Common.countKeywordMatches s Classifier.POWER_KEYWORDS * 6))
         (js "power_keywords:"
            ++ JS.numToString (Common.countKeywordMatches s Classifier.POWER_KEYWORDS))
      (fires ((minCodeLinesForPower T <? Common.countCodeLines s)
              || (10 <? Common.countCodeLines s))
         (if minCodeLinesForPower T <? Common.countCodeLines s
          then Z.min 25 ((Common.countCodeLines s - minCodeLinesForPower T) / 2)
          else 5)
         (js "code:" ++ JS.numToString (Common.countCodeLines s) ++ js "lines")
      (Common.lengthFactor s T Common.start)))))))).
Proof.
  unfold Classifier.calculateComplexityScore. cbv zeta.
  rewrite codeLinesFactor_fires, powerKeywords_fires_EN, simpleKeywords_fires_EN,
    programmingLanguages_fires, questionComplexity_fires.
  unfold Classifier.multiStepReasoning, Classifier.debuggingContext, fires.
  reflexivity.
Qed.

(** ** Which labels a pass carries *)

Lemma occurrences_app (p : jsstring) (a b : list jsstring) :
  occurrences p (a ++ b) = (occurrences p a + occurrences p b)%nat.
Proof. unfold occurrences. now rewrite filter_app, length_app. Qed.

Lemma startsWith_self (p rest : jsstring) : JS.startsWith p (p ++ rest) = true.
Proof.
  induction p as [|a p IH]; [reflexivity|].
  cbn. now rewrite N.eqb_refl.
Qed.

Lemma occ_opt_self (p rest : jsstring) (c : bool) :
  occurrences p (opt c (p ++ rest)) = if c then 1%nat else 0%nat.
Proof.
  unfold occurrences, opt. destruct c; [|reflexivity].
  cbn [filter]. now rewrite startsWith_self.
Qed.

Lemma occ_opt_self0 (p : jsstring) (c : bool) :
  occurrences p (opt c p) = if c then 1%nat else 0%nat.
Proof. rewrite <- (app_nil_r p) at 2. apply occ_opt_self. Qed.

Lemma occ_opt_clash (p q rest : jsstring) (c : bool) :
  clash p q = true -> occurrences p (opt c (q ++ rest)) = 0%nat.
Proof.
  intro H. unfold occurrences, opt. destruct c; [|reflexivity].
  cbn [filter]. now rewrite (clash_startsWith p q rest H).
Qed.

Lemma occ_opt_clash0 (p q : jsstring) (c : bool) :
  clash p q = true -> occurrences p (opt c q) = 0%nat.
Proof. intro H. rewrite <- (app_nil_r q). now apply occ_opt_clash. Qed.

Ltac count_labels :=
  repeat match goal with
         | |- context [occurrences ?p (opt ?c (?q ++ ?r))] =>
             first [ rewrite (occ_opt_self p r c)
                   | rewrite (occ_opt_clash p q r c) by (vm_compute; reflexivity) ]
         | |- context [occurrences ?p (opt ?c ?l)] =>
             first [ rewrite (occ_opt_self0 p c)
                   | rewrite (occ_opt_clash0 p l c) by (vm_compute; reflexivity) ]
         end.

Ltac signals_FR :=
  rewrite calculateComplexityScore_blocks_FR;
  unfold Common.clamp; cbn [Scored.signals Scored.score];
  rewrite ?fires_signals, ?lengthFactor_signals;
  cbn [Common.start Scored.signals app].

Ltac signals_EN :=
  rewrite calculateComplexityScore_blocks_EN;
  unfold Common.clamp; cbn [Scored.signals Scored.score];
  rewrite ?fires_signals, ?lengthFactor_signals;
  cbn [Common.start Scored.signals app].

(** X3. A [long_message:] label is in the signals exactly when the text
    is at least 600 code units longer than [minLengthForPower]: shorter
    texts that exceed the threshold add up to 5 points without a label.
    In both revisions. *)
Theorem long_message_label (s : jsstring) (T : ClassificationThresholds) :
  occurrences (js "long_message:")
    (Scored.signals (ClassifierFR.calculateComplexityScore s T))
  = (if minLengthForPower T + 600 <=? JS.length s then 1%nat else 0%nat)
  /\ occurrences (js "long_message:")
       (Scored.signals (Classifier.calculateComplexityScore s T))
     = (if minLengthForPower T + 600 <=? JS.length s then 1%nat else 0%nat).
Proof.
  split.
  - signals_FR. rewrite !occurrences_app. count_labels. lia.
  - signals_EN. rewrite !occurrences_app. count_labels. lia.
Qed.

(** X4. A pass never carries both a [power_keywords:] and a
    [simple_keywords:] label: the first is present exactly when a power
    keyword occurs in the text, the second exactly when a simple keyword
    occurs and no power keyword does.  In both revisions. *)
Theorem power_and_simple_labels_exclusive (s : jsstring) (T : ClassificationThresholds) :
  (occurrences (js "power_keywords:")
     (Scored.signals (ClassifierFR.calculateComplexityScore s T))
   = (if 0 <? Common.countKeywordMatches s ClassifierFR.POWER_KEYWORDS then 1%nat else 0%nat)
   /\ occurrences (js "simple_keywords:")
        (Scored.signals (ClassifierFR.calculateComplexityScore s T))
      = (if (0 <? Common.countKeywordMatches s ClassifierFR.SIMPLE_KEYWORDS)
            && (Common.countKeywordMatches s ClassifierFR.POWER_KEYWORDS =? 0)
         then 1%nat else 0%nat)
   /\ (occurrences (js "power_keywords:")
         (Scored.signals (ClassifierFR.calculateComplexityScore s T))
       + occurrences (js "simple_keywords:")
           (Scored.signals (ClassifierFR.calculateComplexityScore s T)) <= 1)%nat)
  /\
  (occurrences (js "power_keywords:")
     (Scored.signals (Classifier.calculateComplexityScore s T))
   = (if 0 <? Common.countKeywordMatches s Classifier.POWER_KEYWORDS then 1%nat else 0%nat)
   /\ occurrences (js "simple_keywords:")
        (Scored.signals (Classifier.calculateComplexityScore s T))
      = (if (0 <? Common.countKeywordMatches s Classifier.SIMPLE_KEYWORDS)
            && (Common.countKeywordMatches s Classifier.POWER_KEYWORDS =? 0)
         then 1%nat else 0%nat)
   /\ (occurrences (js "power_keywords:")
         (Scored.signals (Classifier.calculateComplexityScore s T))
       + occurrences (js "simple_keywords:")
           (Scored.signals (Classifier.calculateComplexityScore s T)) <= 1)%nat).
Proof.
  split.
  - signals_FR. rewrite !occurrences_app. count_labels.
    split; [lia|]. split; [lia|].
    destruct (Z.ltb_spec 0 (Common.countKeywordMatches s ClassifierFR.POWER_KEYWORDS));
      destruct (Z.eqb_spec (Common.countKeywordMatches s ClassifierFR.POWER_KEYWORDS) 0);
      destruct (0 <? Common.countKeywordMatches s ClassifierFR.SIMPLE_KEYWORDS);
      cbn [andb]; lia.
  - signals_EN. rewrite !occurrences_app. count_labels.
    split; [lia|]. split; [lia|].
    destruct (Z.ltb_spec 0 (Common.countKeywordMatches s Classifier.POWER_KEYWORDS));
      destruct (Z.eqb_spec (Common.countKeywordMatches s Classifier.POWER_KEYWORDS) 0);
      destruct (0 <? Common.countKeywordMatches s Classifier.SIMPLE_KEYWORDS);
      cbn [andb]; lia.
Qed.

Lemma opt_nil (c : bool) (l : jsstring) : opt c l = [] -> c = false.
Proof. destruct c; [discriminate | reflexivity]. Qed.

Lemma lengthPoints_small (s : jsstring) (T : ClassificationThresholds) :
  (minLengthForPower T + 600 <=? JS.length s) = false ->
  (if minLengthForPower T <? JS.length s
   then Z.min 20 ((JS.length s - minLengthForPower T) / 100) else 0)
  = (if minLengthForPower T <? JS.length s
     then (JS.length s - minLengthForPower T) / 100 else 0)
  /\ 0 <= (if minLengthForPower T <? JS.length s
           then (JS.length s - minLengthForPower T) / 100 else 0) <= 5.
Proof.
  intro H. apply Z.leb_gt in H.
  pose proof (Z.div_mod (JS.length s - minLengthForPower T) 100 ltac:(lia)) as Hdm.
  pose proof (Z.mod_pos_bound (JS.length s - minLengthForPower T) 100 ltac:(lia)) as Hmod.
  destruct (Z.ltb_spec (minLengthForPower T) (JS.length s)); lia.
Qed.

Ltac quiet_pass H :=
  repeat match type of H with
         | _ ++ _ = [] =>
             let H' := fresh "Hquiet" in
             apply app_eq_nil in H; destruct H as [H H'];
             apply opt_nil in H'
         end.

(** X5. A pass that carries no signal scores at most 5: the only points
    given without a label are the length points of a text that exceeds
    [minLengthForPower] by fewer than 600 code units, one point per full
    hundred.  In both revisions. *)
Theorem unlabelled_score (s : jsstring) (T : ClassificationThresholds) :
  (Scored.signals (ClassifierFR.calculateComplexityScore s T) = [] ->
   Scored.score (ClassifierFR.calculateComplexityScore s T)
   = (if minLengthForPower T <? JS.length s
      then (JS.length s - minLengthForPower T) / 100 else 0)
   /\ 0 <= Scored.score (ClassifierFR.calculateComplexityScore s T) <= 5)
  /\
  (Scored.signals (Classifier.calculateComplexityScore s T) = [] ->
   Scored.score (Classifier.calculateComplexityScore s T)
   = (if minLengthForPower T <? JS.length s
      then (JS.length s - minLengthForPower T) / 100 else 0)
   /\ 0 <= Scored.score (Classifier.calculateComplexityScore s T) <= 5).
Proof.
  split; intro H.
  - rewrite calculateComplexityScore_blocks_FR in H |- *.
    unfold Common.clamp in *. cbn [Scored.signals Scored.score] in *.
    rewrite ?fires_signals, ?lengthFactor_signals in H.
    cbn [Common.start Scored.signals app] in H.
    quiet_pass H. apply opt_nil in H.
    rewrite !fires_score, lengthFactor_score. cbn [Common.start Scored.score].
    rewrite Hquiet, Hquiet0, Hquiet1, Hquiet2, Hquiet3, Hquiet4, Hquiet5,
      Hquiet6, Hquiet7.
    destruct (lengthPoints_small s T H) as [-> Hr]. lia.
  - rewrite calculateComplexityScore_blocks_EN in H |- *.
    unfold Common.clamp in *. cbn [Scored.signals Scored.score] in *.
    rewrite ?fires_signals, ?lengthFactor_signals in H.
    cbn [Common.start Scored.signals app] in H.
    quiet_pass H. apply opt_nil in H.
    rewrite !fires_score, lengthFactor_score. cbn [Common.start Scored.score].
    rewrite Hquiet, Hquiet0, Hquiet1, Hquiet2, Hquiet3, Hquiet4, Hquiet5.
    destruct (lengthPoints_small s T H) as [-> Hr]. lia.
Qed.

Lemma unlabelled_score_witness :
  Scored.signals (ClassifierFR.calculateComplexityScore (js "Bonsoir") defaultThresholds) = []
  /\ Scored.signals (Classifier.calculateComplexityScore (js "Bonsoir") defaultThresholds) = []
  /\ 0 <= Scored.score (ClassifierFR.calculateComplexityScore (js "Bonsoir")
                          defaultThresholds) <= 5.
Proof.
  assert (HFR : Scored.signals (ClassifierFR.calculateComplexityScore (js "Bonsoir")
                                  defaultThresholds) = [])
    by (vm_compute; reflexivity).
  assert (HEN : Scored.signals (Classifier.calculateComplexityScore (js "Bonsoir")
                                  defaultThresholds) = [])
    by (vm_compute; reflexivity).
  split; [exact HFR|]. split; [exact HEN|].
  destruct (unlabelled_score (js "Bonsoir") defaultThresholds) as [H _].
  exact (proj2 (H HFR)).
Defined.

(** X6. The points of each detector stay in the range that the comment
    over its block declares: length 0 to 20, code lines 0 to 25, power
    keywords 0 to 40 (0 to 30 in [src/src/classifier.ts]), simple
    keywords -10 to 0, multi-step reasoning 0 or 30 (15), debugging 0 or
    25 (10), deep question and academic topic 0 or 15, programming
    languages 0 to 5, questions 0 to 10. *)
Theorem detector_ranges (s : jsstring) (T : ClassificationThresholds) (st : Scored.t) :
  let points (f : Scored.t -> Scored.t) := Scored.score (f st) - Scored.score st in
  0 <= points (Common.lengthFactor s T) <= 20
  /\ 0 <= points (Common.codeLinesFactor s T) <= 25
  /\ 0 <= points (ClassifierFR.powerKeywords s) <= 40
  /\ 0 <= points (Classifier.powerKeywords s) <= 30
  /\ -10 <= points (ClassifierFR.simpleKeywords s) <= 0
  /\ -10 <= points (Classifier.simpleKeywords s) <= 0
  /\ (points (ClassifierFR.multiStepReasoning s) = 0
      \/ points (ClassifierFR.multiStepReasoning s) = 30)
  /\ (points (Classifier.multiStepReasoning s) = 0
      \/ points (Classifier.multiStepReasoning s) = 15)
  /\ (points (ClassifierFR.debuggingContext s) = 0
      \/ points (ClassifierFR.debuggingContext s) = 25)
  /\ (points (Classifier.debuggingContext s) = 0
      \/ points (Classifier.debuggingContext s) = 10)
  /\ (points (ClassifierFR.deepQuestion s) = 0 \/ points (ClassifierFR.deepQuestion s) = 15)
  /\ (points (ClassifierFR.academicTopic s) = 0 \/ points (ClassifierFR.academicTopic s) = 15)
  /\ 0 <= points (Common.programmingLanguages s) <= 5
  /\ 0 <= points (Common.questionComplexity s) <= 10.
Proof.
  cbv beta zeta.
  pose proof (countKeywordMatches_nonneg s ClassifierFR.POWER_KEYWORDS).
  pose proof (countKeywordMatches_nonneg s Classifier.POWER_KEYWORDS).
  pose proof (countKeywordMatches_nonneg s ClassifierFR.SIMPLE_KEYWORDS).
  pose proof (countKeywordMatches_nonneg s Classifier.SIMPLE_KEYWORDS).
  pose proof (countKeywordMatches_nonneg s Common.PROGRAMMING_LANGUAGES).
  rewrite lengthFactor_score, codeLinesFactor_fires, powerKeywords_fires_FR,
    powerKeywords_fires_EN, simpleKeywords_fires_FR, simpleKeywords_fires_EN,
    programmingLanguages_fires, questionComplexity_fires.
  unfold ClassifierFR.multiStepReasoning, Classifier.multiStepReasoning,
    ClassifierFR.debuggingContext, Classifier.debuggingContext,
    ClassifierFR.deepQuestion, ClassifierFR.academicTopic.
  fold (fires (ClassifierFR.detectMultiStepReasoning s) 30 (js "multi_step_reasoning") st).
  fold (fires (Classifier.detectMultiStepReasoning s) 15 (js "multi_step_reasoning") st).
  fold (fires (ClassifierFR.detectDebugging s) 25 (js "debugging") st).
  fold (fires (Classifier.detectDebugging s) 10 (js "debugging") st).
  fold (fires (Common.some_test ClassifierFR.deepQuestionPatterns s && (30 <? JS.length s))
          15 (js "deep_question") st).
  fold (fires (Common.some_test ClassifierFR.academicPatterns s) 15 (js "academic_topic") st).
  rewrite !fires_score.
  pose proof (Z.div_mod (JS.length s - minLengthForPower T) 100 ltac:(lia)) as Hdm.
  pose proof (Z.mod_pos_bound (JS.length s - minLengthForPower T) 100 ltac:(lia)) as Hmod.
  pose proof (Z.div_mod (Common.countCodeLines s - minCodeLinesForPower T) 2 ltac:(lia)) as Hdm2.
  pose proof (Z.mod_pos_bound (Common.countCodeLines s - minCodeLinesForPower T) 2 ltac:(lia))
    as Hmod2.
  repeat match goal with |- _ /\ _ => split end;
    destruct (Z.ltb_spec (minLengthForPower T) (JS.length s));
    destruct (Z.ltb_spec (minCodeLinesForPower T) (Common.countCodeLines s));
    repeat match goal with
           | |- context [if ?c then _ else _] => destruct c
           end;
    lia.
Qed.

(** ** Two patterns read as counts *)

Section LiteralPattern.

(** A pattern that is one literal, matched with case. *)
Variable r : RegExp.regexp.
Variable k : N.
Hypothesis body_literal : RegExp.body r = RegExp.Atom (RegExp.AChar k).
Hypothesis with_case : RegExp.ignoreCase (RegExp.flag r) = false.

Lemma ends_literal (prev : option N) (s : jsstring) :
  RegExp.ends (RegExp.flag r) (RegExp.body r) (prev, s)
  = match s with
    | c :: t => if (k =? c)%N then [(Some c, t)] else []
    | [] => []
    end.
Proof.
  rewrite body_literal. cbn [RegExp.ends]. unfold RegExp.step. cbn [snd].
  destruct s as [|c t]; [reflexivity|].
  unfold RegExp.atomMatches, RegExp.canonicalize. rewrite with_case. reflexivity.
Qed.

Lemma search_literal (s : jsstring) :
  forall prev,
    match RegExp.search r prev s with
    | None => countUnit k s = O
    | Some (b, e) =>
        exists c, snd b = c :: snd e
                  /\ countUnit k s = S (countUnit k (snd e))
                  /\ (List.length (snd e) < List.length s)%nat
    end.
Proof.
  induction s as [|c t IH]; intro prev.
  - cbn [RegExp.search]. rewrite ends_literal. reflexivity.
  - cbn [RegExp.search]. rewrite ends_literal. cbn [countUnit].
    rewrite (N.eqb_sym c k).
    destruct (k =? c)%N.
    + exists c. cbn [snd List.length]. repeat split. lia.
    + specialize (IH (Some c)).
      destruct (RegExp.search r (Some c) t) as [[b e]|]; [|exact IH].
      destruct IH as (c' & Hb & Hc & Hl). exists c'.
      cbn [List.length]. repeat split; [exact Hb | exact Hc | lia].
Qed.

Lemma scan_literal (fuel : nat) :
  forall (s : jsstring) (prev : option N),
    (List.length s < fuel)%nat ->
    List.length (fst (RegExp.scan fuel r prev s)) = countUnit k s.
Proof.
  induction fuel as [|fuel IH]; intros s prev Hfuel; [lia|].
  cbn [RegExp.scan].
  pose proof (search_literal s prev) as Hs.
  destruct (RegExp.search r prev s) as [[b e]|]; [|cbn; now rewrite Hs].
  destruct Hs as (c & Hb & Hc & Hl).
  rewrite Hb. cbn [List.length].
  replace (S (List.length (snd e)) - List.length (snd e))%nat with 1%nat by lia.
  specialize (IH (snd e) (fst e) ltac:(lia)).
  destruct (RegExp.scan fuel r (fst e) (snd e)) as [ms tail].
  cbn [fst List.length] in *. now rewrite IH, Hc.
Qed.

Lemma matchAll_literal (s : jsstring) :
  List.length (RegExp.matchAll r s) = countUnit k s.
Proof.
  unfold RegExp.matchAll. rewrite length_map.
  apply scan_literal. lia.
Qed.

End LiteralPattern.

Lemma questionCount (s : jsstring) :
  List.length (RegExp.matchAll Common.questionMark s) = countUnit 63 s.
Proof.
  apply matchAll_literal; vm_compute; reflexivity.
Qed.

(** X7. The question detector counts the question marks of the text: it
    fires from three on, and gives twice their number, at most 10. *)
Theorem questionComplexity_counts (s : jsstring) (st : Scored.t) :
  let questionCount := Z.of_nat (countUnit 63 s) in
  Common.questionComplexity s st
  = if 2 <? questionCount
    then {| Scored.score := Scored.score st + Z.min 10 (questionCount * 2);
            Scored.signals :=
              Scored.signals st ++ [js "questions:" ++ JS.numToString questionCount] |}
    else st.
Proof.
  cbv zeta. unfold Common.questionComplexity. cbv zeta.
  rewrite questionCount. reflexivity.
Qed.

Section LeadingLiteral.

(** A pattern that begins with a literal, matched with case. *)
Variable r : RegExp.regexp.
Variable k : N.
Variable rest : RegExp.node.
Hypothesis body_leading :
  RegExp.body r = RegExp.Seq (RegExp.Atom (RegExp.AChar k)) rest.
Hypothesis with_case : RegExp.ignoreCase (RegExp.flag r) = false.

Lemma search_leading (s : jsstring) :
  forall prev, countUnit k s = O -> RegExp.search r prev s = None.
Proof.
  induction s as [|c t IH]; intros prev Hk.
  - cbn [RegExp.search]. rewrite body_leading. reflexivity.
  - cbn [countUnit] in Hk.
    destruct (c =? k)%N eqn:E; [discriminate|].
    cbn [RegExp.search]. rewrite body_leading. cbn [RegExp.ends].
    unfold RegExp.step at 1. cbn [snd].
    unfold RegExp.atomMatches, RegExp.canonicalize. rewrite with_case.
    cbn [negb]. rewrite (N.eqb_sym k c), E. cbn [flat_map].
    apply IH. exact Hk.
Qed.

Lemma matchAll_leading (s : jsstring) :
  countUnit k s = O -> RegExp.matchAll r s = [].
Proof.
  intro Hk. unfold RegExp.matchAll. cbn [RegExp.scan].
  now rewrite search_leading.
Qed.

End LeadingLiteral.

(** ** The inline-code pattern counts lines *)

Lemma inlineCode_body :
  RegExp.body Common.inlineCode
  = RegExp.Seq (RegExp.Assert RegExp.Bol)
      (RegExp.Seq
         (RegExp.Star true (RegExp.Class false [RegExp.AChar 9; RegExp.AChar 32]))
         (RegExp.Seq (altNode (map wordNode statementKeywords))
            (RegExp.Assert RegExp.WordB))).
Proof. vm_compute. reflexivity. Qed.

Lemma inlineCode_flag :
  RegExp.flag Common.inlineCode
  = {| RegExp.ignoreCase := false; RegExp.global := true; RegExp.multiline := true |}.
Proof. vm_compute. reflexivity. Qed.

Lemma wordUnit_isWordChar (c : N) : RegExp.isWordChar c = wordUnit c.
Proof. reflexivity. Qed.

Lemma ends_word (w : list N) :
  forall (prev : option N) (s : jsstring),
    RegExp.ends gm (wordNode w) (prev, s)
    = if JS.startsWith w s
      then [(match w with [] => prev | _ :: _ => Some (last w 0%N) end,
             skipn (List.length w) s)]
      else [].
Proof.
  induction w as [|c w IH]; intros prev s; [reflexivity|].
  assert (Hone :
    RegExp.ends gm (RegExp.Atom (RegExp.AChar c)) (prev, s)
    = match s with
      | x :: t => if (c =? x)%N then [(Some c, t)] else []
      | [] => []
      end).
  { cbn [RegExp.ends]. unfold RegExp.step. cbn [snd].
    destruct s as [|x t]; [reflexivity|].
    unfold RegExp.atomMatches, RegExp.canonicalize. cbn [gm RegExp.ignoreCase negb].
    destruct (N.eqb_spec c x) as [->|]; reflexivity. }
  destruct w as [|d w].
  - change (wordNode [c]) with (RegExp.Atom (RegExp.AChar c)).
    rewrite Hone. destruct s as [|x t]; [reflexivity|].
    cbn [JS.startsWith last List.length skipn].
    destruct (c =? x)%N; reflexivity.
  - change (wordNode (c :: d :: w))
      with (RegExp.Seq (RegExp.Atom (RegExp.AChar c)) (wordNode (d :: w))).
    cbn [RegExp.ends]. fold (RegExp.ends gm (RegExp.Atom (RegExp.AChar c)) (prev, s)).
    rewrite Hone. destruct s as [|x t]; [reflexivity|].
    change (JS.startsWith (c :: d :: w) (x :: t))
      with ((c =? x)%N && JS.startsWith (d :: w) t).
    destruct (c =? x)%N; [|reflexivity].
    cbn [flat_map andb]. rewrite IH, app_nil_r.
    destruct (JS.startsWith (d :: w) t); reflexivity.
Qed.

Lemma ends_alt (ns : list RegExp.node) (p : RegExp.pos) :
  RegExp.ends gm (altNode ns) p = flat_map (fun n => RegExp.ends gm n p) ns.
Proof.
  induction ns as [|n ns IH].
  - cbn [altNode flat_map]. unfold RegExp.never. cbn [RegExp.ends].
    unfold RegExp.step. destruct (snd p); reflexivity.
  - destruct ns as [|m ns].
    + cbn [altNode flat_map]. now rewrite app_nil_r.
    + change (altNode (n :: m :: ns)) with (RegExp.Alt n (altNode (m :: ns))).
      cbn [RegExp.ends]. fold (RegExp.ends gm n p).
      fold (RegExp.ends gm (altNode (m :: ns)) p). rewrite IH. reflexivity.
Qed.

Lemma ends_blank (prev : option N) (s : jsstring) :
  RegExp.ends gm blanks (prev, s)
  = match s with
    | c :: t => if blank c then [(Some c, t)] else []
    | [] => []
    end.
Proof.
  unfold blanks. cbn [RegExp.ends]. unfold RegExp.step. cbn [snd].
  destruct s as [|c t]; [reflexivity|].
  unfold RegExp.atomMatches, RegExp.canonicalize. cbn [gm RegExp.ignoreCase negb existsb].
  unfold blank. rewrite orb_false_r. cbn [xorb].
  rewrite (N.eqb_sym 9 c), (N.eqb_sym 32 c). reflexivity.
Qed.

Lemma ends_blanks (prev : option N) (s : jsstring) :
  RegExp.ends gm (RegExp.Star true blanks) (prev, s) = blankEnds prev s.
Proof.
  cbn [RegExp.ends snd].
  match goal with
  | |- ?L (List.length s) (prev, s) = _ => set (loop := L)
  end.
  assert (H0 : forall p, loop O p = [p]) by reflexivity.
  assert (HS : forall n p,
             loop (S n) p
             = flat_map (fun q => if RegExp.advanced p q then loop n q else [])
                 (RegExp.ends gm blanks p) ++ [p]) by reflexivity.
  clearbody loop.
  assert (H : forall n prev s, (List.length s <= n)%nat ->
                               loop n (prev, s) = blankEnds prev s).
  { clear prev s. induction n as [|n IH]; intros prev s Hn.
    - destruct s; [|cbn [List.length] in Hn; lia]. now rewrite H0.
    - rewrite HS, ends_blank. destruct s as [|c t]; [reflexivity|].
      cbn [blankEnds]. destruct (blank c); [|reflexivity].
      cbn [flat_map]. unfold RegExp.advanced. cbn [snd List.length].
      rewrite (proj2 (Nat.ltb_lt _ _) (Nat.lt_succ_diag_r _)).
      rewrite app_nil_r, IH; [reflexivity|]. cbn [List.length] in Hn. lia. }
  apply H. apply Nat.le_refl.
Qed.

Lemma ends_keywords (kws : list jsstring) (prev : option N) (s : jsstring) :
  forallb goodKeyword kws = true ->
  RegExp.ends gm
    (RegExp.Seq (altNode (map wordNode kws)) (RegExp.Assert RegExp.WordB)) (prev, s)
  = candidates kws s.
Proof.
  intro Hgood. cbn [RegExp.ends].
  fold (RegExp.ends gm (altNode (map wordNode kws)) (prev, s)).
  rewrite ends_alt. unfold candidates.
  induction kws as [|kw kws IH]; [reflexivity|].
  cbn [forallb] in Hgood. apply andb_true_iff in Hgood. destruct Hgood as [Hkw Hkws].
  cbn [map flat_map]. rewrite flat_map_app, (IH Hkws). f_equal.
  rewrite ends_word. unfold beginsWith.
  destruct (JS.startsWith kw s); [|reflexivity].
  unfold goodKeyword in Hkw.
  destruct kw as [|k kw]; [discriminate|].
  apply andb_true_iff in Hkw. destruct Hkw as [Hkw _].
  apply andb_true_iff in Hkw. destruct Hkw as [_ Hlast].
  cbn [flat_map andb]. rewrite app_nil_r.
  unfold RegExp.holds, RegExp.wordBefore, RegExp.wordAfter. cbn [fst snd].
  rewrite wordUnit_isWordChar, Hlast.
  destruct (skipn (List.length (k :: kw)) s) as [|c r]; [reflexivity|].
  rewrite wordUnit_isWordChar. cbn [xorb].
  destruct (wordUnit c); reflexivity.
Qed.

Lemma candidates_blank (kws : list jsstring) (c : N) (t : jsstring) :
  forallb goodKeyword kws = true ->
  blank c = true ->
  candidates kws (c :: t) = [].
Proof.
  intros Hgood Hc. unfold candidates.
  induction kws as [|kw kws IH]; [reflexivity|].
  cbn [forallb] in Hgood. apply andb_true_iff in Hgood. destruct Hgood as [Hkw Hkws].
  cbn [flat_map]. rewrite (IH Hkws), app_nil_r.
  unfold goodKeyword in Hkw. destruct kw as [|k kw]; [discriminate|].
  apply andb_true_iff in Hkw. destruct Hkw as [Hkw _].
  apply andb_true_iff in Hkw. destruct Hkw as [Hk _].
  unfold beginsWith. cbn [JS.startsWith].
  destruct (N.eqb_spec k c) as [->|]; [|reflexivity].
  rewrite Hc in Hk. discriminate.
Qed.

Lemma candidates_blankEnds (kws : list jsstring) (s : jsstring) :
  forallb goodKeyword kws = true ->
  forall prev,
    flat_map (fun q => candidates kws (snd q)) (blankEnds prev s)
    = candidates kws (dropBlanks s).
Proof.
  intro Hgood. induction s as [|c t IH]; intro prev.
  - cbn [blankEnds flat_map snd dropBlanks]. apply app_nil_r.
  - cbn [blankEnds dropBlanks]. destruct (blank c) eqn:Ec.
    + rewrite flat_map_app, IH. cbn [flat_map snd].
      rewrite (candidates_blank kws c t Hgood Ec). now rewrite !app_nil_r.
    + cbn [flat_map snd]. apply app_nil_r.
Qed.

Lemma ends_inline (kws : list jsstring) (prev : option N) (s : jsstring) :
  forallb goodKeyword kws = true ->
  RegExp.ends gm (inlineBody kws) (prev, s)
  = if lineStart prev then candidates kws (dropBlanks s) else [].
Proof.
  intro Hgood. unfold inlineBody.
  set (tail := RegExp.Seq (altNode (map wordNode kws)) (RegExp.Assert RegExp.WordB)).
  change (RegExp.ends gm
            (RegExp.Seq (RegExp.Assert RegExp.Bol)
               (RegExp.Seq (RegExp.Star true blanks) tail)) (prev, s))
    with (flat_map (fun p => flat_map (RegExp.ends gm tail)
                               (RegExp.ends gm (RegExp.Star true blanks) p))
            (if RegExp.holds gm RegExp.Bol (prev, s) then [(prev, s)] else [])).
  change (RegExp.holds gm RegExp.Bol (prev, s)) with (lineStart prev).
  destruct (lineStart prev); [|reflexivity].
  cbn [flat_map]. rewrite app_nil_r, ends_blanks.
  rewrite <- (candidates_blankEnds kws s Hgood prev).
  apply flat_map_ext. intros [q r]. unfold tail. now rewrite ends_keywords.
Qed.

Lemma candidates_nil (kws : list jsstring) (s : jsstring) :
  candidates kws s = [] -> existsb (fun kw => beginsWith kw s) kws = false.
Proof.
  unfold candidates. induction kws as [|kw kws IH]; intro H; [reflexivity|].
  cbn [flat_map] in H. apply app_eq_nil in H. destruct H as [Hkw Hkws].
  cbn [existsb]. rewrite (IH Hkws).
  destruct (beginsWith kw s); [discriminate|reflexivity].
Qed.

Lemma candidates_head (kws : list jsstring) (s : jsstring) (e : RegExp.pos)
    (rest : list RegExp.pos) :
  candidates kws s = e :: rest ->
  existsb (fun kw => beginsWith kw s) kws = true
  /\ exists kw, In kw kws /\ JS.startsWith kw s = true
                /\ e = (Some (last kw 0%N), skipn (List.length kw) s).
Proof.
  intro H.
  assert (Hin : In e (candidates kws s)) by (rewrite H; left; reflexivity).
  unfold candidates in Hin. apply in_flat_map in Hin.
  destruct Hin as (kw & Hkw & He).
  destruct (beginsWith kw s) eqn:Eb; [|destruct He].
  destruct He as [<-|[]].
  split.
  - apply existsb_exists. exists kw. split; assumption.
  - exists kw. unfold beginsWith in Eb. apply andb_true_iff in Eb.
    destruct Eb as [Es _]. repeat split; assumption.
Qed.

Lemma startsWith_skipn (p s : jsstring) :
  JS.startsWith p s = true -> s = p ++ skipn (List.length p) s.
Proof.
  revert s. induction p as [|a p IH]; intros s H; [reflexivity|].
  destruct s as [|c s]; [discriminate|].
  cbn [JS.startsWith] in H. apply andb_true_iff in H. destruct H as [Hac Hp].
  apply N.eqb_eq in Hac. subst c. cbn [List.length skipn app].
  f_equal. now apply IH.
Qed.

Lemma takeBlanks_dropBlanks (s : jsstring) : s = takeBlanks s ++ dropBlanks s.
Proof.
  induction s as [|c t IH]; [reflexivity|].
  cbn [takeBlanks dropBlanks]. destruct (blank c); [|reflexivity].
  cbn [app]. now f_equal.
Qed.

Lemma blank_not_lineBreak (c : N) : blank c = true -> lineBreak c = false.
Proof.
  unfold blank, lineBreak. intro H. apply orb_true_iff in H.
  destruct H as [H|H]; apply N.eqb_eq in H; subst c; reflexivity.
Qed.

Lemma lineBreak_not_wordUnit (c : N) : lineBreak c = true -> wordUnit c = false.
Proof.
  unfold lineBreak. intro H.
  repeat (apply orb_true_iff in H; destruct H as [H|H]);
    apply N.eqb_eq in H; subst c; reflexivity.
Qed.

Lemma takeBlanks_no_lineBreak (s : jsstring) :
  forallb (fun c => negb (lineBreak c)) (takeBlanks s) = true.
Proof.
  induction s as [|c t IH]; [reflexivity|].
  cbn [takeBlanks]. destruct (blank c) eqn:Ec; [|reflexivity].
  cbn [forallb]. now rewrite (blank_not_lineBreak c Ec), IH.
Qed.

Lemma startsCount_skip (m : jsstring) :
  m <> [] ->
  forallb (fun c => negb (lineBreak c)) m = true ->
  forall (prev : option N) (s : jsstring),
    startsCount prev (m ++ s)
    = ((if lineStart prev && beginsStatement (m ++ s) then 1 else 0)
       + startsCount (Some (last m 0%N)) s)%nat.
Proof.
  induction m as [|c m IH]; intros Hne Hm prev s; [congruence|].
  cbn [forallb] in Hm. apply andb_true_iff in Hm. destruct Hm as [Hc Hm].
  destruct m as [|d m].
  - reflexivity.
  - change (startsCount prev ((c :: d :: m) ++ s))
      with ((if lineStart prev && beginsStatement ((c :: d :: m) ++ s) then 1 else 0)
            + startsCount (Some c) ((d :: m) ++ s))%nat.
    rewrite (IH ltac:(discriminate) Hm (Some c) s).
    cbn [lineStart]. apply negb_true_iff in Hc. rewrite Hc. cbn [andb].
    reflexivity.
Qed.

Lemma last_app_nonempty (a b : jsstring) (d : N) :
  b <> [] -> last (a ++ b) d = last b d.
Proof.
  intro Hb. induction a as [|x a IH]; [reflexivity|].
  cbn [app]. destruct (a ++ b) as [|y l] eqn:E.
  - apply app_eq_nil in E. destruct E as [_ E]. congruence.
  - cbn [last]. exact IH.
Qed.

Lemma statementKeywords_good : forallb goodKeyword statementKeywords = true.
Proof. vm_compute. reflexivity. Qed.

Lemma beginsStatement_candidates (s : jsstring) :
  beginsStatement s = existsb (fun kw => beginsWith kw (dropBlanks s)) statementKeywords.
Proof. reflexivity. Qed.

Section InlinePattern.

Variable r : RegExp.regexp.
Hypothesis body_inline : RegExp.body r = inlineBody statementKeywords.
Hypothesis flag_inline : RegExp.flag r = gm.

Lemma search_inline (s : jsstring) :
  forall prev,
    match RegExp.search r prev s with
    | None => startsCount prev s = O
    | Some (b, e) =>
        startsCount prev s = S (startsCount (fst e) (snd e))
        /\ (List.length (snd e) < List.length (snd b) <= List.length s)%nat
    end.
Proof.
  induction s as [|c t IH]; intro prev.
  - cbn [RegExp.search]. rewrite body_inline, flag_inline.
    rewrite (ends_inline _ _ _ statementKeywords_good).
    cbn [dropBlanks]. cbn [startsCount].
    destruct (lineStart prev); [|reflexivity].
    destruct (candidates statementKeywords []) as [|e rest] eqn:Ec.
    + apply candidates_nil in Ec. rewrite beginsStatement_candidates.
      cbn [dropBlanks]. rewrite Ec. reflexivity.
    + apply candidates_head in Ec. destruct Ec as (_ & kw & Hin & Hs & _).
      exfalso.
      pose proof (proj1 (forallb_forall _ _) statementKeywords_good kw Hin) as Hg.
      unfold goodKeyword in Hg. destruct kw; discriminate.
  - cbn [RegExp.search]. rewrite body_inline, flag_inline.
    rewrite (ends_inline _ _ _ statementKeywords_good).
    assert (Hmiss :
      lineStart prev && beginsStatement (c :: t) = false ->
      match RegExp.search r (Some c) t with
      | Some (b, e) =>
          startsCount prev (c :: t) = S (startsCount (fst e) (snd e))
          /\ (List.length (snd e) < List.length (snd b) <= List.length (c :: t))%nat
      | None => startsCount prev (c :: t) = O
      end).
    { intro Hf. specialize (IH (Some c)).
      change (startsCount prev (c :: t))
        with ((if lineStart prev && beginsStatement (c :: t) then 1 else 0)
              + startsCount (Some c) t)%nat.
      rewrite Hf.
      destruct (RegExp.search r (Some c) t) as [[b e]|]; [|exact IH].
      destruct IH as [Hc Hl]. split; [exact Hc|]. cbn [List.length]. lia. }
    destruct (lineStart prev) eqn:El; [|apply Hmiss; reflexivity].
    destruct (candidates statementKeywords (dropBlanks (c :: t))) as [|e rest] eqn:Ec.
    + apply Hmiss. apply candidates_nil in Ec.
      rewrite beginsStatement_candidates, Ec. reflexivity.
    + apply candidates_head in Ec. destruct Ec as (Hex & kw & Hin & Hs & ->).
      pose proof (proj1 (forallb_forall _ _) statementKeywords_good kw Hin) as Hg.
      unfold goodKeyword in Hg.
      apply andb_true_iff in Hg. destruct Hg as [Hg Hnl].
      apply andb_true_iff in Hg. destruct Hg as [Hne _].
      assert (Hkw : kw <> []) by (destruct kw; [discriminate|discriminate]).
      cbn [fst snd].
      pose proof (startsWith_skipn _ _ Hs) as Hd.
      pose proof (takeBlanks_dropBlanks (c :: t)) as Hsplit.
      set (s' := skipn (List.length kw) (dropBlanks (c :: t))) in *.
      assert (Hm : c :: t = (takeBlanks (c :: t) ++ kw) ++ s').
      { rewrite <- app_assoc, <- Hd. exact Hsplit. }
      assert (Hlen : (List.length s' < List.length (c :: t))%nat).
      { rewrite Hm at 1. rewrite !length_app.
        destruct kw; [congruence|]. cbn [List.length]. lia. }
      split; [|lia].
      rewrite Hm at 1.
      rewrite startsCount_skip.
      * rewrite <- Hm, El. rewrite beginsStatement_candidates, Hex. cbn [andb].
        rewrite last_app_nonempty; [reflexivity|exact Hkw].
      * destruct (takeBlanks (c :: t)); destruct kw; try congruence; discriminate.
      * rewrite forallb_app, takeBlanks_no_lineBreak, Hnl. reflexivity.
Qed.

End InlinePattern.

Section InlineScan.

Variable r : RegExp.regexp.
Hypothesis body_inline : RegExp.body r = inlineBody statementKeywords.
Hypothesis flag_inline : RegExp.flag r = gm.

Lemma scan_inline (fuel : nat) :
  forall (s : jsstring) (prev : option N),
    (List.length s < fuel)%nat ->
    List.length (fst (RegExp.scan fuel r prev s)) = startsCount prev s.
Proof.
  induction fuel as [|fuel IH]; intros s prev Hfuel; [lia|].
  cbn [RegExp.scan].
  pose proof (search_inline r body_inline flag_inline s prev) as Hs.
  destruct (RegExp.search r prev s) as [[b e]|]; [|cbn; now rewrite Hs].
  destruct Hs as [Hc Hl].
  destruct (List.length (snd b) - List.length (snd e))%nat as [|taken] eqn:Et; [lia|].
  specialize (IH (snd e) (fst e) ltac:(lia)).
  destruct (RegExp.scan fuel r (fst e) (snd e)) as [ms tail].
  cbn [fst List.length] in *. now rewrite IH, Hc.
Qed.

Lemma matchAll_inline (s : jsstring) :
  List.length (RegExp.matchAll r s) = startsCount None s.
Proof.
  unfold RegExp.matchAll. rewrite length_map.
  apply scan_inline. lia.
Qed.

End InlineScan.

Lemma linesOf_firstLine (s : jsstring) :
  linesOf s = firstLine s :: tl (linesOf s).
Proof.
  induction s as [|c t IH]; [reflexivity|].
  cbn [linesOf firstLine]. destruct (lineBreak c); [reflexivity|].
  rewrite IH. reflexivity.
Qed.

Lemma dropBlanks_firstLine (s : jsstring) :
  dropBlanks (firstLine s) = firstLine (dropBlanks s).
Proof.
  induction s as [|c t IH]; [reflexivity|].
  cbn [firstLine dropBlanks].
  destruct (blank c) eqn:Ec.
  - rewrite (blank_not_lineBreak c Ec). cbn [dropBlanks]. now rewrite Ec.
  - cbn [firstLine]. destruct (lineBreak c); [reflexivity|].
    cbn [dropBlanks]. now rewrite Ec.
Qed.

Lemma beginsWith_cons (k : N) (kw : jsstring) (c : N) (s : jsstring) :
  beginsWith (k :: kw) (c :: s) = (k =? c)%N && beginsWith kw s.
Proof. unfold beginsWith. cbn [JS.startsWith List.length skipn]. now rewrite andb_assoc. Qed.

Lemma beginsWith_firstLine (kw : jsstring) :
  forallb (fun c => negb (lineBreak c)) kw = true ->
  forall s, beginsWith kw (firstLine s) = beginsWith kw s.
Proof.
  induction kw as [|k kw IH]; intros Hkw s.
  - unfold beginsWith. cbn [JS.startsWith List.length skipn andb].
    destruct s as [|c t]; [reflexivity|].
    cbn [firstLine]. destruct (lineBreak c) eqn:Ec; [|reflexivity].
    now rewrite (lineBreak_not_wordUnit c Ec).
  - cbn [forallb] in Hkw. apply andb_true_iff in Hkw. destruct Hkw as [Hk Hkw].
    destruct s as [|c t]; [reflexivity|].
    cbn [firstLine]. destruct (lineBreak c) eqn:Ec.
    + rewrite beginsWith_cons.
      destruct (N.eqb_spec k c) as [->|]; [|reflexivity].
      rewrite Ec in Hk. discriminate.
    + rewrite !beginsWith_cons. now rewrite (IH Hkw).
Qed.

Lemma beginsStatement_firstLine (s : jsstring) :
  beginsStatement (firstLine s) = beginsStatement s.
Proof.
  unfold beginsStatement. rewrite dropBlanks_firstLine.
  pose proof statementKeywords_good as Hgood.
  induction statementKeywords as [|kw kws IH]; [reflexivity|].
  cbn [forallb] in Hgood. apply andb_true_iff in Hgood. destruct Hgood as [Hkw Hkws].
  cbn [existsb]. rewrite (IH Hkws). f_equal.
  apply beginsWith_firstLine.
  unfold goodKeyword in Hkw. apply andb_true_iff in Hkw. exact (proj2 Hkw).
Qed.

Lemma startsCount_lines (s : jsstring) :
  forall prev,
    startsCount prev s
    = ((if lineStart prev && beginsStatement (firstLine s) then 1 else 0)
       + List.length (filter beginsStatement (tl (linesOf s))))%nat.
Proof.
  induction s as [|c t IH]; intro prev.
  - cbn [startsCount firstLine linesOf tl filter List.length]. reflexivity.
  - change (startsCount prev (c :: t))
      with ((if lineStart prev && beginsStatement (c :: t) then 1 else 0)
            + startsCount (Some c) t)%nat.
    rewrite <- (beginsStatement_firstLine (c :: t)).
    rewrite (IH (Some c)). f_equal.
    cbn [linesOf lineStart]. rewrite (linesOf_firstLine t).
    destruct (lineBreak c).
    + cbn [tl filter andb]. destruct (beginsStatement (firstLine t)); reflexivity.
    + reflexivity.
Qed.

Lemma statementLines (s : jsstring) :
  List.length (RegExp.matchAll Common.inlineCode s)
  = List.length (filter beginsStatement (linesOf s)).
Proof.
  rewrite (matchAll_inline Common.inlineCode inlineCode_body inlineCode_flag).
  rewrite startsCount_lines. cbn [lineStart andb].
  rewrite (linesOf_firstLine s) at 2. cbn [filter].
  destruct (beginsStatement (firstLine s)); reflexivity.
Qed.



(** ** The classification as a whole *)

Lemma score_range_EN (s : jsstring) (T : ClassificationThresholds) :
  0 <= Scored.score (Classifier.calculateComplexityScore s T) <= 100.
Proof. unfold Classifier.calculateComplexityScore. cbv zeta. apply clamp_range. Qed.

Lemma score_range_FR (s : jsstring) (T : ClassificationThresholds) :
  0 <= Scored.score (ClassifierFR.calculateComplexityScore s T) <= 100.
Proof. unfold ClassifierFR.calculateComplexityScore. cbv zeta. apply clamp_range. Qed.

Section Classification.

Variable calculateComplexityScore :
  jsstring -> ClassificationThresholds -> Scored.t.
Hypothesis score_range :
  forall s T, 0 <= Scored.score (calculateComplexityScore s T) <= 100.

Lemma classify_range (messages : list ChatMessage) (T : ClassificationThresholds) :
  0 <= score (Common.classifyRequest calculateComplexityScore messages T) <= 100.
Proof.
  rewrite classify_score.
  pose proof (score_range (Common.extractTextContent messages) T).
  pose proof (score_range (lastUserText messages) T). lia.
Qed.

Lemma classify_extremes (messages : list ChatMessage) (T : ClassificationThresholds) :
  (100 < minScoreForPower T ->
   usePowerModel (Common.classifyRequest calculateComplexityScore messages T) = false)
  /\ (minScoreForPower T <= 0 ->
      usePowerModel (Common.classifyRequest calculateComplexityScore messages T) = true).
Proof.
  rewrite classify_usePowerModel.
  pose proof (classify_range messages T) as Hrange.
  split; intro H; [apply Z.leb_gt | apply Z.leb_le]; lia.
Qed.

Lemma classify_signals (messages : list ChatMessage) (T : ClassificationThresholds) :
  signals (Common.classifyRequest calculateComplexityScore messages T)
  = if Scored.score (calculateComplexityScore (lastUserText messages) T)
       <=? Scored.score (calculateComplexityScore (Common.extractTextContent messages) T)
    then Scored.signals (calculateComplexityScore (Common.extractTextContent messages) T)
    else Scored.signals (calculateComplexityScore (lastUserText messages) T).
Proof.
  unfold Common.classifyRequest. cbv zeta. cbn [signals].
  rewrite classify_lastUserText.
  destruct (Z.leb_spec
              (Scored.score (calculateComplexityScore (lastUserText messages) T))
              (Scored.score (calculateComplexityScore (Common.extractTextContent messages) T)))
    as [Hle|Hgt].
  - rewrite Z.max_l by lia. now rewrite Z.eqb_refl.
  - rewrite Z.max_r by lia.
    destruct (Z.eqb_spec
                (Scored.score (calculateComplexityScore (lastUserText messages) T))
                (Scored.score (calculateComplexityScore (Common.extractTextContent messages) T)));
      [lia | reflexivity].
Qed.

Lemma classify_single (m : ChatMessage) (T : ClassificationThresholds) :
  role m = user ->
  score (Common.classifyRequest calculateComplexityScore [m] T)
  = Scored.score (calculateComplexityScore (textOfMessage m) T)
  /\ signals (Common.classifyRequest calculateComplexityScore [m] T)
     = Scored.signals (calculateComplexityScore (textOfMessage m) T).
Proof.
  intro Hrole.
  assert (Hlast : lastUserText [m] = textOfMessage m)
    by (unfold lastUserText; cbn [lastUser]; now rewrite Hrole).
  rewrite classify_score, classify_signals, Hlast, extract_single.
  rewrite Z.max_id, Z.leb_refl. split; reflexivity.
Qed.

End Classification.

(** X9. The score of a classification lies in [0, 100].  So a threshold
    above 100 sends every request to the default tier, and a threshold of
    0 or less sends every request to the power tier.  In both revisions. *)
Theorem classifyRequest_extremes (messages : list ChatMessage)
    (T : ClassificationThresholds) :
  (0 <= score (Classifier.classifyRequest messages T) <= 100
   /\ (100 < minScoreForPower T ->
       usePowerModel (Classifier.classifyRequest messages T) = false)
   /\ (minScoreForPower T <= 0 ->
       usePowerModel (Classifier.classifyRequest messages T) = true))
  /\
  (0 <= score (ClassifierFR.classifyRequest messages T) <= 100
   /\ (100 < minScoreForPower T ->
       usePowerModel (ClassifierFR.classifyRequest messages T) = false)
   /\ (minScoreForPower T <= 0 ->
       usePowerModel (ClassifierFR.classifyRequest messages T) = true)).
Proof.
  split.
  - split; [apply classify_range, score_range_EN|].
    apply classify_extremes, score_range_EN.
  - split; [apply classify_range, score_range_FR|].
    apply classify_extremes, score_range_FR.
Qed.

Lemma classifyRequest_extremes_witness :
  100 < 101
  /\ 0 <= 0
  /\ usePowerModel (ClassifierFR.classifyRequest [userMessage complexText]
                      {| minLengthForPower := 500; minCodeLinesForPower := 30;
                         minScoreForPower := 101 |}) = false
  /\ usePowerModel (ClassifierFR.classifyRequest [userMessage (js "Hello!")]
                      {| minLengthForPower := 500; minCodeLinesForPower := 30;
                         minScoreForPower := 0 |}) = true.
Proof.
  assert (H1 : 100 < 101) by lia.
  assert (H0 : 0 <= 0) by lia.
  split; [exact H1|]. split; [exact H0|]. split.
  - exact (proj1 (proj2 (proj2 (classifyRequest_extremes [userMessage complexText]
                                  {| minLengthForPower := 500; minCodeLinesForPower := 30;
                                     minScoreForPower := 101 |}))) H1).
  - exact (proj2 (proj2 (proj2 (classifyRequest_extremes [userMessage (js "Hello!")]
                                  {| minLengthForPower := 500; minCodeLinesForPower := 30;
                                     minScoreForPower := 0 |}))) H0).
Defined.

(** X10. The signals of a classification are those of the full
    conversation text when its score is at least the score of the last
    user message, and those of the last user message otherwise: a tie
    goes to the full conversation.  In both revisions. *)
Theorem classifyRequest_signals (messages : list ChatMessage)
    (T : ClassificationThresholds) :
  signals (Classifier.classifyRequest messages T)
  = (if Scored.score (Classifier.calculateComplexityScore (lastUserText messages) T)
        <=? Scored.score (Classifier.calculateComplexityScore
                            (Common.extractTextContent messages) T)
     then Scored.signals (Classifier.calculateComplexityScore
                            (Common.extractTextContent messages) T)
     else Scored.signals (Classifier.calculateComplexityScore (lastUserText messages) T))
  /\ signals (ClassifierFR.classifyRequest messages T)
     = (if Scored.score (ClassifierFR.calculateComplexityScore (lastUserText messages) T)
           <=? Scored.score (ClassifierFR.calculateComplexityScore
                               (Common.extractTextContent messages) T)
        then Scored.signals (ClassifierFR.calculateComplexityScore
                               (Common.extractTextContent messages) T)
        else Scored.signals (ClassifierFR.calculateComplexityScore
                               (lastUserText messages) T)).
Proof. split; apply classify_signals. Qed.

(** X11. For a conversation of one message whose role is [user], the
    score and the signals of the classification are those of the scoring
    pass on that message's text.  In both revisions. *)
Theorem classifyRequest_single_user_message (m : ChatMessage)
    (T : ClassificationThresholds) :
  role m = user ->
  (score (Classifier.classifyRequest [m] T)
   = Scored.score (Classifier.calculateComplexityScore (textOfMessage m) T)
   /\ signals (Classifier.classifyRequest [m] T)
      = Scored.signals (Classifier.calculateComplexityScore (textOfMessage m) T))
  /\ (score (ClassifierFR.classifyRequest [m] T)
      = Scored.score (ClassifierFR.calculateComplexityScore (textOfMessage m) T)
      /\ signals (ClassifierFR.classifyRequest [m] T)
         = Scored.signals (ClassifierFR.calculateComplexityScore (textOfMessage m) T)).
Proof. intro H. split; now apply classify_single. Qed.

Lemma classifyRequest_single_user_message_witness :
  role (userMessage (js "Hello!")) = user
  /\ score (ClassifierFR.classifyRequest [userMessage (js "Hello!")] defaultThresholds)
     = Scored.score (ClassifierFR.calculateComplexityScore
                       (textOfMessage (userMessage (js "Hello!"))) defaultThresholds).
Proof.
  assert (H : role (userMessage (js "Hello!")) = user) by reflexivity.
  split; [exact H|].
  exact (proj1 (proj2 (classifyRequest_single_user_message
                         (userMessage (js "Hello!")) defaultThresholds H))).
Defined.

(** X12. [classifyRequest] finds the last user message: when it finds
    [m], the conversation is some messages, then [m], whose role is
    [user], then messages none of which has the role [user]; when it
    finds none, no message has the role [user]. *)
Theorem lastUserMessage_is_last (messages : list ChatMessage) :
  match Common.lastUserMessage messages with
  | Some m =>
      exists before after,
        messages = before ++ m :: after
        /\ role m = user
        /\ Forall (fun x => Role_eqb (role x) user = false) after
  | None => Forall (fun x => Role_eqb (role x) user = false) messages
  end.
Proof.
  rewrite lastUserMessage_lastUser.
  induction messages as [|x rest IH]; [constructor|].
  cbn [lastUser]. destruct (lastUser rest) as [m|].
  - destruct IH as (before & after & Heq & Hrole & Hafter).
    exists (x :: before), after. rewrite Heq. repeat split; assumption.
  - destruct (Role_eqb (role x) user) eqn:E.
    + exists [], rest. repeat split; [|exact IH].
      destruct (role x); try discriminate; reflexivity.
    + constructor; assumption.
Qed.

(** ** The two revisions compared *)

Lemma eqb_eq (a b : jsstring) : JS.eqb a b = true -> a = b.
Proof.
  unfold JS.eqb. destruct (list_eq_dec N.eq_dec a b); [trivial | discriminate].
Qed.

Lemma subsequence_filter (f : jsstring -> bool) (l2 : list jsstring) :
  forall l1, subsequence l1 l2 = true ->
             (List.length (filter f l1) <= List.length (filter f l2))%nat.
Proof.
  induction l2 as [|y l2 IH]; intros [|x l1] H; cbn in *; try lia; try discriminate.
  destruct (JS.eqb x y) eqn:E.
  - apply eqb_eq in E. subst y. specialize (IH l1 H).
    destruct (f x); cbn [List.length]; lia.
  - specialize (IH (x :: l1) H). cbn [filter] in IH.
    destruct (f y); cbn [List.length]; lia.
Qed.

Lemma some_test_app (a b : list RegExp.regexp) (s : jsstring) :
  Common.some_test (a ++ b) s = Common.some_test a s || Common.some_test b s.
Proof. unfold Common.some_test. apply existsb_app. Qed.

(** X13. The bilingual revision detects whatever [src/src/classifier.ts]
    detects: on every text it matches at least as many power keywords and
    simple keywords, and its multi-step and debugging detectors accept
    every text that the English ones accept. *)
Theorem bilingual_detects_more (s : jsstring) :
  Common.countKeywordMatches s Classifier.POWER_KEYWORDS
  <= Common.countKeywordMatches s ClassifierFR.POWER_KEYWORDS
  /\ Common.countKeywordMatches s Classifier.SIMPLE_KEYWORDS
     <= Common.countKeywordMatches s ClassifierFR.SIMPLE_KEYWORDS
  /\ ClassifierFR.detectMultiStepReasoning s
     = Classifier.detectMultiStepReasoning s
       || Common.some_test (skipn 6 ClassifierFR.multiStepPatterns) s
  /\ ClassifierFR.detectDebugging s
     = Classifier.detectDebugging s
       || Common.some_test (skipn 9 ClassifierFR.debuggingPatterns) s.
Proof.
  split; [|split; [|split]].
  - unfold Common.countKeywordMatches. apply inj_le, subsequence_filter.
    vm_compute. reflexivity.
  - unfold Common.countKeywordMatches. apply inj_le, subsequence_filter.
    vm_compute. reflexivity.
  - unfold ClassifierFR.detectMultiStepReasoning, Classifier.detectMultiStepReasoning.
    rewrite <- some_test_app. reflexivity.
  - unfold ClassifierFR.detectDebugging, Classifier.detectDebugging.
    rewrite <- some_test_app. reflexivity.
Qed.

(* ================================================================== *)
(** * Properties of the configuration and of the clients *)
(* ================================================================== *)

Lemma startsWith_iff (p s : jsstring) :
  JS.startsWith p s = true <-> exists b, s = p ++ b.
Proof.
  split.
  - revert s. induction p as [|a p IH]; intros s H.
    + exists s. reflexivity.
    + destruct s as [|c s]; [discriminate|]. cbn in H.
      apply andb_true_iff in H. destruct H as [Hac Hp].
      apply N.eqb_eq in Hac. subst c.
      destruct (IH s Hp) as [b ->]. exists b. reflexivity.
  - intros [b ->]. apply startsWith_self.
Qed.

Lemma includes_iff (s p : jsstring) :
  JS.includes s p = true <-> exists a b, s = a ++ p ++ b.
Proof.
  split.
  - induction s as [|c s IH]; intro H.
    + cbn in H. rewrite orb_false_r in H.
      apply startsWith_iff in H. destruct H as [b Hb]. exists [], b. exact Hb.
    + cbn [JS.includes] in H. apply orb_true_iff in H. destruct H as [H|H].
      * apply startsWith_iff in H. destruct H as [b Hb]. exists [], b. exact Hb.
      * destruct (IH H) as (a & b & ->). exists (c :: a), b. reflexivity.
  - intros (a & b & ->). apply includes_app_r, includes_app_l, includes_refl.
Qed.

Lemma includes_trans (s p q : jsstring) :
  JS.includes s p = true -> JS.includes p q = true -> JS.includes s q = true.
Proof.
  intros H1 H2.
  apply includes_iff in H1. destruct H1 as (a & b & ->).
  now apply includes_app_r, includes_app_l.
Qed.

Lemma includes_longer (s p q : jsstring) :
  JS.includes p q = true ->
  JS.includes s p || JS.includes s q = JS.includes s q.
Proof.
  intro H. destruct (JS.includes s p) eqn:E; [|reflexivity].
  cbn. symmetry. now apply (includes_trans s p q).
Qed.

Lemma isDefaultProviderUrl_anthropic (url : jsstring) :
  Config.isDefaultProviderUrl (js "anthropic") url
  = JS.includes url (js "api.anthropic.com").
Proof.
  unfold Config.isDefaultProviderUrl.
  replace (JS.eqb (js "anthropic") (js "anthropic")) with true
    by (vm_compute; reflexivity).
  cbv zeta. cbn [existsb]. rewrite orb_false_r.
  apply includes_longer. vm_compute. reflexivity.
Qed.

Lemma isDefaultProviderUrl_openai (url : jsstring) :
  Config.isDefaultProviderUrl (js "openai") url
  = JS.includes url (js "api.openai.com").
Proof.
  unfold Config.isDefaultProviderUrl.
  replace (JS.eqb (js "openai") (js "anthropic")) with false
    by (vm_compute; reflexivity).
  replace (JS.eqb (js "openai") (js "openai")) with true
    by (vm_compute; reflexivity).
  cbv zeta. cbn [existsb]. rewrite orb_false_r.
  apply includes_longer. vm_compute. reflexivity.
Qed.

Lemma snoc_not_nil {A} (l : list A) (x : A) : l ++ [x] <> [].
Proof. destruct l; discriminate. Qed.

(** X14. The proxy-aware [validateConfig] reports no error exactly when
    the port is neither below 1 nor above 65535, both base URLs are
    non-empty, and a power model without an API key is not a direct cloud
    endpoint: its base URL does not contain [api.anthropic.com] when the
    provider is [anthropic], nor [api.openai.com] when the provider is
    [openai].  The condition on the port is the one the code tests, the
    negation of [port < 1 || port > 65535]; for the integer ports of this
    development it says that the port is between 1 and 65535. *)
Theorem validateConfig_accepts (config : RouterConfig) :
  Config.validateConfig config = []
  <-> (~ port config < 1
       /\ ~ 65535 < port config
       /\ baseUrl (defaultModel config) <> []
       /\ baseUrl (powerModel config) <> []
       /\ (missing (apiKey (powerModel config)) = true ->
           (provider (powerModel config) = anthropic ->
            JS.includes (baseUrl (powerModel config)) (js "api.anthropic.com") = false)
           /\ (provider (powerModel config) = openai ->
               JS.includes (baseUrl (powerModel config)) (js "api.openai.com") = false))).
Proof.
  unfold Config.validateConfig. cbv zeta.
  rewrite isDefaultProviderUrl_anthropic, isDefaultProviderUrl_openai.
  destruct (Z.ltb_spec (port config) 1) as [Hlo|Hlo];
    destruct (Z.ltb_spec 65535 (port config)) as [Hhi|Hhi];
    destruct (baseUrl (defaultModel config)) as [|d ds];
    destruct (baseUrl (powerModel config)) as [|u us] eqn:Eurl;
    destruct (provider (powerModel config));
    destruct (missing (apiKey (powerModel config)));
    cbn [orb andb emptyString RouterClient.Provider_eqb app];
    try destruct (JS.includes (u :: us) (js "api.anthropic.com")) eqn:EA;
    try destruct (JS.includes (u :: us) (js "api.openai.com")) eqn:EO;
    cbn [app];
    (split;
     [ intro Hv; try discriminate Hv; try (exfalso; exact (snoc_not_nil _ _ Hv));
       repeat split; try lia; try discriminate; intros; try discriminate;
       try assumption; try reflexivity
     | intros (Hp & Hq & Hd & Hu & Hk); try lia; try congruence;
       try (destruct (Hk eq_refl) as [HA HO];
            first [ specialize (HA eq_refl); congruence
                  | specialize (HO eq_refl); congruence ]);
       try reflexivity ]).
Qed.

(** X15. The proxy-aware [validateConfig] never reports more errors than
    the other revision, so every configuration that the other revision
    accepts is accepted. *)
Theorem validateConfig_relaxed (config : RouterConfig) :
  (List.length (Config.validateConfig config)
   <= List.length (ConfigStrict.validateConfig config))%nat
  /\ (ConfigStrict.validateConfig config = [] -> Config.validateConfig config = []).
Proof.
  assert (Hle : (List.length (Config.validateConfig config)
                 <= List.length (ConfigStrict.validateConfig config))%nat).
  { unfold Config.validateConfig, ConfigStrict.validateConfig. cbv zeta.
    destruct ((port config <? 1) || (65535 <? port config));
      destruct (emptyString (baseUrl (defaultModel config)));
      destruct (emptyString (baseUrl (powerModel config)));
      destruct (RouterClient.Provider_eqb (provider (powerModel config)) anthropic
                && missing (apiKey (powerModel config)));
      destruct (RouterClient.Provider_eqb (provider (powerModel config)) openai
                && missing (apiKey (powerModel config)));
      try destruct (Config.isDefaultProviderUrl (js "anthropic")
                      (baseUrl (powerModel config)));
      try destruct (Config.isDefaultProviderUrl (js "openai")
                      (baseUrl (powerModel config)));
      cbn [app List.length]; lia. }
  split; [exact Hle|].
  intro H. rewrite H in Hle. cbn [List.length] in Hle.
  destruct (Config.validateConfig config); [reflexivity | cbn in Hle; lia].
Qed.

Lemma validateConfig_relaxed_witness :
  ConfigStrict.validateConfig sampleConfig = []
  /\ Config.validateConfig sampleConfig = [].
Proof.
  assert (H : ConfigStrict.validateConfig sampleConfig = []) by (vm_compute; reflexivity).
  split; [exact H|].
  exact (proj2 (validateConfig_relaxed sampleConfig) H).
Defined.

Lemma validateConfig_nil_power_key (config : RouterConfig) :
  Config.validateConfig config = [] ->
  provider (powerModel config) = anthropic ->
  JS.includes (baseUrl (powerModel config)) (js "api.anthropic.com") = true ->
  missing (apiKey (powerModel config)) = false.
Proof.
  unfold Config.validateConfig. cbv zeta.
  rewrite isDefaultProviderUrl_anthropic.
  intros H Hprov Hurl. rewrite Hprov, Hurl in H.
  destruct (missing (apiKey (powerModel config))); [|reflexivity].
  cbn [RouterClient.Provider_eqb andb] in H.
  exfalso. exact (snoc_not_nil _ _ H).
Qed.

(** X16. For a configuration that the proxy-aware [validateConfig]
    accepts, a power model that [createClient] treats as direct Anthropic
    access has a non-empty API key, and the power client of the router is
    built with that key (never the [not-required] placeholder), the fixed
    endpoint [https://api.anthropic.com/v1] and the [anthropic-version]
    header. *)
Theorem validated_direct_anthropic_client (config : RouterConfig) :
  Config.validateConfig config = [] ->
  RouterClient.isDirectAnthropic (powerModel config) = true ->
  exists key,
    apiKey (powerModel config) = Some key
    /\ key <> []
    /\ RouterClient.powerClient (RouterClient.constructor config)
       = {| RouterClient.client_apiKey := key;
            RouterClient.client_baseURL := js "https://api.anthropic.com/v1";
            RouterClient.client_defaultHeaders :=
              Some [(js "anthropic-version", js "2023-06-01")] |}.
Proof.
  intros Hvalid Hdirect.
  pose proof Hdirect as Hd. unfold RouterClient.isDirectAnthropic in Hd.
  apply andb_true_iff in Hd. destruct Hd as [Hprov Hurl].
  assert (Hp : provider (powerModel config) = anthropic)
    by (destruct (provider (powerModel config)); try discriminate; reflexivity).
  pose proof (validateConfig_nil_power_key config Hvalid Hp Hurl) as Hkey.
  destruct (apiKey (powerModel config)) as [[|k ks]|] eqn:Ek; try discriminate Hkey.
  exists (k :: ks). split; [reflexivity|]. split; [discriminate|].
  unfold RouterClient.constructor. cbn [RouterClient.powerClient].
  unfold RouterClient.createClient. cbv zeta. rewrite Hdirect, Ek. reflexivity.
Qed.

Lemma validated_direct_anthropic_client_witness :
  Config.validateConfig sampleConfig = []
  /\ RouterClient.isDirectAnthropic (powerModel sampleConfig) = true
  /\ exists key,
       apiKey (powerModel sampleConfig) = Some key
       /\ key <> []
       /\ RouterClient.powerClient (RouterClient.constructor sampleConfig)
          = {| RouterClient.client_apiKey := key;
               RouterClient.client_baseURL := js "https://api.anthropic.com/v1";
               RouterClient.client_defaultHeaders :=
                 Some [(js "anthropic-version", js "2023-06-01")] |}.
Proof.
  assert (H1 : Config.validateConfig sampleConfig = []) by (vm_compute; reflexivity).
  assert (H2 : RouterClient.isDirectAnthropic (powerModel sampleConfig) = true)
    by (vm_compute; reflexivity).
  split; [exact H1|]. split; [exact H2|].
  exact (validated_direct_anthropic_client sampleConfig H1 H2).
Defined.

(** X17. [createClient] is stable: a model configuration whose base URL
    is replaced by the base URL of its client yields the same client.
    A client that is not direct Anthropic access keeps the configured
    base URL and gets no default headers. *)
Theorem createClient_stable (config : ModelConfig) :
  RouterClient.createClient
    {| provider := provider config;
       model := model config;
       baseUrl := RouterClient.client_baseURL (RouterClient.createClient config);
       apiKey := apiKey config |}
  = RouterClient.createClient config
  /\ (RouterClient.isDirectAnthropic config = false ->
      RouterClient.client_baseURL (RouterClient.createClient config) = baseUrl config
      /\ RouterClient.client_defaultHeaders (RouterClient.createClient config) = None).
Proof.
  split.
  - unfold RouterClient.createClient at 2 3. cbv zeta.
    cbn [RouterClient.client_baseURL].
    destruct (RouterClient.isDirectAnthropic config) eqn:E.
    + unfold RouterClient.createClient. cbv zeta.
      assert (Hd : RouterClient.isDirectAnthropic
                     {| provider := provider config; model := model config;
                        baseUrl := js "https://api.anthropic.com/v1";
                        apiKey := apiKey config |} = true).
      { unfold RouterClient.isDirectAnthropic in *. cbn [provider baseUrl].
        apply andb_true_iff in E. destruct E as [-> _].
        vm_compute. reflexivity. }
      rewrite Hd. reflexivity.
    + unfold RouterClient.createClient. cbv zeta.
      assert (Hd : RouterClient.isDirectAnthropic
                     {| provider := provider config; model := model config;
                        baseUrl := baseUrl config; apiKey := apiKey config |} = false)
        by exact E.
      rewrite Hd. reflexivity.
  - intro E. unfold RouterClient.createClient. cbv zeta. rewrite E. split; reflexivity.
Qed.

Lemma createClient_stable_witness :
  RouterClient.isDirectAnthropic (defaultModel sampleConfig) = false
  /\ RouterClient.client_baseURL (RouterClient.createClient (defaultModel sampleConfig))
     = baseUrl (defaultModel sampleConfig).
Proof.
  assert (H : RouterClient.isDirectAnthropic (defaultModel sampleConfig) = false)
    by (vm_compute; reflexivity).
  split; [exact H|].
  exact (proj1 (proj2 (createClient_stable (defaultModel sampleConfig)) H)).
Defined.

(* ================================================================== *)
(** * Properties of the dispatcher and of the handler *)
(* ================================================================== *)

Section DispatchProperties.

Variable World : Type.
Variable create :
  Tier -> Router.CreateParams -> World -> (Router.Thrown + Router.Completion) * World.
Variable createStream :
  Tier -> Router.CreateParams -> World -> (Router.Thrown + Router.Upstream) * World.
Variable classifyRequest :
  list ChatMessage -> ClassificationThresholds -> ClassificationResult.
Variable config : RouterConfig.
Variable stringifyChunk : StreamChunk -> jsstring.
Variable stringifyError : jsstring -> jsstring.

Let routeRequest := Router.routeRequest World create classifyRequest config.
Let next := Router.next World createStream classifyRequest config.
Let chatCompletions :=
  Server.chatCompletions World create createStream classifyRequest config
    stringifyChunk stringifyError.
Let writeChunks :=
  Server.writeChunks World createStream classifyRequest config stringifyChunk.
Let classification (request : ChatCompletionRequest) : ClassificationResult :=
  classifyRequest (messages request) (thresholds config).

Ltac run_routeRequest :=
  unfold routeRequest, Router.routeRequest, classification, selectedTier, logged,
    paramsFor, modelOf, fallbackWarning;
  unfold Router.bind, Router.when, Router.emit, Router.ret, Router.tryCatch,
    Router.callCreate, Router.throw.

(** X18. Whatever the backends answer, [routeRequest] calls the backend
    of the selected tier once, and the power backend once more only when
    the selected tier is [default]; it never calls the default backend
    for a request classified to the power tier, and never calls a backend
    twice.  When it returns, the classification is the one it computed,
    the tier it returns is the tier of [_router] and the tier of the last
    backend called, and [_router.model] is the model configured for
    that tier. *)
Theorem routeRequest_calls (request : ChatCompletionRequest)
    (st : Router.State World) :
  let c := classification request in
  let first := Router.Create (selectedTier c)
                 (paramsFor config (selectedTier c) request false) in
  let second := Router.Create power (paramsFor config power request false) in
  let made := Router.calls (Router.trace (snd (routeRequest request st))) in
  (made = Router.calls (Router.trace st) ++ [first]
   \/ (selectedTier c = default
       /\ made = Router.calls (Router.trace st) ++ [first; second]))
  /\ match fst (routeRequest request st) with
     | Router.Return (response, t, c') =>
         c' = c
         /\ _router response
            = Some {| tier := t;
                      router_model := modelOf config t;
                      router_score := score c;
                      router_signals :=
                        if Router.Tier_eqb t (selectedTier c) then signals c
                        else signals c ++ [js "fallback_after_error"] |}
         /\ exists before, made = before ++ [Router.Create t (paramsFor config t request false)]
     | Router.Throw _ => True
     end.
Proof.
  cbv zeta. run_routeRequest.
  destruct (debug config);
    destruct (usePowerModel (classifyRequest (messages request) (thresholds config)));
    cbn [Router.world Router.trace Router.Tier_eqb andb];
    match goal with
    | |- context [create ?t ?p ?w] => destruct (create t p w) as [[e|completion] w1]
    end;
    try destruct e as [m|v];
    cbn [Router.instanceofError Router.world Router.trace fst snd];
    try match goal with
        | |- context [create ?t ?p ?w] => destruct (create t p w) as [[e2|completion2] w2]
        end;
    cbn [Router.instanceofError Router.world Router.trace fst snd Router.buildResponse
         _router Router.Tier_eqb];
    rewrite ?calls_app; cbn [Router.calls filter Router.isCreate app];
    rewrite ?app_nil_r, <- ?app_assoc; cbn [app];
    (split;
     [ first [ left; reflexivity | right; split; reflexivity ]
     | first [ exact I | idtac ];
       try (split; [reflexivity|]; split; [reflexivity|];
       first [ eexists; reflexivity
             | exists (filter Router.isCreate (Router.trace st)
                         ++ [Router.Create default
                               {| Router.params_model := model (defaultModel config);
                                  Router.params_messages := messages request;
                                  Router.params_temperature := temperature request;
                                  Router.params_max_tokens := max_tokens request;
                                  Router.params_stream := false |}]);
               rewrite <- app_assoc; reflexivity ]) ]).
Qed.

End DispatchProperties.

Section HandlerProperties.

Variable World : Type.
Variable create :
  Tier -> Router.CreateParams -> World -> (Router.Thrown + Router.Completion) * World.
Variable createStream :
  Tier -> Router.CreateParams -> World -> (Router.Thrown + Router.Upstream) * World.
Variable classifyRequest :
  list ChatMessage -> ClassificationThresholds -> ClassificationResult.
Variable config : RouterConfig.
Variable stringifyChunk : StreamChunk -> jsstring.
Variable stringifyError : jsstring -> jsstring.

Let routeRequest := Router.routeRequest World create classifyRequest config.
Let next := Router.next World createStream classifyRequest config.
Let chatCompletions :=
  Server.chatCompletions World create createStream classifyRequest config
    stringifyChunk stringifyError.
Let writeChunks :=
  Server.writeChunks World createStream classifyRequest config stringifyChunk.
Let classification (request : ChatCompletionRequest) : ClassificationResult :=
  classifyRequest (messages request) (thresholds config).
Let frameOf (chunk : Router.UpstreamChunk) : jsstring :=
  Server.frame (stringifyChunk (Router.normalizeChunk chunk)).

Lemma next_start (request : ChatCompletionRequest) (st : Router.State World) :
  next (Router.routeStreamingRequest request) st
  = match createStream (selectedTier (classification request))
            (paramsFor config (selectedTier (classification request)) request true)
            (Router.world (logged config true (classification request) st)) with
    | (inr stream, w) =>
        (Router.forAwait stream,
         {| Router.world := w;
            Router.trace :=
              Router.trace (logged config true (classification request) st)
                ++ [Router.Create (selectedTier (classification request))
                      (paramsFor config (selectedTier (classification request))
                         request true)] |})
    | (inl e, w) =>
        (Router.Raised e,
         {| Router.world := w;
            Router.trace :=
              Router.trace (logged config true (classification request) st)
                ++ [Router.Create (selectedTier (classification request))
                      (paramsFor config (selectedTier (classification request))
                         request true)] |})
    end.
Proof.
  unfold next, Router.routeStreamingRequest, Router.next, classification, selectedTier,
    logged, paramsFor, modelOf.
  unfold Router.bind, Router.when, Router.emit, Router.ret, Router.callCreateStream.
  destruct (debug config);
    destruct (usePowerModel (classifyRequest (messages request) (thresholds config)));
    cbn [Router.world Router.trace];
    match goal with
    | |- context [createStream ?t ?p ?w] =>
        destruct (createStream t p w) as [[e|stream] w1]
    end; reflexivity.
Qed.

Lemma writeChunks_step (fuel : nat) (g : Router.Generator)
    (st : Router.State World) (r : Server.Reply) :
  writeChunks (S fuel) g st r
  = match next g st with
    | (Router.Yielded chunk g', st') =>
        writeChunks fuel g' st' (Server.write (Server.frame (stringifyChunk chunk)) r)
    | (Router.Finished, st') => Some (None, st', r)
    | (Router.Raised e, st') => Some (Some e, st', r)
    end.
Proof. reflexivity. Qed.

Lemma writeChunks_forAwait (stream : Router.Upstream) :
  forall (g : Router.Generator) (st st' : Router.State World)
         (r : Server.Reply) (extra : nat),
    next g st = (Router.forAwait stream, st') ->
    writeChunks (S (List.length (Router.chunksOf stream)) + extra) g st r
    = Some (Router.endingOf stream, st',
            {| Server.code := Server.code r;
               Server.headers := Server.headers r;
               Server.written := Server.written r ++ map frameOf (Router.chunksOf stream);
               Server.ended := Server.ended r |}).
Proof.
  induction stream as [| e | chunk rest IH]; intros g st st' r extra Hnext.
  - change (S (List.length (Router.chunksOf Router.Ended)) + extra)%nat with (S extra).
    rewrite writeChunks_step, Hnext. cbn [Router.forAwait Router.chunksOf map].
    rewrite app_nil_r. destruct r; reflexivity.
  - change (S (List.length (Router.chunksOf (Router.Failed e))) + extra)%nat
      with (S extra).
    rewrite writeChunks_step, Hnext. cbn [Router.forAwait Router.chunksOf map].
    rewrite app_nil_r. destruct r; reflexivity.
  - change (S (List.length (Router.chunksOf (Router.Item chunk rest))) + extra)%nat
      with (S (S (List.length (Router.chunksOf rest)) + extra)).
    rewrite writeChunks_step, Hnext. cbn [Router.forAwait].
    rewrite (IH (Router.SuspendedYield rest) st' st' _ extra eq_refl).
    cbn [Router.chunksOf Router.endingOf map Server.write Server.code Server.headers
         Server.written Server.ended].
    unfold frameOf.
    rewrite <- (app_assoc (Server.written r)
                  [Server.frame (stringifyChunk (Router.normalizeChunk chunk))]).
    reflexivity.
Qed.

Lemma writeChunks_keeps (fuel : nat) :
  forall (g : Router.Generator) (st st' : Router.State World)
         (r r' : Server.Reply) (ending : option Router.Thrown),
    writeChunks fuel g st r = Some (ending, st', r') ->
    Server.code r' = Server.code r /\ Server.headers r' = Server.headers r
    /\ Server.ended r' = Server.ended r.
Proof.
  induction fuel as [|fuel IH]; intros g st st' r r' ending H; [discriminate|].
  rewrite writeChunks_step in H.
  destruct (next g st) as [[chunk g'| |e] st1].
  - apply IH in H. cbn [Server.write Server.code Server.headers Server.ended] in H.
    exact H.
  - injection H as _ _ <-. repeat split.
  - injection H as _ _ <-. repeat split.
Qed.

Lemma streaming_run (body : Server.Body) (msgs : list ChatMessage)
    (s : Server.State World) (extra : nat) :
  Server.body_messages body = Some msgs ->
  Server.body_stream body = Some true ->
  let request := Server.toRequest body msgs in
  let c := classification request in
  let st0 := logged config true c (Server.router s) in
  let params := paramsFor config (selectedTier c) request true in
  let answered (w : World) (frames : list jsstring) : option (Server.Outcome * Server.State World) :=
    Some (Server.Returns Server.NoBody,
          {| Server.router :=
               {| Router.world := w;
                  Router.trace := Router.trace st0 ++ [Router.Create (selectedTier c) params] |};
             Server.reply :=
               {| Server.code := Server.code (Server.reply s);
                  Server.headers :=
                    Server.headers (Server.reply s)
                      ++ [ (js "Content-Type", js "text/event-stream");
                           (js "Cache-Control", js "no-cache");
                           (js "Connection", js "keep-alive") ];
                  Server.written := Server.written (Server.reply s) ++ frames;
                  Server.ended := true |};
             Server.console := Server.console s |}) in
  match createStream (selectedTier c) params (Router.world st0) with
  | (inr stream, w) =>
      chatCompletions (S (List.length (Router.chunksOf stream)) + extra) (Some body) s
      = answered w
          (map frameOf (Router.chunksOf stream)
             ++ [match Router.endingOf stream with
                 | None => Server.doneFrame
                 | Some e => Server.frame (stringifyError (Server.errorMessage e))
                 end])
  | (inl e, w) =>
      chatCompletions (S extra) (Some body) s
      = answered w [Server.frame (stringifyError (Server.errorMessage e))]
  end.
Proof.
  intros Hmsgs Hstream. cbv zeta.
  pose proof (next_start (Server.toRequest body msgs) (Server.router s)) as Hnext.
  destruct (createStream _ _ _) as [[e|stream] w].
  - unfold chatCompletions, Server.chatCompletions. rewrite Hmsgs, Hstream. cbv zeta.
    fold writeChunks. rewrite writeChunks_step. fold next in Hnext |- *.
    rewrite Hnext.
    unfold Server.end_, Server.write, Server.setHeader.
    cbn [Server.code Server.headers Server.written Server.ended].
    rewrite <- !app_assoc. reflexivity.
  - unfold chatCompletions, Server.chatCompletions. rewrite Hmsgs, Hstream. cbv zeta.
    fold writeChunks.
    rewrite (writeChunks_forAwait stream _ _ _ _ extra Hnext).
    destruct (Router.endingOf stream) as [e|];
      unfold Server.end_, Server.write, Server.setHeader;
      cbn [Server.code Server.headers Server.written Server.ended];
      rewrite <- !app_assoc; reflexivity.
Qed.


(** X20. The handler sets the status 400 exactly when there is a body and
    it has no [messages] array: it then returns the
    [invalid_request_error] payload with the message
    [messages array is required], without calling the router and without
    touching the raw response.  With no body at all the read of
    [body.messages] throws before any status is set and before any call.
    With a [messages] array the run leaves the status as it was or sets
    500, and the model's run stops short of a result only in the
    streaming branch. *)
Theorem chatCompletions_bad_request (fuel : nat) (s : Server.State World) :
  chatCompletions fuel None s = Some (Server.ThrowsTypeError, s)
  /\ forall body : Server.Body,
       match Server.body_messages body with
       | None =>
           chatCompletions fuel (Some body) s
           = Some (Server.Returns
                     (Server.ErrorBody (js "messages array is required")
                        (js "invalid_request_error")),
                   {| Server.router := Server.router s;
                      Server.reply :=
                        {| Server.code := Some 400;
                           Server.headers := Server.headers (Server.reply s);
                           Server.written := Server.written (Server.reply s);
                           Server.ended := Server.ended (Server.reply s) |};
                      Server.console := Server.console s |})
       | Some _ =>
           match chatCompletions fuel (Some body) s with
           | Some (outcome, s') =>
               outcome <> Server.ThrowsTypeError
               /\ (Server.code (Server.reply s') = Server.code (Server.reply s)
                   \/ Server.code (Server.reply s') = Some 500)
           | None => Server.body_stream body = Some true
           end
       end.
Proof.
  split; [reflexivity|]. intro body.
  unfold chatCompletions, Server.chatCompletions.
  destruct (Server.body_messages body) as [msgs|]; [|reflexivity].
  cbv zeta.
  destruct (Server.body_stream body) as [[|]|].
  - fold writeChunks.
    destruct (writeChunks fuel _ _ _) as [[[ending st] r]|] eqn:Ew; [|reflexivity].
    apply writeChunks_keeps in Ew. destruct Ew as [Hc _].
    cbn [Server.setHeader Server.code] in Hc.
    destruct ending; (split; [discriminate|]); left;
      cbn [Server.reply Server.end_ Server.write Server.code]; exact Hc.
  - destruct (Router.routeRequest _ _ _ _ _ _) as [[[[resp t] c]|e] st];
      (split; [discriminate|]);
      cbn [Server.reply Server.setCode Server.code]; [left|right]; reflexivity.
  - destruct (Router.routeRequest _ _ _ _ _ _) as [[[[resp t] c]|e] st];
      (split; [discriminate|]);
      cbn [Server.reply Server.setCode Server.code]; [left|right]; reflexivity.
Qed.

End HandlerProperties.


Section NonStreaming.

Variable World : Type.
Variable create :
  Tier -> Router.CreateParams -> World -> (Router.Thrown + Router.Completion) * World.
Variable createStream :
  Tier -> Router.CreateParams -> World -> (Router.Thrown + Router.Upstream) * World.
Variable classifyRequest :
  list ChatMessage -> ClassificationThresholds -> ClassificationResult.
Variable config : RouterConfig.
Variable stringifyChunk : StreamChunk -> jsstring.
Variable stringifyError : jsstring -> jsstring.

Let chatCompletions :=
  Server.chatCompletions World create createStream classifyRequest config
    stringifyChunk stringifyError.
Let classification (request : ChatCompletionRequest) : ClassificationResult :=
  classifyRequest (messages request) (thresholds config).

Lemma non_streaming_run (fuel : nat) (body : Server.Body)
    (msgs : list ChatMessage) (s : Server.State World) :
  Server.body_messages body = Some msgs ->
  Server.body_stream body <> Some true ->
  let request := Server.toRequest body msgs in
  let c := classification request in
  let st0 := logged config false c (Server.router s) in
  let onDefault := paramsFor config default request false in
  let onPower := paramsFor config power request false in
  let outcome :=
    option_map
      (fun ps => (fst ps, Server.code (Server.reply (snd ps)),
                  Server.headers (Server.reply (snd ps)),
                  Server.written (Server.reply (snd ps)),
                  Server.ended (Server.reply (snd ps))))
      (chatCompletions fuel (Some body) s) in
  let ok (completion : Router.Completion) (info : RouterInfo) :=
    Some (Server.Returns (Server.ResponseBody (Router.buildResponse completion info)),
          Server.code (Server.reply s), Server.headers (Server.reply s),
          Server.written (Server.reply s), Server.ended (Server.reply s)) in
  let failed (e : Router.Thrown) :=
    Some (Server.Returns (Server.ErrorBody (Server.errorMessage e) (js "api_error")),
          Some 500, Server.headers (Server.reply s),
          Server.written (Server.reply s), Server.ended (Server.reply s)) in
  match selectedTier c with
  | power =>
      match create power onPower (Router.world st0) with
      | (inr completion, _) =>
          outcome = ok completion
                      {| tier := power; router_model := model (powerModel config);
                         router_score := score c; router_signals := signals c |}
      | (inl e, _) => outcome = failed e
      end
  | default =>
      match create default onDefault (Router.world st0) with
      | (inr completion, _) =>
          outcome = ok completion
                      {| tier := default; router_model := model (defaultModel config);
                         router_score := score c; router_signals := signals c |}
      | (inl (Router.NonError v), _) => outcome = failed (Router.NonError v)
      | (inl (Router.ErrorInstance m), w) =>
          match create power onPower w with
          | (inr completion, _) =>
              outcome = ok completion
                          {| tier := power; router_model := model (powerModel config);
                             router_score := score c;
                             router_signals := signals c ++ [js "fallback_after_error"] |}
          | (inl e, _) => outcome = failed e
          end
      end
  end.
Proof.
  intros Hmsgs Hstream. cbv zeta.
  unfold chatCompletions, Server.chatCompletions. rewrite Hmsgs. cbv zeta.
  assert (Hbranch :
    forall (A : Type) (x y : A),
      match Server.body_stream body with Some true => x | _ => y end = y).
  { intros A x y. destruct (Server.body_stream body) as [[|]|]; congruence. }
  rewrite Hbranch. clear Hbranch.
  unfold Router.routeRequest, classification, selectedTier, logged, paramsFor, modelOf.
  unfold Router.bind, Router.when, Router.emit, Router.ret, Router.tryCatch,
    Router.callCreate, Router.throw.
  cbn [messages temperature max_tokens].
  destruct (debug config);
    destruct (usePowerModel (classifyRequest (messages (Server.toRequest body msgs))
                               (thresholds config)));
    cbn [Router.world Router.trace Router.Tier_eqb andb];
    match goal with
    | |- context [create ?t ?p ?w] => destruct (create t p w) as [[e|completion] w1]
    end;
    try destruct e as [m|v];
    cbn [Router.instanceofError Router.world Router.trace];
    try match goal with
        | |- context [create ?t ?p ?w] => destruct (create t p w) as [[e2|completion2] w2]
        end;
    reflexivity.
Qed.

(** X21. What the client of a non-streaming request receives, for every
    run of the handler.  The payload is the response built from the
    completion of the backend that answered, with its id, creation time,
    model, choices and usage and, in [_router], the tier and model of
    that backend, the score and the signals; no status is set.  That
    backend is the selected one, or, when the default backend threw an
    instance of [Error], the power backend, and the signals then end with
    [fallback_after_error].  Otherwise the status is 500 and the payload
    is an [api_error] whose message is the message of the error that
    ended the request, and [Unknown error] for a thrown value that is not
    an [Error]; after a fallback that is the power backend's error, and
    the default backend's message is not reported.  The headers of the
    raw response are not set, nothing is written to it and it is not
    ended. *)
Theorem chatCompletions_non_streaming (fuel : nat) (body : Server.Body)
    (msgs : list ChatMessage) (s : Server.State World) :
  Server.body_messages body = Some msgs ->
  Server.body_stream body <> Some true ->
  let request :=
    {| request_model := Server.body_model body;
       messages := msgs;
       stream := Server.body_stream body;
       temperature := Server.body_temperature body;
       max_tokens := Server.body_max_tokens body |} in
  let c := classification request in
  let st0 := logged config false c (Server.router s) in
  let onDefault := paramsFor config default request false in
  let onPower := paramsFor config power request false in
  let outcome :=
    option_map
      (fun ps => (fst ps, Server.code (Server.reply (snd ps)),
                  Server.headers (Server.reply (snd ps)),
                  Server.written (Server.reply (snd ps)),
                  Server.ended (Server.reply (snd ps))))
      (chatCompletions fuel (Some body) s) in
  let ok (completion : Router.Completion) (info : RouterInfo) :=
    Some (Server.Returns
            (Server.ResponseBody
               {| id := Router.completion_id completion;
                  created := Router.completion_created completion;
                  response_model := Router.completion_model completion;
                  choices :=
                    map (fun choice =>
                           {| index := Router.completion_index choice;
                              message :=
                                {| role :=
                                     Router.completion_role
                                       (Router.completion_message choice);
                                   content :=
                                     StringContent
                                       match Router.completion_content
                                               (Router.completion_message choice) with
                                       | Some text => text
                                       | None => []
                                       end;
                                   name := None; tool_calls := None;
                                   tool_call_id := None |};
                              finish_reason := Router.completion_finish_reason choice |})
                        (Router.completion_choices completion);
                  usage :=
                    match Router.completion_usage completion with
                    | Some u => Some {| prompt_tokens := prompt_tokens u;
                                        completion_tokens := completion_tokens u;
                                        total_tokens := total_tokens u |}
                    | None => None
                    end;
                  _router := Some info |}),
          Server.code (Server.reply s), Server.headers (Server.reply s),
          Server.written (Server.reply s), Server.ended (Server.reply s)) in
  let failed (message : jsstring) :=
    Some (Server.Returns (Server.ErrorBody message (js "api_error")),
          Some 500, Server.headers (Server.reply s),
          Server.written (Server.reply s), Server.ended (Server.reply s)) in
  let messageOf (e : Router.Thrown) : jsstring :=
    match e with
    | Router.ErrorInstance m => m
    | Router.NonError _ => js "Unknown error"
    end in
  match selectedTier c with
  | power =>
      match create power onPower (Router.world st0) with
      | (inr completion, _) =>
          outcome = ok completion
                      {| tier := power; router_model := model (powerModel config);
                         router_score := score c; router_signals := signals c |}
      | (inl e, _) => outcome = failed (messageOf e)
      end
  | default =>
      match create default onDefault (Router.world st0) with
      | (inr completion, _) =>
          outcome = ok completion
                      {| tier := default; router_model := model (defaultModel config);
                         router_score := score c; router_signals := signals c |}
      | (inl (Router.NonError _), _) => outcome = failed (js "Unknown error")
      | (inl (Router.ErrorInstance m), w) =>
          match create power onPower w with
          | (inr completion, _) =>
              outcome = ok completion
                          {| tier := power; router_model := model (powerModel config);
                             router_score := score c;
                             router_signals := signals c ++ [js "fallback_after_error"] |}
          | (inl e, _) => outcome = failed (messageOf e)
          end
      end
  end.
Proof.
  intros Hmsgs Hstream. cbv beta zeta.
  change {| request_model := Server.body_model body;
            messages := msgs;
            stream := Server.body_stream body;
            temperature := Server.body_temperature body;
            max_tokens := Server.body_max_tokens body |}
    with (Server.toRequest body msgs).
  pose proof (non_streaming_run fuel body msgs s Hmsgs Hstream) as H.
  cbv beta zeta in H.
  destruct (selectedTier _);
    destruct (create _ _ _) as [[e|completion] w];
    try destruct e as [m|v];
    try (destruct (create _ _ _) as [[e2|completion2] w2]);
    rewrite H; unfold Router.buildResponse, Server.errorMessage; reflexivity.
Qed.

End NonStreaming.

Lemma chatCompletions_non_streaming_witness :
  Server.body_messages sampleBody = Some [userMessage (js "Hello!")]
  /\ Server.body_stream sampleBody <> Some true
  /\ option_map
       (fun ps => (fst ps, Server.code (Server.reply (snd ps)),
                   Server.headers (Server.reply (snd ps)),
                   Server.written (Server.reply (snd ps)),
                   Server.ended (Server.reply (snd ps))))
       (Server.chatCompletions unit (defaultThrows (Router.NonError (js "timeout")))
          streamsSample Classifier.classifyRequest sampleConfig
          sampleStringifyChunk sampleStringifyError 0 (Some sampleBody) freshState)
     = Some (Server.Returns (Server.ErrorBody (js "Unknown error") (js "api_error")),
             Some 500, Server.headers (Server.reply freshState),
             Server.written (Server.reply freshState),
             Server.ended (Server.reply freshState)).
Proof.
  assert (H1 : Server.body_messages sampleBody = Some [userMessage (js "Hello!")])
    by reflexivity.
  assert (H2 : Server.body_stream sampleBody <> Some true) by discriminate.
  split; [exact H1|]. split; [exact H2|].
  pose proof (chatCompletions_non_streaming unit
                (defaultThrows (Router.NonError (js "timeout")))
                streamsSample Classifier.classifyRequest sampleConfig
                sampleStringifyChunk sampleStringifyError
                0 sampleBody [userMessage (js "Hello!")] freshState H1 H2) as H.
  cbv beta zeta in H.
  assert (Hsel : selectedTier
                   (Classifier.classifyRequest
                      (messages
                         {| request_model := Server.body_model sampleBody;
                            messages := [userMessage (js "Hello!")];
                            stream := Server.body_stream sampleBody;
                            temperature := Server.body_temperature sampleBody;
                            max_tokens := Server.body_max_tokens sampleBody |})
                      (thresholds sampleConfig)) = default)
    by (vm_compute; reflexivity).
  rewrite Hsel in H.
  cbv beta iota delta [defaultThrows] in H.
  exact H.
Defined.

(* ================================================================== *)
(** * Further properties of the scoring pass *)
(* ================================================================== *)

Lemma picks_length (ps labels : list jsstring) :
  picks ps labels -> (List.length labels <= List.length ps)%nat.
Proof. induction 1; cbn [List.length]; lia. Qed.

(** X22. The signals of a pass follow the order of the detectors: they
    are, in that order, at most one label of each of [long_message:],
    [code:], [power_keywords:], [simple_keywords:],
    [multi_step_reasoning], [debugging], [deep_question],
    [academic_topic], [programming:] and [questions:]; so a pass of the
    bilingual revision carries at most ten signals, and a pass of
    [src/src/classifier.ts], which has no [deep_question] and no
    [academic_topic] detector, at most eight. *)
Theorem signals_in_detector_order (s : jsstring) (T : ClassificationThresholds) :
  picks labelPrefixes (Scored.signals (ClassifierFR.calculateComplexityScore s T))
  /\ (List.length (Scored.signals (ClassifierFR.calculateComplexityScore s T)) <= 10)%nat
  /\ picks (map js [ "long_message:"; "code:"; "power_keywords:"; "simple_keywords:";
                     "multi_step_reasoning"; "debugging"; "programming:";
                     "questions:" ]%string)
           (Scored.signals (Classifier.calculateComplexityScore s T))
  /\ (List.length (Scored.signals (Classifier.calculateComplexityScore s T)) <= 8)%nat.
Proof.
  pose proof (signals_picks_FR s T) as HFR.
  pose proof (signals_picks_EN s T) as HEN.
  split; [exact HFR|]. split; [exact (picks_length _ _ HFR)|].
  split; [exact HEN|]. exact (picks_length _ _ HEN).
Qed.

(** X23. The validation and the client agree on what direct Anthropic
    access is: for a model whose provider is [anthropic],
    [isDefaultProviderUrl('anthropic', baseUrl)] holds exactly when
    [isDirectAnthropic] does, that is, when the base URL contains
    [api.anthropic.com]; the [https://] entries of the table change
    nothing. *)
Theorem direct_anthropic_agreement (config : ModelConfig) :
  Config.isDefaultProviderUrl (js "anthropic") (baseUrl config)
  = JS.includes (baseUrl config) (js "api.anthropic.com")
  /\ Config.isDefaultProviderUrl (js "openai") (baseUrl config)
     = JS.includes (baseUrl config) (js "api.openai.com")
  /\ (provider config = anthropic ->
      RouterClient.isDirectAnthropic config
      = Config.isDefaultProviderUrl (js "anthropic") (baseUrl config)).
Proof.
  split; [apply isDefaultProviderUrl_anthropic|].
  split; [apply isDefaultProviderUrl_openai|].
  intro H. unfold RouterClient.isDirectAnthropic. rewrite H.
  rewrite isDefaultProviderUrl_anthropic. reflexivity.
Qed.

Lemma direct_anthropic_agreement_witness :
  provider (powerModel sampleConfig) = anthropic
  /\ RouterClient.isDirectAnthropic (powerModel sampleConfig)
     = Config.isDefaultProviderUrl (js "anthropic") (baseUrl (powerModel sampleConfig)).
Proof.
  assert (H : provider (powerModel sampleConfig) = anthropic) by reflexivity.
  split; [exact H|].
  exact (proj2 (proj2 (direct_anthropic_agreement (powerModel sampleConfig))) H).
Defined.

(** X24. The code-lines detector dips at its threshold.  With
    [minCodeLinesForPower] above 10, a text with exactly that many code
    lines gets the flat 5 points, and a text with one to nine lines more
    gets [floor((lines - minCodeLinesForPower) / 2)] points, fewer than 5;
    both carry the [code:] label. *)
Theorem codeLinesFactor_dip (s : jsstring) (T : ClassificationThresholds)
    (st : Scored.t) :
  10 < minCodeLinesForPower T ->
  (Common.countCodeLines s = minCodeLinesForPower T ->
   Scored.score (Common.codeLinesFactor s T st) = Scored.score st + 5)
  /\ (minCodeLinesForPower T < Common.countCodeLines s < minCodeLinesForPower T + 10 ->
      Scored.score (Common.codeLinesFactor s T st)
      = Scored.score st + (Common.countCodeLines s - minCodeLinesForPower T) / 2
      /\ Scored.score (Common.codeLinesFactor s T st) < Scored.score st + 5)
  /\ (minCodeLinesForPower T <= Common.countCodeLines s ->
      Scored.signals (Common.codeLinesFactor s T st)
      = Scored.signals st
          ++ [js "code:" ++ JS.numToString (Common.countCodeLines s) ++ js "lines"]).
Proof.
  intro Hmin. rewrite codeLinesFactor_fires, fires_score, fires_signals.
  pose proof (Z.div_mod (Common.countCodeLines s - minCodeLinesForPower T) 2 ltac:(lia))
    as Hdm.
  pose proof (Z.mod_pos_bound (Common.countCodeLines s - minCodeLinesForPower T) 2
                ltac:(lia)) as Hmod.
  repeat match goal with |- _ /\ _ => split end; intro H;
    destruct (Z.ltb_spec (minCodeLinesForPower T) (Common.countCodeLines s));
    destruct (Z.ltb_spec 10 (Common.countCodeLines s));
    cbn [orb opt]; try lia; try reflexivity.
Qed.

Lemma codeLinesFactor_dip_witness :
  10 < minCodeLinesForPower defaultThresholds
  /\ Common.countCodeLines thirtyAsyncLines = minCodeLinesForPower defaultThresholds
  /\ Scored.score (Common.codeLinesFactor thirtyAsyncLines defaultThresholds Common.start)
     = Scored.score Common.start + 5.
Proof.
  assert (H1 : 10 < minCodeLinesForPower defaultThresholds) by (cbn; lia).
  assert (H2 : Common.countCodeLines thirtyAsyncLines
               = minCodeLinesForPower defaultThresholds) by (vm_compute; reflexivity).
  split; [exact H1|]. split; [exact H2|].
  exact (proj1 (codeLinesFactor_dip thirtyAsyncLines defaultThresholds Common.start H1) H2).
Defined.

Lemma validateConfig_accepts_witness :
  Config.validateConfig sampleConfig = []
  /\ ~ port sampleConfig < 1
  /\ ~ 65535 < port sampleConfig
  /\ baseUrl (powerModel sampleConfig) <> [].
Proof.
  assert (H : Config.validateConfig sampleConfig = []) by (vm_compute; reflexivity).
  split; [exact H|].
  destruct (proj1 (validateConfig_accepts sampleConfig) H) as (Hp & Hq & _ & Hu & _).
  split; [exact Hp | split; [exact Hq | exact Hu]].
Defined.
